(** * Test generation and fault localisation core: a shallow embedding

    The development embeds the pure and the stateful core of the Python
    modules of the repository:

    - [genetic_engine.py]    (random genes, tournament selection, crossover,
                              mutation),
    - [fitness_evaluator.py] (branch-coverage fitness, global coverage set),
    - [fault_localizer.py]   (Tarantula spectrum analysis, Jaccard score),
    - [reporter.py]          (recommendations of the report),
    - [test_executor.py]     (branch identifiers from coverage data),
    - [main.py]              (initialisation and evolution of a population).

    Conventions of the embedding.

    - A Python [int] is a [Z]; a Python [float] is an exact rational [Q]
      (the order, the clamp and the decimal rounding are those of the
      reals; binary rounding error of IEEE doubles is not represented).
    - A Python [set] of strings is a [gset string]; a [dict] whose iteration
      order is observable is an association list in insertion order; a
      [dict] that is only looked up is a [gmap].
    - Calls to [random] and [uuid] read a tape of raw words, threaded through
      the functions that draw from it.
    - Objects that are mutated in place or returned by reference live in a
      store indexed by references. *)

From Stdlib Require Import ZArith QArith Qround Lqa Lia List Ascii String.
From stdpp Require Import gmap strings list sets pretty sorting.

Local Open Scope Z_scope.

(** ** Python numerics *)

Module Py.

(** Nearest integer, ties to the even neighbour: the rule of [round]. *)
Definition round_half_even (y : Q) : Z :=
  let n := Qfloor y in
  match Qcompare (y - inject_Z n) (1 # 2) with
  | Lt => n
  | Gt => n + 1
  | Eq => if Z.even n then n else n + 1
  end.

(** [round(x, ndigits)], the result in lowest terms. *)
Definition round (x : Q) (ndigits : nat) : Q :=
  let p := Z.to_pos (10 ^ Z.of_nat ndigits) in
  Qred (round_half_even (x * inject_Z (Zpos p)) # p).

(** [max(a, b)] and [min(a, b)] on two arguments: the first one is kept
    unless the second is strictly better. *)
Definition max2 (a b : Q) : Q :=
  match Qcompare b a with Gt => b | _ => a end.

Definition min2 (a b : Q) : Q :=
  match Qcompare b a with Lt => b | _ => a end.

(** [max(l)] for a non-empty list [x :: l]: the first maximal element. *)
Definition max_list (x : Q) (l : list Q) : Q := fold_left max2 l x.

(** [sum(l)]. *)
Definition sum (l : list Q) : Q := fold_left Qplus l (0 : Q).

(** [a / b] on two [int]s (true division); callers guard [b = 0]. *)
Definition truediv (a b : Z) : Q := inject_Z a / inject_Z b.

(** [l[:n]], with Python's reading of a negative bound. *)
Definition slice_to {A} (l : list A) (n : Z) : list A :=
  if 0 <=? n then take (Z.to_nat n) l
  else take (Z.to_nat (Z.of_nat (length l) + n)) l.

(** [l[n:]], with Python's reading of a negative bound. *)
Definition slice_from {A} (l : list A) (n : Z) : list A :=
  if 0 <=? n then drop (Z.to_nat n) l
  else drop (Z.to_nat (Z.of_nat (length l) + n)) l.

(** [len(l)]. *)
Definition len {A} (l : list A) : Z := Z.of_nat (length l).

(** [a < b] on floats. *)
Definition lt (a b : Q) : bool :=
  match Qcompare a b with Lt => true | _ => false end.

(** [l[i]]: a negative index counts from the end; [None] stands for the
    index being out of range. *)
Definition index {A} (l : list A) (i : Z) : option A :=
  if 0 <=? i then l !! Z.to_nat i
  else if 0 <=? len l + i then l !! Z.to_nat (len l + i) else None.

(** [l[i] = x] for an index in range. *)
Definition set_index {A} (l : list A) (i : Z) (x : A) : list A :=
  if 0 <=? i then <[Z.to_nat i := x]> l
  else <[Z.to_nat (len l + i) := x]> l.

End Py.

(** ** Exceptions *)

(** [ValueError] and [IndexError] are Python's. [InvalidReference] is raised
    by the store when a reference designates no object; a Python run, whose
    references are always live, never reaches it. *)
Inductive exn := ValueError | IndexError | InvalidReference.

Inductive result (A : Type) :=
| Ok (a : A)
| Raise (e : exn).

Arguments Ok {A} a.
Arguments Raise {A} e.

(** ** random and uuid: draws from a tape of raw words *)

Module Random.

Record rng := mk {
  words : nat -> Z;
  position : nat
}.

Definition next (r : rng) : Z * rng :=
  (words r (position r),
   {| words := words r; position := S (position r) |}).

(** [random.random()]: a float in [0, 1). *)
Definition random (r : rng) : Q * rng :=
  let '(w, r') := next r in
  ((w mod 2 ^ 53) # Z.to_pos (2 ^ 53), r').

(** [random.randint(a, b)]: an integer of [a..b]; an empty range raises
    [ValueError]. *)
Definition randint (a b : Z) (r : rng) : result Z * rng :=
  if b <? a then (Raise ValueError, r)
  else let '(w, r') := next r in (Ok (a + w mod (b - a + 1)), r').

(** [random.uniform(a, b)] is [a + (b - a) * random()]. *)
Definition uniform (a b : Q) (r : rng) : Q * rng :=
  let '(u, r') := random r in ((a + (b - a) * u)%Q, r').

(** [random.choice(seq)] on the non-empty sequence [x :: l]. *)
Definition choice {A} (x : A) (l : list A) (r : rng) : A * rng :=
  let '(w, r') := next r in
  (nth (Z.to_nat (w mod Py.len (x :: l))) (x :: l) x, r').

(** [random.sample(population, k)]: [k] members drawn without replacement;
    [ValueError] when [k] is negative or exceeds the population. *)
Fixpoint sample_go {A} (l : list A) (k : nat) (r : rng) : list A * rng :=
  match k with
  | O => ([], r)
  | S k' =>
      let '(w, r1) := next r in
      let i := Z.to_nat (w mod Py.len l) in
      match l !! i with
      | Some x =>
          let '(rest, r2) := sample_go (delete i l) k' r1 in (x :: rest, r2)
      | None => ([], r1)
      end
  end.

Definition sample {A} (l : list A) (k : Z) (r : rng) : result (list A) * rng :=
  if (k <? 0) || (Py.len l <? k) then (Raise ValueError, r)
  else let '(s, r') := sample_go l (Z.to_nat k) r in (Ok s, r').

(** [range(n)] *)
Definition range (n : Z) : list Z := map Z.of_nat (seq 0 (Z.to_nat n)).

Definition hex_digit (d : Z) : ascii :=
  nth (Z.to_nat d)
    ["0"; "1"; "2"; "3"; "4"; "5"; "6"; "7";
     "8"; "9"; "a"; "b"; "c"; "d"; "e"; "f"]%char "0"%char.

Fixpoint hex (digits : nat) (n : Z) : string :=
  match digits with
  | O => EmptyString
  | S d => hex d (n / 16) +:+ String (hex_digit (n mod 16)) EmptyString
  end.

(** [str(uuid.uuid4())[:8]]: the eight leading hexadecimal digits of a
    random identifier. *)
Definition uuid4_8 (r : rng) : string * rng :=
  let '(w, r') := next r in (hex 8 (w mod 2 ^ 32), r').

End Random.

(** ** models.py: the records the core reads and builds *)

(** A gene is a Python scalar: an [int], a [float] or a [bool]. *)
Inductive gene :=
| GInt (z : Z)
| GFloat (x : Q)
| GBool (b : bool).

Inductive gene_type := TInt | TFloat | TBool.

Definition type_of (g : gene) : gene_type :=
  match g with GInt _ => TInt | GFloat _ => TFloat | GBool _ => TBool end.

Module Chromosome.

Record t := mk {
  id : string;
  genes : list gene;
  fitness_score : Q;
  chromosome_id : option string;
  fitness : option Q
}.

Definition with_genes (c : t) (g : list gene) : t :=
  {| id := id c; genes := g; fitness_score := fitness_score c;
     chromosome_id := chromosome_id c; fitness := fitness c |}.

End Chromosome.

Record CFGEdge := mkCFGEdge {
  source_node_id : Z;
  target_node_id : Z;
  label : option string
}.

(** Of [CFGOutput] the evaluator reads [edges] only. *)
Record CFGOutput := mkCFGOutput {
  cfg_id : string;
  edges : list CFGEdge
}.

(** Of [TestExecutionOutput] the evaluator reads the status and the branches
    taken. *)
Record TestExecutionOutput := mkTestExecutionOutput {
  test_id : string;
  execution_status : string;
  branches_taken : list string
}.

Record BranchCoverageResult := mkBranchCoverageResult {
  test_case_id : string;
  branches_covered : list string;
  total_branches : Z;
  coverage_percentage : Q;
  fitness_score : Q
}.

Record FitnessEvaluationOutput := mkFitnessEvaluationOutput {
  feo_cfg_id : string;
  evaluated_count : Z;
  results : list BranchCoverageResult;
  best_fitness : Q;
  avg_fitness : Q
}.

Module TestResult.

Record t := mk {
  test_id : string;
  status : string;
  covered_lines : list Z
}.

End TestResult.

Module SuspiciousLine.

Record t := mk {
  file_name : string;
  line_number : Z;
  line_content : string;
  suspiciousness_score : Q;
  failed_coverage : Z;
  passed_coverage : Z;
  failed_count : option Z;
  passed_count : option Z
}.

End SuspiciousLine.

Module FaultLocalizationOutput.

Record t := mk {
  analysis_id : string;
  source_file : string;
  total_tests : Z;
  failed_tests : Z;
  passed_tests : Z;
  suspicious_lines : list SuspiciousLine.t
}.

End FaultLocalizationOutput.

(** A recommendation of the report. The Python strings embed numbers and, for
    the first rule, a score printed with two decimals; the constructors keep
    the rule that fired and the values it prints:
    - [NoSuspiciousLines]: "No suspicious lines identified. ..."
    - [HighPriority line score]: "HIGH PRIORITY: Line {line} has very high
      suspiciousness ({score:.2f}). ..."
    - [MediumPriority line score]: "MEDIUM PRIORITY: Line {line} shows
      moderate suspiciousness ({score:.2f}). ..."
    - [LowSuspiciousness line score]: "LOW SUSPICIOUSNESS: Top line ({line})
      has score {score:.2f}. ..."
    - [OnlyInFailed count lines]: "Found {count} line(s) ONLY executed in
      failed tests. These are highly suspect: {lines}"
    - [Clustered lo hi]: "Suspicious lines appear clustered around lines
      {lo}-{hi}. The fault may be in this code region."
    - [FewTests total]: "Only {total} test(s) available. ..."
    - [NoPassingTests]: "WARNING: No passing tests. ..."
    - [Skewed failed passed]: "Test suite is heavily skewed ({failed} failed
      vs {passed} passed). ..." *)
Inductive recommendation :=
| NoSuspiciousLines
| HighPriority (line : Z) (score : Q)
| MediumPriority (line : Z) (score : Q)
| LowSuspiciousness (line : Z) (score : Q)
| OnlyInFailed (count : Z) (lines : list Z)
| Clustered (lo hi : Z)
| FewTests (total : Z)
| NoPassingTests
| Skewed (failed passed : Z).

Module ReportOutput.

Record t := mk {
  report_id : string;
  generated_at : string;
  analysis_id : string;
  summary : string;
  top_suspicious_lines : list SuspiciousLine.t;
  recommendations : list recommendation
}.

End ReportOutput.

(** ** fitness_evaluator.py *)

Module FitnessEvaluator.

(** The instance: the branch universe and the run-scoped coverage set. *)
Record t := mk {
  cfg : CFGOutput;
  all_branches : gset string;
  global_covered_branches : gset string
}.

(** [f"{edge.source_node_id}->{edge.target_node_id}"] *)
Definition branch_id (e : CFGEdge) : string :=
  pretty (source_node_id e) +:+ "->" +:+ pretty (target_node_id e).

Definition _extract_all_branches (c : CFGOutput) : gset string :=
  fold_left (fun branches e => branches ∪ {[ branch_id e ]}) (edges c) ∅.

Definition __init__ (c : CFGOutput) : t :=
  {| cfg := c;
     all_branches := _extract_all_branches c;
     global_covered_branches := ∅ |}.

(** Truth value of a set: it is not empty. *)
Definition truthy (s : gset string) : bool := negb (bool_decide (s = ∅)).

Definition set_len (s : gset string) : Z := Z.of_nat (size s).

Definition calculate_fitness (self : t) (test_case : string)
    (execution_result : TestExecutionOutput) : BranchCoverageResult * t :=
  let covered_branches : gset string :=
    list_to_set (branches_taken execution_result) in
  let new_branches := covered_branches ∖ global_covered_branches self in
  let self' :=
    {| cfg := cfg self;
       all_branches := all_branches self;
       global_covered_branches :=
         global_covered_branches self ∪ new_branches |} in
  let total := if truthy (all_branches self)
               then set_len (all_branches self) else 1 in
  let percentage :=
    (Py.truediv (set_len covered_branches) total * 100)%Q in
  let score := Py.truediv (set_len covered_branches) total in
  let score :=
    if truthy new_branches
    then (score + (2 # 10) * Py.truediv (set_len new_branches) total)%Q
    else score in
  let score :=
    if String.eqb (execution_status execution_result) "failed"
    then (score - (1 # 10))%Q else score in
  let score := Py.max2 0 (Py.min2 1 score) in
  ({| test_case_id := test_case;
      branches_covered := elements covered_branches;
      total_branches := total;
      coverage_percentage := Py.round percentage 2;
      fitness_score := Py.round score 4 |}, self').

(** The loop of [evaluate_population]: one call per pair, in order, the
    instance threaded through. *)
Fixpoint evaluate_each (self : t)
    (test_results : list (string * TestExecutionOutput))
    : list BranchCoverageResult * t :=
  match test_results with
  | [] => ([], self)
  | (test_case, execution_result) :: rest =>
      let '(result, self1) :=
        calculate_fitness self test_case execution_result in
      let '(others, self2) := evaluate_each self1 rest in
      (result :: others, self2)
  end.

Definition evaluate_population (self : t) (cfg_name : string)
    (test_results : list (string * TestExecutionOutput))
    : FitnessEvaluationOutput * t :=
  let '(res, self') := evaluate_each self test_results in
  let fitness_scores := map fitness_score res in
  let best :=
    match fitness_scores with
    | [] => 0%Q
    | s :: rest => Py.max_list s rest
    end in
  let avg :=
    match fitness_scores with
    | [] => 0%Q
    | _ => (Py.sum fitness_scores / inject_Z (Py.len fitness_scores))%Q
    end in
  ({| feo_cfg_id := cfg_name;
      evaluated_count := Py.len res;
      results := res;
      best_fitness := Py.round best 4;
      avg_fitness := Py.round avg 4 |}, self').

(** The calls a run makes on one instance. *)
Inductive call :=
| CalculateFitness (test_case : string) (r : TestExecutionOutput)
| EvaluatePopulation (cfg_name : string)
    (test_results : list (string * TestExecutionOutput)).

Definition step (self : t) (c : call) : t :=
  match c with
  | CalculateFitness test_case r => (calculate_fitness self test_case r).2
  | EvaluatePopulation n trs => (evaluate_population self n trs).2
  end.

Definition run (self : t) (calls : list call) : t :=
  fold_left step calls self.

End FitnessEvaluator.

(** ** genetic_engine.py *)

Module GeneticEngine.

(** References to chromosome objects. *)
Definition ref := nat.

(** The store of chromosome objects and the random source. *)
Record world := mkWorld {
  heap : gmap ref Chromosome.t;
  rng : Random.rng
}.

(** Computations that read and write the world and may raise. *)
Definition M (A : Type) : Type := world -> result A * world.

#[global] Instance M_ret : MRet M := fun A a w => (Ok a, w).

#[global] Instance M_bind : MBind M := fun A B f m w =>
  match m w with
  | (Ok a, w') => f a w'
  | (Raise e, w') => (Raise e, w')
  end.

Definition raise {A} (e : exn) : M A := fun w => (Raise e, w).

Definition draw {A} (f : Random.rng -> A * Random.rng) : M A := fun w =>
  let '(a, r) := f (rng w) in (Ok a, {| heap := heap w; rng := r |}).

Definition draw_or_raise {A} (f : Random.rng -> result A * Random.rng)
    : M A := fun w =>
  let '(a, r) := f (rng w) in (a, {| heap := heap w; rng := r |}).

Definition deref (p : ref) : M Chromosome.t := fun w =>
  match heap w !! p with
  | Some c => (Ok c, w)
  | None => (Raise InvalidReference, w)
  end.

Definition store (p : ref) (c : Chromosome.t) : M unit := fun w =>
  (Ok tt, {| heap := <[p := c]> (heap w); rng := rng w |}).

(** Construction of a new object. *)
Definition new (c : Chromosome.t) : M ref := fun w =>
  let p := fresh (dom (heap w)) in
  (Ok p, {| heap := <[p := c]> (heap w); rng := rng w |}).

(** [len(chromosome.genes)] *)
Definition len_genes (p : ref) : M Z :=
  c ← deref p; mret (Py.len (Chromosome.genes c)).

(** [chromosome.genes[i]] *)
Definition get_gene (p : ref) (i : Z) : M gene :=
  c ← deref p;
  match Py.index (Chromosome.genes c) i with
  | Some g => mret g
  | None => raise IndexError
  end.

(** [chromosome.genes[i] = g] *)
Definition set_gene (p : ref) (i : Z) (g : gene) : M unit :=
  c ← deref p;
  match Py.index (Chromosome.genes c) i with
  | Some _ =>
      store p (Chromosome.with_genes c (Py.set_index (Chromosome.genes c) i g))
  | None => raise IndexError
  end.

(** [max(competitors, key=lambda c: c.fitness_score)]: the first competitor
    of maximal fitness; [ValueError] on an empty sequence. *)
Fixpoint max_go (best : ref) (best_key : Q) (rest : list ref) : M ref :=
  match rest with
  | [] => mret best
  | q :: rest' =>
      c ← deref q;
      if Py.lt best_key (Chromosome.fitness_score c)
      then max_go q (Chromosome.fitness_score c) rest'
      else max_go best best_key rest'
  end.

Definition max_by_fitness (competitors : list ref) : M ref :=
  match competitors with
  | [] => raise ValueError
  | p :: rest => c ← deref p; max_go p (Chromosome.fitness_score c) rest
  end.

Definition tournament_selection (population : list ref) : M ref :=
  let k := 3 in
  competitors ←
    draw_or_raise (Random.sample population (Z.min k (Py.len population)));
  max_by_fitness competitors.

Definition crossover (p1 p2 : ref) : M ref :=
  c1 ← deref p1;
  if Py.len (Chromosome.genes c1) <? 2 then mret p1
  else
    point ← draw_or_raise
               (Random.randint 1 (Py.len (Chromosome.genes c1) - 1));
    c2 ← deref p2;
    let new_genes :=
      Py.slice_to (Chromosome.genes c1) point ++
      Py.slice_from (Chromosome.genes c2) point in
    ident ← draw Random.uuid4_8;
    new {| Chromosome.id := ident;
           Chromosome.genes := new_genes;
           Chromosome.fitness_score := 0;
           Chromosome.chromosome_id := None;
           Chromosome.fitness := None |}.

Inductive int_mutation := Small | Large | SignFlip | Boundary.

Inductive float_mutation := FSmall | FLarge | FBoundary.

(** The body of the standard-mutation loop at position [i]. *)
Definition mutate_gene (ch : ref) (rate : Q) (i : Z) : M unit :=
  u ← draw Random.random;
  if Py.lt u rate then
    val ← get_gene ch i;
    match val with
    | GInt z =>
        mutation_type ← draw (Random.choice Small [Large; SignFlip; Boundary]);
        match mutation_type with
        | Small =>
            d ← draw_or_raise (Random.randint (-5) 5);
            set_gene ch i (GInt (z + d))
        | Large =>
            d ← draw_or_raise (Random.randint (-50) 50);
            set_gene ch i (GInt (z + d))
        | SignFlip => set_gene ch i (GInt (- z))
        | Boundary =>
            v ← draw (Random.choice (GInt 0) [GInt (-1); GInt 1; val]);
            set_gene ch i v
        end
    | GFloat x =>
        mutation_type ← draw (Random.choice FSmall [FLarge; FBoundary]);
        match mutation_type with
        | FSmall =>
            d ← draw (Random.uniform (-5) 5);
            set_gene ch i (GFloat (Py.round (x + d) 2))
        | FLarge =>
            d ← draw (Random.uniform (-50) 50);
            set_gene ch i (GFloat (Py.round (x + d) 2))
        | FBoundary =>
            v ← draw (Random.choice (GFloat 0) [GFloat (-1); GFloat 1; val]);
            set_gene ch i v
        end
    | GBool b => set_gene ch i (GInt (1 - Z.b2z b))
    end
  else mret tt.

(** [for i in range(n): body i] *)
Fixpoint for_each (indices : list Z) (body : Z -> M unit) : M unit :=
  match indices with
  | [] => mret tt
  | i :: rest => body i ;; for_each rest body
  end.

Definition mutate (ch : ref) (rate : Q) : M unit :=
  (* SPECIAL MUTATION 1: make two genes equal *)
  n ← len_genes ch;
  (if 2 <=? n then
     u ← draw Random.random;
     if Py.lt u (3 # 10) then
       picked ← draw_or_raise (Random.sample (Random.range n) 2);
       match picked with
       | [idx1; idx2] => v ← get_gene ch idx1; set_gene ch idx2 v
       | _ => raise ValueError
       end
     else mret tt
   else mret tt) ;;
  (* SPECIAL MUTATION 2: boundary value *)
  u ← draw Random.random;
  returned ←
    (if Py.lt u (1 # 10) then
       n ← len_genes ch;
       idx ← draw_or_raise (Random.randint 0 (n - 1));
       val ← get_gene ch idx;
       match val with
       | GInt _ | GFloat _ =>
           b ← draw (Random.choice 0 [-1; 1; -100; 100]);
           set_gene ch idx (GInt b) ;; mret true
       | GBool _ => mret false
       end
     else mret false);
  if (returned : bool) then mret tt
  else
    (* STANDARD MUTATION *)
    n ← len_genes ch;
    for_each (Random.range n) (mutate_gene ch rate).

(** *** Reasoning about one chromosome object

    [in_place ch h0 c0 w] relates a world to the store [h0] in which [ch]
    designated [c0]: the store is [h0] with the object at [ch] holding new
    genes, as many as before, all integers if they all were; every other
    object and every other field is as in [h0]. *)

Definition is_int (g : gene) : Prop := type_of g = TInt.

Definition in_place (ch : ref) (h0 : gmap ref Chromosome.t)
    (c0 : Chromosome.t) (w : world) : Prop :=
  exists g,
    heap w = <[ch := Chromosome.with_genes c0 g]> h0 /\
    length g = length (Chromosome.genes c0) /\
    (Forall is_int (Chromosome.genes c0) -> Forall is_int g).

(** [m] run from a world satisfying [I] returns normally, in a world
    satisfying [I], a value satisfying [post]. *)
Definition returns {A} (I : world -> Prop) (m : M A) (post : A -> Prop)
    : Prop :=
  forall w, I w -> exists a w', m w = (Ok a, w') /\ I w' /\ post a.

End GeneticEngine.

(** ** fault_localizer.py *)

Module TarantulaLocalizer.

(** The value [{"passed": N, "failed": M}] kept for a line. *)
Record coverage := mkCoverage {
  passed : Z;
  failed : Z
}.

(** [line_coverage]: a [dict] from line numbers to counts, in insertion
    order (the order in which [items()] yields it). *)
Definition matrix := list (Z * coverage).

(** The instance: its scratch coverage matrix. *)
Record t := mk {
  line_coverage : matrix
}.

Definition __init__ : t := {| line_coverage := [] |}.

(** [d.get(k)] *)
Fixpoint dict_get (d : matrix) (k : Z) : option coverage :=
  match d with
  | [] => None
  | (k', c) :: rest => if k' =? k then Some c else dict_get rest k
  end.

(** [k in d] *)
Definition dict_mem (d : matrix) (k : Z) : bool :=
  match dict_get d k with Some _ => true | None => false end.

(** [d[k] = c]: an existing key keeps its place, a new key goes last. *)
Fixpoint dict_set (d : matrix) (k : Z) (c : coverage) : matrix :=
  match d with
  | [] => [(k, c)]
  | (k', c') :: rest =>
      if k' =? k then (k', c) :: rest else (k', c') :: dict_set rest k c
  end.

(** The two counters that the loops bump. *)
Definition bump_passed (c : coverage) : coverage :=
  {| passed := passed c + 1; failed := failed c |}.

Definition bump_failed (c : coverage) : coverage :=
  {| passed := passed c; failed := failed c + 1 |}.

(** [{"passed": 0, "failed": 0}] *)
Definition zero_coverage : coverage := {| passed := 0; failed := 0 |}.

(** The body of the inner loops:
    [if line_num not in d: d[line_num] = {"passed": 0, "failed": 0}],
    then [d[line_num][...] += 1]. *)
Definition count_line (bump : coverage -> coverage) (d : matrix)
    (line_num : Z) : matrix :=
  let d :=
    if dict_mem d line_num then d
    else dict_set d line_num zero_coverage in
  match dict_get d line_num with
  | Some c => dict_set d line_num (bump c)
  | None => d
  end.

Definition count_tests (bump : coverage -> coverage) (d : matrix)
    (tests : list TestResult.t) : matrix :=
  fold_left
    (fun d test => fold_left (count_line bump) (TestResult.covered_lines test) d)
    tests d.

Definition _build_coverage_matrix (self : t)
    (passed_tests failed_tests : list TestResult.t) : t :=
  let d : matrix := [] in
  let d := count_tests bump_passed d passed_tests in
  let d := count_tests bump_failed d failed_tests in
  {| line_coverage := d |}.

(** [f"<line {line_num}>"] *)
Definition placeholder (line_num : Z) : string :=
  "<line " +:+ pretty line_num +:+ ">".

(** The Tarantula formula on the counts of one line. *)
Definition tarantula (n_passed n_failed total_passed total_failed : Z) : Q :=
  let pct_failed :=
    if 0 <? total_failed then Py.truediv n_failed total_failed else 0%Q in
  let pct_passed :=
    if 0 <? total_passed then Py.truediv n_passed total_passed else 0%Q in
  let denominator := (pct_failed + pct_passed)%Q in
  if Py.lt 0 denominator then (pct_failed / denominator)%Q else 0%Q.

(** The body of the loop of [_calculate_suspiciousness]. [source_lines] is
    [None] or a dictionary; an empty dictionary has no key either. *)
Definition suspicious_line (source_file : string)
    (total_passed total_failed : Z) (source_lines : option (gmap Z string))
    (item : Z * coverage) : SuspiciousLine.t :=
  let line_num := item.1 in
  let n_passed := passed item.2 in
  let n_failed := failed item.2 in
  let suspiciousness :=
    tarantula n_passed n_failed total_passed total_failed in
  let line_content :=
    match source_lines with
    | Some lines =>
        match lines !! line_num with
        | Some text => text
        | None => placeholder line_num
        end
    | None => placeholder line_num
    end in
  {| SuspiciousLine.file_name := source_file;
     SuspiciousLine.line_number := line_num;
     SuspiciousLine.line_content := line_content;
     SuspiciousLine.suspiciousness_score := Py.round suspiciousness 4;
     SuspiciousLine.failed_coverage := n_failed;
     SuspiciousLine.passed_coverage := n_passed;
     SuspiciousLine.failed_count := None;
     SuspiciousLine.passed_count := None |}.

Definition _calculate_suspiciousness (self : t) (source_file : string)
    (total_passed total_failed : Z) (source_lines : option (gmap Z string))
    : list SuspiciousLine.t :=
  map (suspicious_line source_file total_passed total_failed source_lines)
      (line_coverage self).

(** [suspicious_lines.sort(key=lambda x: x.suspiciousness_score,
    reverse=True)]: a stable sort, highest score first; records of equal
    score keep their relative order. *)
Fixpoint insert_desc (x : SuspiciousLine.t) (l : list SuspiciousLine.t)
    : list SuspiciousLine.t :=
  match l with
  | [] => [x]
  | y :: rest =>
      if Py.lt (SuspiciousLine.suspiciousness_score x)
               (SuspiciousLine.suspiciousness_score y)
      then y :: insert_desc x rest
      else x :: y :: rest
  end.

Definition sort_desc (l : list SuspiciousLine.t) : list SuspiciousLine.t :=
  foldr insert_desc [] l.

Definition has_status (s : string) (test : TestResult.t) : bool :=
  String.eqb (TestResult.status test) s.

Definition analyze (self : t) (r : Random.rng) (source_file : string)
    (test_results : list TestResult.t)
    (source_lines : option (gmap Z string))
    : FaultLocalizationOutput.t * t * Random.rng :=
  let '(ident, r') := Random.uuid4_8 r in
  let passed_tests := List.filter (has_status "passed") test_results in
  let failed_tests := List.filter (has_status "failed") test_results in
  match failed_tests with
  | [] =>
      ({| FaultLocalizationOutput.analysis_id := ident;
          FaultLocalizationOutput.source_file := source_file;
          FaultLocalizationOutput.total_tests := Py.len test_results;
          FaultLocalizationOutput.failed_tests := 0;
          FaultLocalizationOutput.passed_tests := Py.len passed_tests;
          FaultLocalizationOutput.suspicious_lines := [] |}, self, r')
  | _ :: _ =>
      let self' := _build_coverage_matrix self passed_tests failed_tests in
      let suspicious :=
        _calculate_suspiciousness self' source_file
          (Py.len passed_tests) (Py.len failed_tests) source_lines in
      let suspicious := sort_desc suspicious in
      ({| FaultLocalizationOutput.analysis_id := ident;
          FaultLocalizationOutput.source_file := source_file;
          FaultLocalizationOutput.total_tests := Py.len test_results;
          FaultLocalizationOutput.failed_tests := Py.len failed_tests;
          FaultLocalizationOutput.passed_tests := Py.len passed_tests;
          FaultLocalizationOutput.suspicious_lines := suspicious |}, self', r')
  end.

(** How many times the tests of a list name a line among their covered
    lines. *)
Fixpoint hits (tests : list TestResult.t) (line_num : Z) : nat :=
  match tests with
  | [] => O
  | test :: rest =>
      (count_occ Z.eq_dec (TestResult.covered_lines test) line_num
       + hits rest line_num)%nat
  end.

(** Some test of the spectrum with status [s] covers line [k]. *)
Definition covered_by (tests : list TestResult.t) (s : string) (k : Z)
    : Prop :=
  exists test,
    In test tests /\ TestResult.status test = s /\
    In k (TestResult.covered_lines test).

End TarantulaLocalizer.

(** ** reporter.py *)

Module FaultLocalizationReporter.

(** [" | ".join(parts)] *)
Fixpoint join (sep : string) (parts : list string) : string :=
  match parts with
  | [] => EmptyString
  | [p] => p
  | p :: rest => p +:+ sep +:+ join sep rest
  end.

Definition _generate_summary (analysis : FaultLocalizationOutput.t)
    (num_reported : Z) : string :=
  let summary_parts :=
    [ "Fault Localization Report for: " +:+
        FaultLocalizationOutput.source_file analysis;
      "Total tests executed: " +:+
        pretty (FaultLocalizationOutput.total_tests analysis);
      "Passed: " +:+ pretty (FaultLocalizationOutput.passed_tests analysis)
        +:+ ", Failed: " +:+
        pretty (FaultLocalizationOutput.failed_tests analysis);
      "Suspicious lines identified: " +:+
        pretty (Py.len (FaultLocalizationOutput.suspicious_lines analysis));
      "Top " +:+ pretty num_reported +:+ " lines reported below" ] in
  let summary_parts :=
    if FaultLocalizationOutput.failed_tests analysis =? 0 then
      summary_parts ++
      ["No test failures detected - no fault localization needed."]
    else if Py.len (FaultLocalizationOutput.suspicious_lines analysis) =? 0
    then summary_parts ++ ["No executable lines covered by tests."]
    else summary_parts in
  join " | " summary_parts.

(** [sorted(line_numbers)] *)
Definition sorted (line_numbers : list Z) : list Z :=
  merge_sort Z.le line_numbers.

(** [sorted_lines[i+1] - sorted_lines[i] for i in range(len(sorted_lines)-1)] *)
Fixpoint gaps (sorted_lines : list Z) : list Z :=
  match sorted_lines with
  | a :: (b :: _) as rest => (b - a) :: gaps rest
  | _ => []
  end.

(** [max(...)] and [min(...)] over the non-empty sequence [x :: l]. *)
Definition max_of (x : Z) (l : list Z) : Z := fold_left Z.max l x.

Definition min_of (x : Z) (l : list Z) : Z := fold_left Z.min l x.

Definition _are_lines_clustered (line_numbers : list Z) (threshold : Z)
    : bool :=
  if Py.len line_numbers <? 2 then false
  else
    let sorted_lines := sorted line_numbers in
    match gaps sorted_lines with
    | g :: gs => max_of g gs <=? threshold
    | [] => false
    end.

Definition only_in_failed (line : SuspiciousLine.t) : bool :=
  (SuspiciousLine.passed_coverage line =? 0) &&
  (0 <? SuspiciousLine.failed_coverage line).

Definition _generate_recommendations (analysis : FaultLocalizationOutput.t)
    (top_suspicious : list SuspiciousLine.t) : list recommendation :=
  match top_suspicious with
  | [] => [NoSuspiciousLines]
  | top_line :: _ =>
      let score := SuspiciousLine.suspiciousness_score top_line in
      let line := SuspiciousLine.line_number top_line in
      (* Recommendation 1: focus on highest suspiciousness *)
      let first :=
        if Py.lt (8 # 10) score then [HighPriority line score]
        else if Py.lt (5 # 10) score then [MediumPriority line score]
        else [LowSuspiciousness line score] in
      (* Recommendation 2: lines only in failed tests *)
      let only := List.filter only_in_failed top_suspicious in
      let second :=
        match only with
        | [] => []
        | _ :: _ =>
            [OnlyInFailed (Py.len only)
               (map SuspiciousLine.line_number (Py.slice_to only 3))]
        end in
      (* Recommendation 3: clustered suspicious lines *)
      let third :=
        if 3 <=? Py.len top_suspicious then
          let line_nums :=
            map SuspiciousLine.line_number (Py.slice_to top_suspicious 5) in
          if _are_lines_clustered line_nums 5 then
            match line_nums with
            | x :: l => [Clustered (min_of x l) (max_of x l)]
            | [] => []
            end
          else []
        else [] in
      (* Recommendation 4: test coverage quality *)
      let fourth :=
        if FaultLocalizationOutput.total_tests analysis <? 5
        then [FewTests (FaultLocalizationOutput.total_tests analysis)]
        else [] in
      (* Recommendation 5: balance of passed and failed tests *)
      let fifth :=
        if FaultLocalizationOutput.passed_tests analysis =? 0
        then [NoPassingTests]
        else if FaultLocalizationOutput.passed_tests analysis * 2
                <? FaultLocalizationOutput.failed_tests analysis
        then [Skewed (FaultLocalizationOutput.failed_tests analysis)
                     (FaultLocalizationOutput.passed_tests analysis)]
        else [] in
      first ++ second ++ third ++ fourth ++ fifth
  end.

(** [generate_report]; [now] is what [datetime.now().isoformat()] returns. *)
Definition generate_report (r : Random.rng) (now : string)
    (analysis : FaultLocalizationOutput.t) (top_n : Z)
    : ReportOutput.t * Random.rng :=
  let '(ident, r') := Random.uuid4_8 r in
  let top_suspicious :=
    Py.slice_to (FaultLocalizationOutput.suspicious_lines analysis) top_n in
  let summary := _generate_summary analysis (Py.len top_suspicious) in
  let recommendations := _generate_recommendations analysis top_suspicious in
  ({| ReportOutput.report_id := ident;
      ReportOutput.generated_at := now;
      ReportOutput.analysis_id :=
        FaultLocalizationOutput.analysis_id analysis;
      ReportOutput.summary := summary;
      ReportOutput.top_suspicious_lines := top_suspicious;
      ReportOutput.recommendations := recommendations |}, r').

(** The first five reported line numbers, as rule 3 reads them. *)
Definition first_five (analysis : FaultLocalizationOutput.t) (top_n : Z)
    : list Z :=
  map SuspiciousLine.line_number
    (Py.slice_to
       (Py.slice_to (FaultLocalizationOutput.suspicious_lines analysis) top_n)
       5).

(** Every two neighbours of a list are at most [threshold] apart. *)
Definition neighbours_within (threshold : Z) (l : list Z) : Prop :=
  forall (i : nat) (a b : Z),
    l !! i = Some a -> l !! S i = Some b -> b - a <= threshold.

(** The numbers of [l], in ascending order, have neighbours at most
    [threshold] apart. *)
Definition chained_within (threshold : Z) (l : list Z) : Prop :=
  exists s, s ≡ₚ l /\ Sorted Z.le s /\ neighbours_within threshold s.

Definition is_min (lo : Z) (l : list Z) : Prop :=
  In lo l /\ Forall (fun x => lo <= x) l.

Definition is_max (hi : Z) (l : list Z) : Prop :=
  In hi l /\ Forall (fun x => x <= hi) l.

End FaultLocalizationReporter.

(** ** fault_localizer.py: the functions around [analyze] *)

Module GCovData.

Record t := mk {
  file_name : string;
  line_number : Z;
  execution_count : Z;
  source_line : string
}.

End GCovData.

(** [TestExecutionOutput] with all its fields, as the executor builds it. *)
Module Execution.

Record t := mk {
  test_id : string;
  execution_status : string;
  output : option string;
  error : option string;
  coverage_data : list GCovData.t;
  branches_taken : list string;
  execution_time : Q
}.

End Execution.

Module FaultLocalizer.

(** [TarantulaLocalizer.get_top_suspicious] *)
Definition get_top_suspicious (analysis : FaultLocalizationOutput.t)
    (top_n : Z) : list SuspiciousLine.t :=
  Py.slice_to (FaultLocalizationOutput.suspicious_lines analysis) top_n.

(** [s.split('\n')]: the pieces between line feeds; a string without line
    feed, the empty one too, is its own single piece. *)
Fixpoint split_lines (s : string) : list string :=
  match s with
  | EmptyString => [EmptyString]
  | String c rest =>
      if Ascii.eqb c "010"%char then EmptyString :: split_lines rest
      else
        match split_lines rest with
        | first :: others => String c first :: others
        | [] => [String c EmptyString]
        end
  end.

(** [for i, line in enumerate(lines, start=i0): source_lines[i] = line] *)
Fixpoint number_lines (i : Z) (lines : list string)
    (source_lines : gmap Z string) : gmap Z string :=
  match lines with
  | [] => source_lines
  | line :: rest => number_lines (i + 1) rest (<[i := line]> source_lines)
  end.

(** [[cov.line_number for cov in execution.coverage_data
     if cov.execution_count > 0]] *)
Definition covered_lines_of (execution : Execution.t) : list Z :=
  map GCovData.line_number
    (List.filter (fun cov => 0 <? GCovData.execution_count cov)
       (Execution.coverage_data execution)).

Definition to_test_result (item : string * Execution.t) : TestResult.t :=
  {| TestResult.test_id := item.1;
     TestResult.status := Execution.execution_status item.2;
     TestResult.covered_lines := covered_lines_of item.2 |}.

(** [analyze_from_executions]: a new localizer analyses the converted
    executions with the numbered lines of the source. *)
Definition analyze_from_executions (r : Random.rng) (source_file : string)
    (source_code : string) (executions : list (string * Execution.t))
    : FaultLocalizationOutput.t * Random.rng :=
  let source_lines := number_lines 1 (split_lines source_code) ∅ in
  let test_results := map to_test_result executions in
  let localizer := TarantulaLocalizer.__init__ in
  let '(out, _, r') :=
    TarantulaLocalizer.analyze localizer r source_file test_results
      (Some source_lines) in
  (out, r').

(** [calculate_jaccard_score] *)
Definition calculate_jaccard_score (n_failed n_passed total_failed : Z) : Q :=
  let denominator := total_failed + n_passed in
  if denominator =? 0 then 0%Q else Py.truediv n_failed denominator.

(** The order in which the lines of a list are first met. *)
Fixpoint first_occurrences (seen : list Z) (lines : list Z) : list Z :=
  match lines with
  | [] => []
  | k :: rest =>
      if bool_decide (k ∈ seen) then first_occurrences seen rest
      else k :: first_occurrences (seen ++ [k]) rest
  end.

(** The lines of a spectrum in discovery order: the passed tests are
    scanned first, then the failed ones, each in the order given. *)
Definition discovery_order (tests : list TestResult.t) : list Z :=
  first_occurrences []
    (concat (map TestResult.covered_lines
               (List.filter (TarantulaLocalizer.has_status "passed") tests ++
                List.filter (TarantulaLocalizer.has_status "failed") tests))).

(** [x] stands in [l] at an earlier position than [y]. *)
Definition before {A} (x y : A) (l : list A) : Prop :=
  exists l1 l2 l3, l = l1 ++ x :: l2 ++ y :: l3.

(** A list of records in descending order of score. *)
Definition descending (l : list SuspiciousLine.t) : Prop :=
  StronglySorted
    (fun x y => (SuspiciousLine.suspiciousness_score y <=
                 SuspiciousLine.suspiciousness_score x)%Q) l.

Definition has_score (s : Q) (x : SuspiciousLine.t) : bool :=
  Qeq_bool (SuspiciousLine.suspiciousness_score x) s.

End FaultLocalizer.

(** ** fitness_evaluator.py: the score before clamping and rounding *)

Module FitnessScore.

(** [max(0.0, min(1.0, x))] *)
Definition clamp (x : Q) : Q := Py.max2 0 (Py.min2 1 x).

(** The score of an outcome with [covered] distinct branches, [fresh] of
    them new, over [total] branches: base, novelty bonus, penalty. *)
Definition raw (covered fresh total : Z) (is_failed : bool) : Q :=
  (Py.truediv covered total
   + (if 0 <? fresh then (2 # 10) * Py.truediv fresh total else 0)
   - (if is_failed then 1 # 10 else 0))%Q.

(** The denominator: the size of the universe, 1 when it is empty. *)
Definition total_of (self : FitnessEvaluator.t) : Z :=
  if FitnessEvaluator.truthy (FitnessEvaluator.all_branches self)
  then FitnessEvaluator.set_len (FitnessEvaluator.all_branches self) else 1.

(** All the branches taken by the candidates of a list. *)
Fixpoint branches_of (test_results : list (string * TestExecutionOutput))
    : gset string :=
  match test_results with
  | [] => ∅
  | (_, r) :: rest => list_to_set (branches_taken r) ∪ branches_of rest
  end.

End FitnessScore.

(** ** Python strings: stripping and the substring test

    A character is a code point below 256. *)

Module Str.

(** [c.isspace()] *)
Definition isspace (c : ascii) : bool :=
  let n := nat_of_ascii c in
  ((9 <=? n) && (n <=? 13) || (28 <=? n) && (n <=? 32)
   || (n =? 133) || (n =? 160))%nat.

Fixpoint lstrip (s : string) : string :=
  match s with
  | String c rest => if isspace c then lstrip rest else s
  | EmptyString => EmptyString
  end.

Fixpoint rstrip (s : string) : string :=
  match s with
  | String c rest =>
      match rstrip rest with
      | EmptyString => if isspace c then EmptyString else String c EmptyString
      | kept => String c kept
      end
  | EmptyString => EmptyString
  end.

(** [s.strip()] *)
Definition strip (s : string) : string := rstrip (lstrip s).

(** [s.startswith(p)] *)
Fixpoint startswith (p s : string) : bool :=
  match p, s with
  | EmptyString, _ => true
  | String a p', String b s' => Ascii.eqb a b && startswith p' s'
  | String _ _, EmptyString => false
  end.

(** [p in s] on strings *)
Fixpoint contains (p s : string) : bool :=
  startswith p s ||
  match s with
  | String _ s' => contains p s'
  | EmptyString => false
  end.

End Str.

(** ** test_executor.py: branch identifiers from coverage data

    Only [_extract_branches] is embedded: compilation, execution and the
    parsing of gcov's output go through the operating system. *)

Module TestExecutor.

Import Str.

Definition keywords : list string :=
  ["if"; "else"; "for"; "while"; "switch"; "case"]%string.

(** [any(keyword in source for keyword in [...])] *)
Definition is_decision (source : string) : bool :=
  existsb (fun keyword => contains keyword source) keywords.

(** The identifiers one record contributes; [following] is the rest of
    the list after it, so that [i + 1 < len(coverage_data)] reads "the
    rest is not empty" and [coverage_data[i + 1]] is its head. *)
Definition branches_at (cov : GCovData.t) (following : list GCovData.t)
    : list string :=
  if 0 <? GCovData.execution_count cov then
    let source := strip (GCovData.source_line cov) in
    if is_decision source then
      let branch_id := "L" +:+ pretty (GCovData.line_number cov) in
      [branch_id] ++
      (if contains "if" source then
         ["L" +:+ pretty (GCovData.line_number cov) +:+ "_true"] ++
         match following with
         | next_cov :: _ =>
             if 0 <? GCovData.execution_count next_cov
             then ["L" +:+ pretty (GCovData.line_number cov) +:+ "_false"]
             else []
         | [] => []
         end
       else [])
    else []
  else [].

Fixpoint _extract_branches (coverage_data : list GCovData.t) : list string :=
  match coverage_data with
  | [] => []
  | cov :: following =>
      branches_at cov following ++ _extract_branches following
  end.

(** What follows the line number in an identifier. *)
Definition suffixes : list string :=
  [EmptyString; "_true"; "_false"]%string.

End TestExecutor.

(** ** genetic_engine.py: random genes, the mock fitness *)

Module GeneticMore.

Import GeneticEngine.

(** [generate_random_gene]: the tests on the parameter type are substring
    tests, tried in this order. *)
Definition generate_random_gene (param_type : string) (r : Random.rng)
    : result gene * Random.rng :=
  if Str.contains "int" param_type then
    match Random.randint (-100) 100 r with
    | (Ok z, r') => (Ok (GInt z), r')
    | (Raise e, r') => (Raise e, r')
    end
  else if Str.contains "float" param_type || Str.contains "double" param_type
  then
    let '(x, r') := Random.uniform (-100) 100 r in
    (Ok (GFloat (Py.round x 2)), r')
  else if Str.contains "bool" param_type then
    let '(z, r') := Random.choice 0 [1] r in (Ok (GInt z), r')
  else (Ok (GInt 0), r).

(** A gene is a number of -100..100, not a boolean. *)
Definition gene_in_range (g : gene) : Prop :=
  match g with
  | GInt z => -100 <= z <= 100
  | GFloat x => (-100 <= x)%Q /\ (x <= 100)%Q
  | GBool _ => False
  end.

(** [calculate_fitness_mock]: the chromosome is not read. *)
Definition calculate_fitness_mock (chromosome : ref) : M Q :=
  u ← draw (Random.uniform (1 # 10) (9 # 10));
  mret (Py.round u 2).

(** The fitness score of the object at a reference. *)
Definition fitness_of (w : world) (p : ref) : Q :=
  match heap w !! p with
  | Some c => Chromosome.fitness_score c
  | None => 0
  end.

End GeneticMore.

(** ** Concrete inputs used by the scenarios and the examples *)


(** A universe of two branches, ["1->2"] and ["2->3"]. *)
Definition two_branch_cfg : CFGOutput :=
  {| cfg_id := "c";
     edges := [ mkCFGEdge 1 2 None; mkCFGEdge 2 3 None ] |}.



(** A tape whose every word is 0: [random()] is 0.0, [randint(a, b)] is [a],
    [choice] takes the first element. *)
Definition zero_tape : Random.rng :=
  {| Random.words := fun _ => 0; Random.position := 0 |}.

Definition chromosome (name : string) (g : list gene) : Chromosome.t :=
  {| Chromosome.id := name;
     Chromosome.genes := g;
     Chromosome.fitness_score := 0;
     Chromosome.chromosome_id := None;
     Chromosome.fitness := None |}.

Definition store_of (c1 c2 : Chromosome.t)
    : gmap GeneticEngine.ref Chromosome.t :=
  <[0%nat := c1]> (<[1%nat := c2]> ∅).

(** Two parents of three integer genes each, at references 0 and 1. *)
Definition parents_world : GeneticEngine.world :=
  {| GeneticEngine.heap :=
       store_of (chromosome "p1" [GInt 1; GInt 2; GInt 3])
                (chromosome "p2" [GInt 9; GInt 8; GInt 7]);
     GeneticEngine.rng := zero_tape |}.

(** A parent of three genes and a parent of one gene. *)
Definition mismatched_world : GeneticEngine.world :=
  {| GeneticEngine.heap :=
       store_of (chromosome "p1" [GInt 1; GInt 2; GInt 3])
                (chromosome "p2" [GInt 9]);
     GeneticEngine.rng := zero_tape |}.

(** A chromosome of one real gene, 2.5, at reference 0. *)
Definition float_world : GeneticEngine.world :=
  {| GeneticEngine.heap := <[0%nat := chromosome "c" [GFloat (5 # 2)]]> ∅;
     GeneticEngine.rng := zero_tape |}.

(** Scenario A: a passed test covers lines 1 and 2, a failed test covers
    lines 1, 2 and 3. *)
Definition scenario_A : list TestResult.t :=
  [ TestResult.mk "p" "passed" [1; 2];
    TestResult.mk "f" "failed" [1; 2; 3] ].

(** A passed test and a test that ended in an error. *)
Definition passed_test : TestResult.t := TestResult.mk "p" "passed" [1; 2].

Definition error_test : TestResult.t := TestResult.mk "e" "error" [2; 3].

(** A spectrum whose ranking is lines 1, 6, 11: neighbours are 5 apart, the
    whole span is 10. *)
Definition spread_spectrum : list TestResult.t :=
  [ TestResult.mk "f" "failed" [1; 6; 11];
    TestResult.mk "p1" "passed" [6; 11];
    TestResult.mk "p2" "passed" [11] ].

(** A spectrum whose ranking is lines 10, 11: a span of 1, two lines. *)
Definition pair_spectrum : list TestResult.t :=
  [ TestResult.mk "f" "failed" [10; 11];
    TestResult.mk "p" "passed" [11] ].

Definition analysis_of (tests : list TestResult.t)
    : FaultLocalizationOutput.t :=
  (TarantulaLocalizer.analyze TarantulaLocalizer.__init__ zero_tape
     "f.cpp" tests None).1.1.

Definition report_of (tests : list TestResult.t) (top_n : Z)
    : ReportOutput.t :=
  (FaultLocalizationReporter.generate_report zero_tape
     "2025-01-01T00:00:00" (analysis_of tests) top_n).1.

(** ** main.py: the two endpoints of the genetic algorithm

    [initialize_population] and [evolve_population] are embedded from the
    point where the control-flow graph and the stored population have been
    found ([required_inputs], [current_output]); the registries and the
    HTTP layer are not represented. A population lists references to
    chromosome objects: the lists of an output share their objects, and so
    do successive generations. *)

Module Main.

Import GeneticEngine GeneticMore.

Record PopulationOutput := mkPopulationOutput {
  generation_id : Z;
  status : string;
  population_count : Z;
  individuals : list ref;
  generation : option Z;
  population : option (list ref);
  best_individuals : option (list ref);
  best_fitness : option Q;
  average_fitness : option Q;
  population_id : option string
}.

(** [[engine.generate_random_gene(p_type) for p_type in required_params]] *)
Fixpoint random_genes (required_params : list string) : M (list gene) :=
  match required_params with
  | [] => mret []
  | p_type :: rest =>
      g ← draw_or_raise (generate_random_gene p_type);
      gs ← random_genes rest;
      mret (g :: gs)
  end.

(** [for _ in range(population_size): ... individuals.append(...)] *)
Fixpoint create_individuals (count : nat) (required_params : list string)
    (individuals : list ref) : M (list ref) :=
  match count with
  | O => mret individuals
  | S count' =>
      genes ← random_genes required_params;
      chr_id ← draw Random.uuid4_8;
      p ← new {| Chromosome.id := chr_id;
                 Chromosome.genes := genes;
                 Chromosome.fitness_score := 0;
                 Chromosome.chromosome_id := Some chr_id;
                 Chromosome.fitness := Some 0%Q |};
      create_individuals count' required_params (individuals ++ [p])
  end.

Definition initialize_population (cfg_id : string)
    (required_inputs : list string) (population_size : Z)
    : M PopulationOutput :=
  let required_params :=
    match required_inputs with
    | [] => ["int"%string]
    | _ => required_inputs
    end in
  individuals ←
    create_individuals (Z.to_nat population_size) required_params [];
  mret {| generation_id := 0;
          status := "Initialized";
          population_count := Py.len individuals;
          individuals := individuals;
          generation := Some 0;
          population := Some individuals;
          best_individuals := Some (Py.slice_to individuals 10);
          best_fitness := Some 0%Q;
          average_fitness := Some 0%Q;
          population_id := Some cfg_id |}.

(** Attribute assignments on a chromosome object. *)
Definition set_fitness_score (p : ref) (x : Q) : M unit :=
  c ← deref p;
  store p {| Chromosome.id := Chromosome.id c;
             Chromosome.genes := Chromosome.genes c;
             Chromosome.fitness_score := x;
             Chromosome.chromosome_id := Chromosome.chromosome_id c;
             Chromosome.fitness := Chromosome.fitness c |}.

Definition set_fitness (p : ref) (x : option Q) : M unit :=
  c ← deref p;
  store p {| Chromosome.id := Chromosome.id c;
             Chromosome.genes := Chromosome.genes c;
             Chromosome.fitness_score := Chromosome.fitness_score c;
             Chromosome.chromosome_id := Chromosome.chromosome_id c;
             Chromosome.fitness := x |}.

Definition set_id (p : ref) (x : string) : M unit :=
  c ← deref p;
  store p {| Chromosome.id := x;
             Chromosome.genes := Chromosome.genes c;
             Chromosome.fitness_score := Chromosome.fitness_score c;
             Chromosome.chromosome_id := Chromosome.chromosome_id c;
             Chromosome.fitness := Chromosome.fitness c |}.

Definition set_chromosome_id (p : ref) (x : option string) : M unit :=
  c ← deref p;
  store p {| Chromosome.id := Chromosome.id c;
             Chromosome.genes := Chromosome.genes c;
             Chromosome.fitness_score := Chromosome.fitness_score c;
             Chromosome.chromosome_id := x;
             Chromosome.fitness := Chromosome.fitness c |}.

(** [ind.fitness = ind.fitness_score] *)
Definition copy_fitness (p : ref) : M unit :=
  c ← deref p; set_fitness p (Some (Chromosome.fitness_score c)).

(** The body of the first loop of [evolve_population]:
    [ind.fitness_score = engine.calculate_fitness_mock(ind)], then
    [ind.fitness = ind.fitness_score]. *)
Definition evaluate_individual (ind : ref) : M unit :=
  s ← calculate_fitness_mock ind;
  set_fitness_score ind s ;;
  copy_fitness ind.

(** [for ind in population: body] *)
Fixpoint for_refs (l : list ref) (body : ref -> M unit) : M unit :=
  match l with
  | [] => mret tt
  | p :: rest => body p ;; for_refs rest body
  end.

(** The fitness scores of a list of objects, in order. *)
Fixpoint keys (l : list ref) : M (list (Q * ref)) :=
  match l with
  | [] => mret []
  | p :: rest =>
      c ← deref p;
      ks ← keys rest;
      mret ((Chromosome.fitness_score c, p) :: ks)
  end.

(** A stable sort by key, highest first: [sort(key=..., reverse=True)]. *)
Fixpoint insert_by_key (x : Q * ref) (l : list (Q * ref))
    : list (Q * ref) :=
  match l with
  | [] => [x]
  | y :: rest =>
      if Py.lt x.1 y.1 then y :: insert_by_key x rest else x :: y :: rest
  end.

Definition sort_by_key (l : list (Q * ref)) : list (Q * ref) :=
  foldr insert_by_key [] l.

Definition sorted_by_fitness (l : list ref) : M (list ref) :=
  ks ← keys l; mret (map snd (sort_by_key ks)).

(** The body of the [while] loop: one child. *)
Definition breed_one (population : list ref)
    (mutation_rate crossover_rate : Q) : M ref :=
  p1 ← tournament_selection population;
  p2 ← tournament_selection population;
  u ← draw Random.random;
  child ←
    (if Py.lt u crossover_rate then crossover p1 p2
     else
       new_id ← draw Random.uuid4_8;
       set_id p1 new_id ;;
       set_chromosome_id p1 (Some new_id) ;;
       mret p1);
  mutate child mutation_rate ;;
  copy_fitness child ;;
  mret child.

(** [while len(next_gen) < len(population): ...]; [None] when the fuel
    runs out before the condition fails. *)
Fixpoint breed (fuel : nat) (population next_gen : list ref)
    (mutation_rate crossover_rate : Q) : M (option (list ref)) :=
  if Py.len next_gen <? Py.len population then
    match fuel with
    | O => mret None
    | S fuel' =>
        child ← breed_one population mutation_rate crossover_rate;
        breed fuel' population (next_gen ++ [child])
              mutation_rate crossover_rate
    end
  else mret (Some next_gen).

Definition evolve_population (fuel : nat) (cfg_id : string)
    (mutation_rate crossover_rate : Q) (current_output : PopulationOutput)
    : M (option PopulationOutput) :=
  let population := individuals current_output in
  (* 1. Evaluate Fitness *)
  for_refs population evaluate_individual ;;
  population ← sorted_by_fitness population;
  (* 2. Create Next Generation *)
  let next_gen := Py.slice_to population 2 in
  bred ← breed fuel population next_gen mutation_rate crossover_rate;
  match bred with
  | None => mret None
  | Some next_gen =>
      let new_gen_id := generation_id current_output + 1 in
      ks ← keys next_gen;
      let fitness_scores := map fst ks in
      let best_fit :=
        match fitness_scores with
        | [] => 0%Q
        | s :: rest => Py.max_list s rest
        end in
      let avg_fit :=
        match fitness_scores with
        | [] => 0%Q
        | _ => (Py.sum fitness_scores / inject_Z (Py.len fitness_scores))%Q
        end in
      sorted_pop ← sorted_by_fitness next_gen;
      mret (Some {| generation_id := new_gen_id;
                    status := "Evolved Gen " +:+ pretty new_gen_id;
                    population_count := Py.len next_gen;
                    individuals := next_gen;
                    generation := Some new_gen_id;
                    population := Some next_gen;
                    best_individuals := Some (Py.slice_to sorted_pop 10);
                    best_fitness := Some best_fit;
                    average_fitness := Some avg_fit;
                    population_id := Some cfg_id |})
  end.

(** The client's calls: [k] calls of [evolve_population], each on the
    output that the call before stored. *)
Fixpoint generations (k fuel : nat) (cfg_id : string)
    (mutation_rate crossover_rate : Q) (current : PopulationOutput)
    : M (option PopulationOutput) :=
  match k with
  | O => mret (Some current)
  | S k' =>
      out ← evolve_population fuel cfg_id mutation_rate crossover_rate
                              current;
      match out with
      | None => mret None
      | Some next => generations k' fuel cfg_id mutation_rate crossover_rate
                                 next
      end
  end.

(** *** Reasoning about runs *)

(** [m] run from [w] returns a value and a world satisfying [post]. *)
Definition steps {A} (m : M A) (w : world) (post : A -> world -> Prop)
    : Prop :=
  exists a w', m w = (Ok a, w') /\ post a w'.

(** The object at [p] has [n] genes. *)
Definition arity_ok (n : nat) (w : world) (p : ref) : Prop :=
  exists c, heap w !! p = Some c /\ length (Chromosome.genes c) = n.

(** From [w] to [w'] no object is lost and objects of [n] genes keep
    [n] genes. *)
Definition grows (n : nat) (w w' : world) : Prop :=
  dom (heap w) ⊆ dom (heap w') /\
  forall p, arity_ok n w p -> arity_ok n w' p.

End Main.

(** ** Further concrete inputs *)

(** The record of scenario A for line 3, which only the failed test
    covers. *)
Definition scenario_A_top : SuspiciousLine.t :=
  TarantulaLocalizer.suspicious_line "f.cpp" 1 1 None
    (3, {| TarantulaLocalizer.passed := 0; TarantulaLocalizer.failed := 1 |}).

(** A source of three lines and one failed execution that ran line 2. *)
Definition sample_source : string :=
  "int main() {" +:+ String "010"%char
    ("  return 1;" +:+ String "010"%char "}").

Definition sample_executions : list (string * Execution.t) :=
  [ ("t1",
     {| Execution.test_id := "t1";
        Execution.execution_status := "failed";
        Execution.output := None;
        Execution.error := None;
        Execution.coverage_data :=
          [ GCovData.mk "test_program.cpp" 1 (-1) "int main() {";
            GCovData.mk "test_program.cpp" 2 1 "  return 1;" ];
        Execution.branches_taken := [];
        Execution.execution_time := 0 |}) ].

Definition sample_line : SuspiciousLine.t :=
  TarantulaLocalizer.suspicious_line "f.cpp" 0 1
    (Some (FaultLocalizer.number_lines 1
             (FaultLocalizer.split_lines sample_source) ∅))
    (2, {| TarantulaLocalizer.passed := 0; TarantulaLocalizer.failed := 1 |}).

(** A failed and a passed outcome with the same branch. *)
Definition failing_outcome : TestExecutionOutput :=
  {| test_id := "f"; execution_status := "failed";
     branches_taken := ["1->2"] |}.

Definition passing_outcome : TestExecutionOutput :=
  {| test_id := "p"; execution_status := "passed";
     branches_taken := ["1->2"] |}.


(** A passed outcome with both branches of [two_branch_cfg]. *)
Definition full_outcome : TestExecutionOutput :=
  {| test_id := "a"; execution_status := "passed";
     branches_taken := ["1->2"; "2->3"] |}.

(** ** Identifiers: eight hexadecimal digits *)

Definition hex_digits : list ascii :=
  ["0"; "1"; "2"; "3"; "4"; "5"; "6"; "7";
   "8"; "9"; "a"; "b"; "c"; "d"; "e"; "f"]%char.

Definition is_hex (c : ascii) : Prop := In c hex_digits.

(** The form of [str(uuid.uuid4())[:8]]. *)
Definition is_identifier (s : string) : Prop :=
  String.length s = 8%nat /\ Forall is_hex (list_ascii_of_string s).

(** A random source whose second word makes [uuid4] start with
    [deadbeef], and two parents, the first of which carries that
    identifier. *)
Definition collision_tape : Random.rng :=
  {| Random.words := fun n => if (n =? 1)%nat then 3735928559 else 0;
     Random.position := 0 |}.

Definition collision_world : GeneticEngine.world :=
  {| GeneticEngine.heap :=
       store_of (chromosome "deadbeef" [GInt 1; GInt 2; GInt 3])
                (chromosome "p2" [GInt 9; GInt 8; GInt 7]);
     GeneticEngine.rng := collision_tape |}.

(** * Properties *)

(** ** Rounding and clamping *)

Section Numerics.

Lemma round_half_even_bounds (y : Q) (a b : Z) :
  (inject_Z a <= y)%Q -> (y <= inject_Z b)%Q ->
  a <= Py.round_half_even y <= b.
Proof.
  intros Ha Hb.
  assert (Hfl : (inject_Z (Qfloor y) <= y)%Q) by apply Qfloor_le.
  assert (Hlt : (y < inject_Z (Qfloor y + 1))%Q) by apply Qlt_floor.
  assert (Hlo : a <= Qfloor y).
  { rewrite <- (Qfloor_Z a). now apply Qfloor_resp_le. }
  assert (Hhi : Qfloor y <= b).
  { rewrite <- (Qfloor_Z b). now apply Qfloor_resp_le. }
  assert (Hstep : (0 < y - inject_Z (Qfloor y))%Q -> Qfloor y + 1 <= b).
  { intros Hpos.
    destruct (Z.eq_dec (Qfloor y) b) as [E|E]; [|lia].
    rewrite E in Hpos. lra. }
  unfold Py.round_half_even.
  destruct (Qcompare (y - inject_Z (Qfloor y)) (1 # 2)) eqn:C.
  - apply Qeq_alt in C.
    destruct (Z.even (Qfloor y)); [lia|].
    split; [lia|]. apply Hstep. rewrite C. reflexivity.
  - lia.
  - apply Qgt_alt in C. split; [lia|]. apply Hstep. lra.
Qed.

Lemma round_unit_interval (x : Q) (k : nat) :
  (0 <= x)%Q -> (x <= 1)%Q ->
  (0 <= Py.round x k)%Q /\ (Py.round x k <= 1)%Q.
Proof.
  intros H0 H1. unfold Py.round.
  set (p := Z.to_pos (10 ^ Z.of_nat k)).
  assert (Hp : (0 < inject_Z (Zpos p))%Q).
  { unfold Qlt, inject_Z; simpl. lia. }
  destruct (round_half_even_bounds (x * inject_Z (Zpos p)) 0 (Zpos p))
    as [Hlo Hhi].
  - change (inject_Z 0) with 0%Q. nra.
  - nra.
  - rewrite Qred_correct. unfold Qle; simpl. split; lia.
Qed.

Lemma clamp_unit_interval (x : Q) :
  (0 <= Py.max2 0 (Py.min2 1 x))%Q /\ (Py.max2 0 (Py.min2 1 x) <= 1)%Q.
Proof.
  unfold Py.max2, Py.min2.
  destruct (Qcompare x 1) eqn:C1.
  - apply Qeq_alt in C1. simpl. split; lra.
  - apply Qlt_alt in C1.
    destruct (Qcompare x 0) eqn:C0.
    + apply Qeq_alt in C0. split; lra.
    + split; lra.
    + apply Qgt_alt in C0. split; lra.
  - simpl. split; lra.
Qed.

(** [round(2/3, 4)] is 0.6667; the ties 0.125 and 0.375 go to the even
    neighbours 0.12 and 0.38. *)
Example round_examples :
  Py.round (2 # 3) 4 = (6667 # 10000)%Q /\
  Py.round (1 # 8) 2 = (3 # 25)%Q /\
  Py.round (3 # 8) 2 = (19 # 50)%Q.
Proof. repeat split; vm_compute; reflexivity. Qed.

End Numerics.


(** ** The random source *)

Section RandomSource.

Lemma randint_in_range (a b : Z) (r : Random.rng) :
  a <= b ->
  exists x r', Random.randint a b r = (Ok x, r') /\ a <= x <= b /\
               x = a + (Random.next r).1 mod (b - a + 1).
Proof.
  intros Hab. unfold Random.randint.
  destruct (b <? a) eqn:E; [apply Z.ltb_lt in E; lia|].
  destruct (Random.next r) as [w r'] eqn:Hn.
  exists (a + w mod (b - a + 1)), r'. split; [reflexivity|].
  pose proof (Z.mod_pos_bound w (b - a + 1)). simpl. lia.
Qed.

Lemma randint_empty (a b : Z) (r : Random.rng) :
  b < a -> Random.randint a b r = (Raise ValueError, r).
Proof.
  intros Hab. unfold Random.randint.
  destruct (b <? a) eqn:E; [reflexivity|apply Z.ltb_ge in E; lia].
Qed.

Lemma choice_member {A} (P : A -> Prop) (x : A) (l : list A) (r : Random.rng) :
  Forall P (x :: l) -> P (Random.choice x l r).1.
Proof.
  intros HP. unfold Random.choice.
  destruct (Random.next r) as [w r']. cbn [fst].
  rewrite Forall_forall in HP. apply HP.
  apply list_elem_of_In, nth_In.
  pose proof (Z.mod_pos_bound w (Py.len (x :: l))) as Hb.
  unfold Py.len in *. simpl length in *. lia.
Qed.

Lemma sample_go_spec {A} (k : nat) : forall (l : list A) (r : Random.rng),
  (k <= length l)%nat ->
  length (Random.sample_go l k r).1 = k /\
  (forall x, x ∈ (Random.sample_go l k r).1 -> x ∈ l).
Proof.
  induction k as [|k IH]; intros l r Hk.
  - split; [reflexivity|]. simpl. intros x Hx. inversion Hx.
  - simpl.
    set (w := Random.words r (Random.position r)).
    set (r1 := {| Random.words := Random.words r;
                  Random.position := S (Random.position r) |}).
    pose proof (Z.mod_pos_bound w (Py.len l)) as Hb.
    unfold Py.len in *.
    assert (Hi : (Z.to_nat (w mod Z.of_nat (length l)) < length l)%nat) by lia.
    destruct (lookup_lt_is_Some_2 l _ Hi) as [x Hx].
    rewrite Hx.
    destruct (IH (delete (Z.to_nat (w mod Z.of_nat (length l))) l) r1)
      as [Hlen Hsub].
    { rewrite length_delete by eauto. lia. }
    destruct (Random.sample_go (delete _ l) k r1) as [rest r2].
    cbn [fst] in *. split; [simpl; lia|].
    intros y Hy. apply elem_of_cons in Hy as [->|Hy].
    + eapply list_elem_of_lookup_2; eauto.
    + apply Hsub in Hy. eapply list_elem_of_delete_inv, Hy.
Qed.

Lemma sample_spec {A} (l : list A) (k : Z) (r : Random.rng) :
  0 <= k <= Py.len l ->
  exists s r', Random.sample l k r = (Ok s, r') /\
               Py.len s = k /\ (forall x, x ∈ s -> x ∈ l).
Proof.
  intros Hk. unfold Random.sample.
  destruct (k <? 0) eqn:E1; [apply Z.ltb_lt in E1; lia|].
  destruct (Py.len l <? k) eqn:E2; [apply Z.ltb_lt in E2; lia|].
  cbn [orb].
  destruct (sample_go_spec (Z.to_nat k) l r) as [Hlen Hsub].
  { unfold Py.len in Hk. lia. }
  destruct (Random.sample_go l (Z.to_nat k) r) as [s r'].
  exists s, r'. cbn [fst] in *. split; [reflexivity|].
  split; [unfold Py.len; lia | exact Hsub].
Qed.

Lemma elem_of_range (n x : Z) : x ∈ Random.range n <-> 0 <= x < n.
Proof.
  unfold Random.range. rewrite list_elem_of_In, in_map_iff. split.
  - intros (i & <- & Hi). apply in_seq in Hi. lia.
  - intros Hx. exists (Z.to_nat x). split; [lia|]. apply in_seq. lia.
Qed.

Lemma len_range (n : Z) : 0 <= n -> Py.len (Random.range n) = n.
Proof.
  intros Hn. unfold Py.len, Random.range.
  rewrite length_map, length_seq. lia.
Qed.

(** *** Identifiers *)

Lemma append_cons (c : ascii) (s t : string) :
  String c s +:+ t = String c (s +:+ t).
Proof. reflexivity. Qed.

Lemma length_append (s t : string) :
  String.length (s +:+ t) = (String.length s + String.length t)%nat.
Proof.
  induction s as [|c s IH]; [reflexivity|].
  rewrite append_cons. cbn [String.length]. rewrite IH. reflexivity.
Qed.

Lemma chars_append (s t : string) :
  list_ascii_of_string (s +:+ t) =
  list_ascii_of_string s ++ list_ascii_of_string t.
Proof.
  induction s as [|c s IH]; [reflexivity|].
  rewrite append_cons. cbn [list_ascii_of_string app]. rewrite IH.
  reflexivity.
Qed.

Lemma hex_digit_is_hex (d : Z) : is_hex (Random.hex_digit d).
Proof.
  change (In (nth (Z.to_nat d) hex_digits "0"%char) hex_digits).
  destruct (nth_in_or_default (Z.to_nat d) hex_digits "0"%char) as [H|H].
  - exact H.
  - rewrite H. left. reflexivity.
Qed.

Lemma hex_form (digits : nat) : forall n : Z,
  String.length (Random.hex digits n) = digits /\
  Forall is_hex (list_ascii_of_string (Random.hex digits n)).
Proof.
  induction digits as [|d IH]; intros n; cbn [Random.hex].
  - split; [reflexivity | constructor].
  - destruct (IH (n / 16)) as [Hl Hc].
    rewrite length_append, chars_append, Hl. split.
    + cbn [String.length]. lia.
    + apply Forall_app. split; [exact Hc|].
      cbn [list_ascii_of_string]. constructor; [|constructor].
      apply hex_digit_is_hex.
Qed.

(** [str(uuid.uuid4())[:8]] is made of eight hexadecimal digits. *)
Lemma uuid4_8_form (r : Random.rng) : is_identifier (Random.uuid4_8 r).1.
Proof.
  unfold Random.uuid4_8. destruct (Random.next r) as [w r']. cbn [fst].
  apply hex_form.
Qed.

Lemma string_snoc (s : string) (d : nat) :
  String.length s = S d ->
  exists s' c, s = s' +:+ String c EmptyString /\ String.length s' = d.
Proof.
  revert d. induction s as [|a s IH]; intros d Hl; [discriminate Hl|].
  cbn [String.length] in Hl. injection Hl as Hl.
  destruct d as [|d].
  - destruct s; [|discriminate Hl].
    exists EmptyString, a. split; reflexivity.
  - destruct (IH d Hl) as (s' & c & -> & Hs').
    exists (String a s'), c. split; [reflexivity|].
    cbn [String.length]. rewrite Hs'. reflexivity.
Qed.

Lemma hex_digit_onto (c : ascii) :
  is_hex c -> exists v, 0 <= v < 16 /\ Random.hex_digit v = c.
Proof.
  intros H. apply (In_nth _ _ "0"%char) in H as (i & Hi & E).
  exists (Z.of_nat i). cbn [hex_digits length] in Hi. split; [lia|].
  unfold Random.hex_digit. rewrite Nat2Z.id. exact E.
Qed.

(** Every string of [digits] hexadecimal digits is written by [hex]. *)
Lemma hex_onto (digits : nat) : forall s : string,
  String.length s = digits ->
  Forall is_hex (list_ascii_of_string s) ->
  exists n, 0 <= n < 16 ^ Z.of_nat digits /\ Random.hex digits n = s.
Proof.
  induction digits as [|d IH]; intros s Hl Hc.
  - destruct s; [|discriminate Hl]. exists 0. split; [lia | reflexivity].
  - destruct (string_snoc s d Hl) as (s' & c & -> & Hl').
    rewrite chars_append in Hc. apply Forall_app in Hc as [Hs' Hc].
    cbn [list_ascii_of_string] in Hc. apply Forall_cons in Hc as [Hc _].
    destruct (IH s' Hl' Hs') as (n' & Hn' & E').
    destruct (hex_digit_onto c Hc) as (v & Hv & Ev).
    exists (16 * n' + v). split.
    + rewrite Nat2Z.inj_succ, Z.pow_succ_r by lia. lia.
    + cbn [Random.hex].
      replace ((16 * n' + v) / 16) with n'
        by (apply Z.div_unique with (r := v); lia).
      replace ((16 * n' + v) mod 16) with v
        by (apply Z.mod_unique with (q := n'); lia).
      rewrite E', Ev. reflexivity.
Qed.

(** Every identifier is the prefix of some UUID: the one drawn when the
    next word of the source is the number it writes. *)
Lemma uuid4_8_onto (ident : string) (r : Random.rng) :
  is_identifier ident ->
  exists word,
    forall r' : Random.rng,
      Random.position r' = Random.position r ->
      Random.words r' (Random.position r) = word ->
      (Random.uuid4_8 r').1 = ident.
Proof.
  intros [Hl Hc]. destruct (hex_onto 8 ident Hl Hc) as (n & Hn & E).
  exists n. intros r' Hp Hw. unfold Random.uuid4_8, Random.next.
  cbn [fst]. rewrite Hp, Hw, Z.mod_small; [exact E|].
  change (16 ^ Z.of_nat 8) with (2 ^ 32) in Hn. exact Hn.
Qed.

End RandomSource.
(** ** The fitness evaluator *)

Section Fitness.

Import FitnessEvaluator.

(** C2. For every evaluator state and every execution outcome (any branches
    taken, any status string), the fitness score that [calculate_fitness]
    returns lies between 0 and 1. *)
Theorem calculate_fitness_unit_interval
    (self : t) (test_case : string) (r : TestExecutionOutput) :
  (0 <= fitness_score (calculate_fitness self test_case r).1)%Q /\
  (fitness_score (calculate_fitness self test_case r).1 <= 1)%Q.
Proof.
  unfold calculate_fitness; cbn [fst fitness_score].
  apply round_unit_interval; apply clamp_unit_interval.
Qed.

Lemma calculate_fitness_global (self : t) test_case r :
  global_covered_branches (calculate_fitness self test_case r).2 =
  global_covered_branches self ∪ list_to_set (branches_taken r).
Proof.
  unfold calculate_fitness; cbn [snd global_covered_branches].
  apply set_eq; intros x. rewrite !elem_of_union, elem_of_difference.
  destruct (decide (x ∈ global_covered_branches self)); tauto.
Qed.

Lemma calculate_fitness_grows (self : t) test_case r :
  global_covered_branches self ⊆
  global_covered_branches (calculate_fitness self test_case r).2.
Proof. rewrite calculate_fitness_global. set_solver. Qed.

Lemma evaluate_each_cons (self : t) test_case r rest :
  evaluate_each self ((test_case, r) :: rest) =
  (let '(result, self1) := calculate_fitness self test_case r in
   let '(others, self2) := evaluate_each self1 rest in
   (result :: others, self2)).
Proof. reflexivity. Qed.

Lemma evaluate_each_grows trs : forall self : t,
  global_covered_branches self ⊆
  global_covered_branches (evaluate_each self trs).2.
Proof.
  induction trs as [|[test_case r] rest IH]; intros self.
  - reflexivity.
  - rewrite evaluate_each_cons.
    pose proof (calculate_fitness_grows self test_case r) as Hstep.
    destruct (calculate_fitness self test_case r) as [res self1].
    specialize (IH self1).
    destruct (evaluate_each self1 rest) as [others self2].
    cbn [fst snd] in *. intros x Hx. apply IH, Hstep, Hx.
Qed.

Lemma evaluate_population_state (self : t) n trs :
  (evaluate_population self n trs).2 = (evaluate_each self trs).2.
Proof.
  unfold evaluate_population.
  destruct (evaluate_each self trs) as [res self']. reflexivity.
Qed.

Lemma step_grows (self : t) (c : call) :
  global_covered_branches self ⊆ global_covered_branches (step self c).
Proof.
  destruct c as [test_case r | n trs]; simpl.
  - apply (calculate_fitness_grows self test_case r).
  - rewrite evaluate_population_state. apply evaluate_each_grows.
Qed.

Lemma run_grows calls : forall self : t,
  global_covered_branches self ⊆ global_covered_branches (run self calls).
Proof.
  unfold run.
  induction calls as [|c calls IH]; intros self; simpl.
  - reflexivity.
  - intros x Hx. apply IH, step_grows, Hx.
Qed.

(** C3. Within one run on one evaluator instance, whatever calls to
    [calculate_fitness] and [evaluate_population] were made before, the next
    call leaves the global coverage set a superset of what it was, and the
    whole run leaves it a superset of the initial one: elements are gained,
    never lost, and the size never decreases. *)
Theorem global_coverage_monotone (self : t) (calls : list call) (c : call) :
  let before := run self calls in
  let after := step before c in
  global_covered_branches before ⊆ global_covered_branches after /\
  (size (global_covered_branches before) <=
   size (global_covered_branches after))%nat /\
  global_covered_branches self ⊆ global_covered_branches after /\
  (size (global_covered_branches self) <=
   size (global_covered_branches after))%nat.
Proof.
  intros before after.
  assert (H1 : global_covered_branches before ⊆ global_covered_branches after)
    by apply step_grows.
  assert (H2 : global_covered_branches self ⊆ global_covered_branches before)
    by apply run_grows.
  repeat split.
  - exact H1.
  - apply subseteq_size, H1.
  - intros x Hx. apply H1, H2, Hx.
  - apply subseteq_size. intros x Hx. apply H1, H2, Hx.
Qed.








End Fitness.


(** ** The genetic operators *)

Section Genetic.

Import GeneticEngine.

Lemma bind_ok {A B} (m : M A) (f : A -> M B) (w w' : world) (a : A) :
  m w = (Ok a, w') -> (m ≫= f) w = f a w'.
Proof. intros H. unfold mbind, M_bind. rewrite H. reflexivity. Qed.

Lemma bind_raise {A B} (m : M A) (f : A -> M B) (w w' : world) (e : exn) :
  m w = (Raise e, w') -> (m ≫= f) w = (Raise e, w').
Proof. intros H. unfold mbind, M_bind. rewrite H. reflexivity. Qed.

Lemma deref_live (p : ref) (c : Chromosome.t) (w : world) :
  heap w !! p = Some c -> deref p w = (Ok c, w).
Proof. intros H. unfold deref. rewrite H. reflexivity. Qed.

(** C5 (as amended). Let [p1] and [p2] designate parents of equal gene
    arity. With arity at least 2, [crossover] draws a cut point [point] in
    [1 .. arity-1] (every value of that range is drawn by some tape), and
    returns a reference to a new object, absent from the store before the
    call, whose fitness is 0 and whose genes are [p1]'s genes before the
    cut followed by [p2]'s genes from the cut onward, as many as [p1] has;
    no other object changes. The identifier of the child is the eight
    leading hexadecimal digits of a random UUID: it is read off the random
    source alone and is compared with no identifier in use, and every
    string of eight hexadecimal digits, one in use as well, is the
    identifier of the child for some random source. With arity below 2
    the call returns [p1] itself and changes nothing, without raising. *)
Theorem crossover_single_point
    (w : world) (p1 p2 : ref) (c1 c2 : Chromosome.t) :
  heap w !! p1 = Some c1 ->
  heap w !! p2 = Some c2 ->
  length (Chromosome.genes c1) = length (Chromosome.genes c2) ->
  let arity := Py.len (Chromosome.genes c1) in
  (2 <= arity ->
   exists point r1 child,
     Random.randint 1 (arity - 1) (rng w) = (Ok point, r1) /\
     1 <= point <= arity - 1 /\
     (forall k, 1 <= k <= arity - 1 ->
                (Random.next (rng w)).1 = k - 1 -> point = k) /\
     let child_obj :=
       {| Chromosome.id := (Random.uuid4_8 r1).1;
          Chromosome.genes :=
            take (Z.to_nat point) (Chromosome.genes c1) ++
            drop (Z.to_nat point) (Chromosome.genes c2);
          Chromosome.fitness_score := 0;
          Chromosome.chromosome_id := None;
          Chromosome.fitness := None |} in
     heap w !! child = None /\
     (crossover p1 p2 w).1 = Ok child /\
     heap (crossover p1 p2 w).2 = <[child := child_obj]> (heap w) /\
     length (Chromosome.genes child_obj) = length (Chromosome.genes c1) /\
     is_identifier (Chromosome.id child_obj)) /\
  (arity < 2 -> crossover p1 p2 w = (Ok p1, w)) /\
  (2 <= arity ->
   forall ident, is_identifier ident ->
     exists (r' : Random.rng) child c,
       let w' := {| heap := heap w; rng := r' |} in
       (crossover p1 p2 w').1 = Ok child /\
       heap (crossover p1 p2 w').2 !! child = Some c /\
       Chromosome.id c = ident).
Proof.
  intros H1 H2 Hlen arity. split; [|split].
  - intros Har.
    destruct (randint_in_range 1 (arity - 1) (rng w)) as (point & r1 & Hr & Hpt & Heq);
      [lia|].
    exists point, r1, (fresh (dom (heap w))).
    split; [exact Hr|]. split; [exact Hpt|]. split.
    { intros k Hk Hw. rewrite Heq, Hw.
      replace (arity - 1 - 1 + 1) with (arity - 1) by lia.
      rewrite Z.mod_small; lia. }
    cbn zeta. split.
    { apply not_elem_of_dom, is_fresh. }
    unfold crossover.
    rewrite (bind_ok _ _ w w c1 (deref_live p1 c1 w H1)).
    fold arity.
    destruct (arity <? 2) eqn:E; [apply Z.ltb_lt in E; lia|].
    erewrite bind_ok; cycle 1.
    { unfold draw_or_raise. rewrite Hr. reflexivity. }
    erewrite bind_ok; cycle 1.
    { apply deref_live. exact H2. }
    destruct (Random.uuid4_8 r1) as [ident r2] eqn:Hu.
    erewrite bind_ok; cycle 1.
    { unfold draw. cbn [rng]. rewrite Hu. reflexivity. }
    unfold new; cbn [fst snd heap].
    unfold Py.slice_to, Py.slice_from.
    destruct (0 <=? point) eqn:E0; [|apply Z.leb_gt in E0; lia].
    split; [reflexivity|]. split; [reflexivity|].
    cbn [Chromosome.genes Chromosome.id]. split.
    + rewrite length_app, length_take, length_drop.
      unfold arity, Py.len in *. lia.
    + pose proof (uuid4_8_form r1) as Hid. rewrite Hu in Hid. exact Hid.
  - intros Har. unfold crossover.
    rewrite (bind_ok _ _ w w c1 (deref_live p1 c1 w H1)).
    fold arity.
    destruct (arity <? 2) eqn:E; [reflexivity|apply Z.ltb_ge in E; lia].
  - intros Har ident Hid.
    set (pos := Random.position (rng w)).
    destruct (uuid4_8_onto ident
                {| Random.words := Random.words (rng w);
                   Random.position := S pos |} Hid) as (word & Hword).
    set (r' := {| Random.words :=
                    fun i => if (i =? S pos)%nat then word
                             else Random.words (rng w) i;
                  Random.position := pos |}).
    destruct (Random.randint 1 (arity - 1) r') as [res r1] eqn:Hr.
    assert (Hres : exists point, res = Ok point /\
                   Random.position r1 = S pos /\
                   Random.words r1 (S pos) = word).
    { unfold Random.randint in Hr.
      destruct (arity - 1 <? 1) eqn:E1; [apply Z.ltb_lt in E1; lia|].
      unfold Random.next in Hr. injection Hr as <- <-.
      eexists. split; [reflexivity|]. split; [reflexivity|].
      cbn [Random.words r']. rewrite Nat.eqb_refl. reflexivity. }
    destruct Hres as (point & -> & Hp1 & Hw1).
    assert (Hident : (Random.uuid4_8 r1).1 = ident)
      by (apply Hword; assumption).
    exists r', (fresh (dom (heap w))). eexists. cbn zeta.
    set (w' := {| heap := heap w; rng := r' |}).
    unfold crossover.
    rewrite (bind_ok _ _ w' w' c1 (deref_live p1 c1 w' H1)).
    fold arity.
    destruct (arity <? 2) eqn:E; [apply Z.ltb_lt in E; lia|].
    erewrite bind_ok; cycle 1.
    { unfold draw_or_raise. cbn [rng w']. rewrite Hr. reflexivity. }
    erewrite bind_ok; cycle 1.
    { apply deref_live. exact H2. }
    destruct (Random.uuid4_8 r1) as [ident' r2] eqn:Hu.
    cbn [fst] in Hident. subst ident'.
    erewrite bind_ok; cycle 1.
    { unfold draw. cbn [rng]. rewrite Hu. reflexivity. }
    unfold new; cbn [fst snd heap].
    split; [reflexivity|]. split; [apply lookup_insert_eq | reflexivity].
Qed.

(** *** Rules for [returns] *)

Lemma returns_ret {A} (I : world -> Prop) (a : A) (post : A -> Prop) :
  post a -> returns I (mret a) post.
Proof. intros Hp w Hw. exists a, w. auto. Qed.

Lemma returns_bind {A B} (I : world -> Prop) (m : M A) (f : A -> M B)
    (mid : A -> Prop) (post : B -> Prop) :
  returns I m mid ->
  (forall a, mid a -> returns I (f a) post) ->
  returns I (m ≫= f) post.
Proof.
  intros Hm Hf w Hw.
  destruct (Hm w Hw) as (a & w1 & E & Hw1 & Ha).
  destruct (Hf a Ha w1 Hw1) as (b & w2 & E2 & Hw2 & Hb).
  exists b, w2. rewrite (bind_ok _ _ _ _ _ E). auto.
Qed.

Lemma returns_for_each (I : world -> Prop) (body : Z -> M unit)
    (indices : list Z) :
  (forall i, i ∈ indices -> returns I (body i) (fun _ => True)) ->
  returns I (for_each indices body) (fun _ => True).
Proof.
  induction indices as [|i rest IH]; intros Hbody; simpl.
  - apply returns_ret. exact Logic.I.
  - eapply returns_bind.
    + apply Hbody. apply list_elem_of_here.
    + intros _ _. apply IH. intros j Hj. apply Hbody.
      apply list_elem_of_further, Hj.
Qed.

End Genetic.

Section Mutation.

Import GeneticEngine.

Variable ch : ref.
Variable h0 : gmap ref Chromosome.t.
Variable c0 : Chromosome.t.

Let n : Z := Py.len (Chromosome.genes c0).
Let all_int : Prop := Forall is_int (Chromosome.genes c0).
Let I : world -> Prop := in_place ch h0 c0.

Lemma in_place_rng (w : world) (r : Random.rng) :
  I w -> I {| heap := heap w; rng := r |}.
Proof. intros (g & Hg); exists g; exact Hg. Qed.

Lemma returns_draw {A} (f : Random.rng -> A * Random.rng) (post : A -> Prop) :
  (forall r, post (f r).1) -> returns I (draw f) post.
Proof.
  intros Hp w Hw. unfold draw. specialize (Hp (rng w)).
  destruct (f (rng w)) as [a r]. exists a, {| heap := heap w; rng := r |}.
  split; [reflexivity|]. split; [apply in_place_rng, Hw | exact Hp].
Qed.

Lemma returns_randint (a b : Z) :
  a <= b ->
  returns I (draw_or_raise (Random.randint a b)) (fun x => a <= x <= b).
Proof.
  intros Hab w Hw. unfold draw_or_raise.
  destruct (randint_in_range a b (rng w) Hab) as (x & r' & E & Hx & _).
  rewrite E. exists x, {| heap := heap w; rng := r' |}.
  split; [reflexivity|]. split; [apply in_place_rng, Hw | exact Hx].
Qed.

Lemma returns_sample_two (m : Z) :
  2 <= m ->
  returns I (draw_or_raise (Random.sample (Random.range m) 2))
    (fun l => exists i j, l = [i; j] /\ 0 <= i < m /\ 0 <= j < m).
Proof.
  intros Hm w Hw. unfold draw_or_raise.
  destruct (sample_spec (Random.range m) 2 (rng w)) as (s & r' & E & Hlen & Hsub).
  { rewrite len_range; lia. }
  rewrite E. exists s, {| heap := heap w; rng := r' |}.
  split; [reflexivity|]. split; [apply in_place_rng, Hw|].
  destruct s as [|i [|j [|k s]]]; try (unfold Py.len in Hlen; simpl in Hlen; lia).
  exists i, j. split; [reflexivity|].
  split; apply elem_of_range, Hsub; [left | right; left].
Qed.

Lemma returns_len : returns I (len_genes ch) (fun x => x = n).
Proof.
  intros w Hw. destruct Hw as (g & Hh & Hl & Ht).
  unfold len_genes.
  exists n, w. split.
  - erewrite bind_ok; cycle 1.
    { apply deref_live. rewrite Hh. apply lookup_insert_eq. }
    cbn [Chromosome.with_genes Chromosome.genes].
    unfold n, Py.len. rewrite Hl. reflexivity.
  - split; [exists g; auto | reflexivity].
Qed.

Lemma index_in_range {A} (l : list A) (i : Z) :
  0 <= i < Py.len l -> exists x, Py.index l i = Some x /\ x ∈ l.
Proof.
  intros Hi. unfold Py.index, Py.len in *.
  destruct (0 <=? i) eqn:E; [|apply Z.leb_gt in E; lia].
  destruct (lookup_lt_is_Some_2 l (Z.to_nat i)) as [x Hx]; [lia|].
  exists x. split; [exact Hx|]. eapply list_elem_of_lookup_2, Hx.
Qed.

Lemma returns_get (i : Z) :
  0 <= i < n ->
  returns I (get_gene ch i) (fun g => all_int -> is_int g).
Proof.
  intros Hi w Hw. destruct Hw as (g & Hh & Hl & Ht).
  destruct (index_in_range g i) as (x & Hx & Hin).
  { unfold n, Py.len in *. lia. }
  exists x, w. split.
  - unfold get_gene. erewrite bind_ok; cycle 1.
    { apply deref_live. rewrite Hh. apply lookup_insert_eq. }
    cbn [Chromosome.with_genes Chromosome.genes]. rewrite Hx. reflexivity.
  - split; [exists g; auto|].
    intros Hall. specialize (Ht Hall). rewrite Forall_forall in Ht. auto.
Qed.

Lemma returns_set (i : Z) (x : gene) :
  0 <= i < n -> (all_int -> is_int x) ->
  returns I (set_gene ch i x) (fun _ => True).
Proof.
  intros Hi Hx w Hw. destruct Hw as (g & Hh & Hl & Ht).
  destruct (index_in_range g i) as (y & Hy & _).
  { unfold n, Py.len in *. lia. }
  exists tt, {| heap := <[ch := Chromosome.with_genes c0 (Py.set_index g i x)]> h0;
                rng := rng w |}.
  split; [|split; [|exact Logic.I]].
  - unfold set_gene. erewrite bind_ok; cycle 1.
    { apply deref_live. rewrite Hh. apply lookup_insert_eq. }
    cbn [Chromosome.with_genes Chromosome.genes]. rewrite Hy.
    unfold store. rewrite Hh, insert_insert_eq. reflexivity.
  - exists (Py.set_index g i x). split; [reflexivity|].
    unfold Py.set_index.
    destruct (0 <=? i) eqn:E; [|apply Z.leb_gt in E; lia].
    split; [rewrite length_insert; exact Hl|].
    intros Hall. apply Forall_insert; auto.
Qed.

Lemma not_float_when_all_int (x y : Q) :
  (all_int -> is_int (GFloat x)) -> all_int -> is_int (GFloat y).
Proof. intros H Hall. specialize (H Hall). discriminate H. Qed.

Lemma returns_mutate_gene (rate : Q) (i : Z) :
  0 <= i < n -> returns I (mutate_gene ch rate i) (fun _ => True).
Proof.
  intros Hi. unfold mutate_gene.
  eapply returns_bind; [apply (returns_draw _ (fun _ => True)); auto|].
  intros u _. destruct (Py.lt u rate); [|apply returns_ret; exact Logic.I].
  eapply returns_bind; [apply returns_get; exact Hi|].
  intros [z|x|b] Hval.
  - eapply returns_bind; [apply (returns_draw _ (fun _ => True)); auto|].
    intros [ | | | ] _.
    + eapply returns_bind; [apply returns_randint; lia|].
      intros d _. apply returns_set; [exact Hi | reflexivity].
    + eapply returns_bind; [apply returns_randint; lia|].
      intros d _. apply returns_set; [exact Hi | reflexivity].
    + apply returns_set; [exact Hi | reflexivity].
    + eapply returns_bind.
      * apply (returns_draw _ (fun v => all_int -> is_int v)).
        intros r. apply choice_member.
        repeat constructor; assumption.
      * intros v Hv. apply returns_set; assumption.
  - eapply returns_bind; [apply (returns_draw _ (fun _ => True)); auto|].
    intros [ | | ] _.
    + eapply returns_bind; [apply (returns_draw _ (fun _ => True)); auto|].
      intros d _. apply returns_set; [exact Hi|].
      eapply not_float_when_all_int, Hval.
    + eapply returns_bind; [apply (returns_draw _ (fun _ => True)); auto|].
      intros d _. apply returns_set; [exact Hi|].
      eapply not_float_when_all_int, Hval.
    + eapply returns_bind.
      * apply (returns_draw _ (fun v => all_int -> is_int v)).
        intros r. apply choice_member.
        repeat constructor;
          solve [assumption | eapply not_float_when_all_int, Hval].
      * intros v Hv. apply returns_set; assumption.
  - apply returns_set; [exact Hi | reflexivity].
Qed.

Lemma returns_equalise :
  returns I
    (if 2 <=? n
     then u ← draw Random.random;
          if Py.lt u (3 # 10)
          then picked ← draw_or_raise (Random.sample (Random.range n) 2);
               match picked with
               | [idx1; idx2] => v ← get_gene ch idx1; set_gene ch idx2 v
               | _ => raise ValueError
               end
          else mret tt
     else mret tt) (fun _ => True).
Proof.
  destruct (2 <=? n) eqn:E; [|apply returns_ret; exact Logic.I].
  apply Z.leb_le in E.
  eapply returns_bind; [apply (returns_draw _ (fun _ => True)); auto|].
  intros u _. destruct (Py.lt u (3 # 10)); [|apply returns_ret; exact Logic.I].
  eapply returns_bind; [apply returns_sample_two; exact E|].
  intros picked (i & j & -> & Hi & Hj).
  eapply returns_bind; [apply returns_get; exact Hi|].
  intros v Hv. apply returns_set; assumption.
Qed.

Lemma returns_boundary (u : Q) :
  1 <= n ->
  returns I
    (if Py.lt u (1 # 10)
     then m ← len_genes ch;
          idx ← draw_or_raise (Random.randint 0 (m - 1));
          val ← get_gene ch idx;
          match val with
          | GInt _ | GFloat _ =>
              b ← draw (Random.choice 0 [-1; 1; -100; 100]);
              set_gene ch idx (GInt b) ;; mret true
          | GBool _ => mret false
          end
     else mret false) (fun _ => True).
Proof.
  intros Hn.
  destruct (Py.lt u (1 # 10)); [|apply returns_ret; exact Logic.I].
  eapply returns_bind; [apply returns_len|]. intros m ->.
  eapply returns_bind; [apply returns_randint; unfold n in *; lia|].
  intros idx Hidx.
  eapply returns_bind; [apply returns_get; unfold n in *; lia|].
  intros [z|x|b] _; try (apply returns_ret; exact Logic.I).
  - eapply returns_bind; [apply (returns_draw _ (fun _ => True)); auto|].
    intros v _. eapply returns_bind.
    + apply returns_set; [unfold n in *; lia | reflexivity].
    + intros _ _. apply returns_ret. exact Logic.I.
  - eapply returns_bind; [apply (returns_draw _ (fun _ => True)); auto|].
    intros v _. eapply returns_bind.
    + apply returns_set; [unfold n in *; lia | reflexivity].
    + intros _ _. apply returns_ret. exact Logic.I.
Qed.

Lemma returns_mutate (rate : Q) :
  1 <= n -> returns I (mutate ch rate) (fun _ => True).
Proof.
  intros Hn. unfold mutate.
  eapply returns_bind; [apply returns_len|]. intros m ->.
  eapply returns_bind; [apply returns_equalise|]. intros _ _.
  eapply returns_bind; [apply (returns_draw _ (fun _ => True)); auto|].
  intros u _.
  eapply returns_bind; [apply (returns_boundary u Hn)|].
  intros [|] _; [apply returns_ret; exact Logic.I|].
  eapply returns_bind; [apply returns_len|]. intros m ->.
  apply returns_for_each. intros i Hi.
  apply returns_mutate_gene. apply elem_of_range, Hi.
Qed.

End Mutation.


Section Operators.

Import GeneticEngine.

Lemma with_genes_same (c : Chromosome.t) :
  Chromosome.with_genes c (Chromosome.genes c) = c.
Proof. destruct c; reflexivity. Qed.

Lemma in_place_start (w : world) (ch : ref) (c : Chromosome.t) :
  heap w !! ch = Some c -> in_place ch (heap w) c w.
Proof.
  intros H. exists (Chromosome.genes c).
  rewrite with_genes_same, insert_id by exact H. auto.
Qed.

Lemma all_int_types (g g0 : list gene) :
  length g = length g0 -> Forall is_int g0 -> Forall is_int g ->
  map type_of g = map type_of g0.
Proof.
  revert g0. induction g as [|x g IH]; intros [|y g0] Hl H0 H; try discriminate.
  - reflexivity.
  - inversion H0; inversion H; subst. simpl.
    f_equal; [congruence|]. apply IH; auto.
Qed.

(** [mutate] on a chromosome without genes: the equalising step is skipped,
    and the boundary step, when it fires, asks [randint(0, -1)]. *)
Lemma mutate_empty (w : world) (ch : ref) (c : Chromosome.t) (rate : Q) :
  heap w !! ch = Some c -> Chromosome.genes c = [] ->
  mutate ch rate w =
    (if Py.lt (Random.random (rng w)).1 (1 # 10)
     then Raise ValueError else Ok tt,
     {| heap := heap w; rng := (Random.random (rng w)).2 |}).
Proof.
  intros Hc Hg.
  assert (Hlen : forall r, len_genes ch {| heap := heap w; rng := r |} =
                           (Ok 0, {| heap := heap w; rng := r |})).
  { intros r. unfold len_genes. erewrite bind_ok; cycle 1.
    { apply deref_live. exact Hc. }
    rewrite Hg. reflexivity. }
  unfold mutate.
  assert (Hw : w = {| heap := heap w; rng := rng w |}) by (destruct w; reflexivity).
  rewrite Hw at 1.
  rewrite (bind_ok _ _ _ _ _ (Hlen (rng w))).
  change (2 <=? 0) with false. cbv iota.
  erewrite bind_ok; cycle 1. { reflexivity. }
  destruct (Random.random (rng w)) as [u r'] eqn:Hu. cbn [fst snd].
  erewrite bind_ok; cycle 1.
  { unfold draw. cbn [rng heap]. rewrite Hu. reflexivity. }
  destruct (Py.lt u (1 # 10)).
  - erewrite bind_raise; [reflexivity|].
    erewrite bind_ok; cycle 1. { apply Hlen. }
    erewrite bind_raise; [reflexivity|].
    unfold draw_or_raise. cbn [rng heap].
    rewrite randint_empty by lia. reflexivity.
  - erewrite bind_ok; cycle 1. { reflexivity. }
    cbv iota.
    erewrite bind_ok; cycle 1. { apply Hlen. }
    reflexivity.
Qed.

(** C6 (as amended). For every chromosome object and every rate, [mutate]
    works in place: after the call the store is the one before with only
    the genes of the object at [ch] replaced (its identifier and fitness,
    and every other object, are untouched), and the number of genes is the
    same. When all genes were integers, every position still holds an
    integer, so the type at every position is preserved. *)
Theorem mutate_in_place
    (w : world) (ch : ref) (c : Chromosome.t) (rate : Q) :
  heap w !! ch = Some c ->
  exists g',
    heap (mutate ch rate w).2 = <[ch := Chromosome.with_genes c g']> (heap w) /\
    length g' = length (Chromosome.genes c) /\
    (Forall is_int (Chromosome.genes c) ->
     map type_of g' = map type_of (Chromosome.genes c)).
Proof.
  intros Hc.
  destruct (Chromosome.genes c) as [|x g0] eqn:Hg.
  - rewrite (mutate_empty w ch c rate Hc Hg). exists []. cbn [snd heap].
    split; [|split; [reflexivity | reflexivity]].
    rewrite <- Hg, with_genes_same, insert_id by exact Hc. reflexivity.
  - destruct (returns_mutate ch (heap w) c rate) with (w := w)
      as (u & w' & E & (g' & Hh & Hl & Ht) & _).
    + rewrite Hg. unfold Py.len. simpl length. lia.
    + apply in_place_start, Hc.
    + rewrite E. exists g'. cbn [snd]. rewrite <- Hg.
      split; [exact Hh|]. split; [exact Hl|].
      intros Hall. apply all_int_types; auto.
Qed.

Lemma max_go_member (rest : list ref) : forall (best : ref) (key : Q) (w : world),
  (forall q, q ∈ rest -> is_Some (heap w !! q)) ->
  exists p, max_go best key rest w = (Ok p, w) /\ (p = best \/ p ∈ rest).
Proof.
  induction rest as [|q rest IH]; intros best key w Hlive; simpl.
  - exists best. split; [reflexivity | left; reflexivity].
  - destruct (Hlive q) as [c Hc]; [apply list_elem_of_here|].
    rewrite (bind_ok _ _ _ _ _ (deref_live q c w Hc)).
    assert (Hrest : forall q', q' ∈ rest -> is_Some (heap w !! q')).
    { intros q' Hq'. apply Hlive, list_elem_of_further, Hq'. }
    destruct (Py.lt key (Chromosome.fitness_score c)).
    + destruct (IH q (Chromosome.fitness_score c) w Hrest) as (p & E & Hp).
      exists p. split; [exact E|]. right.
      destruct Hp as [->|Hp]; [apply list_elem_of_here|].
      apply list_elem_of_further, Hp.
    + destruct (IH best key w Hrest) as (p & E & Hp).
      exists p. split; [exact E|].
      destruct Hp as [->|Hp]; [left; reflexivity|].
      right. apply list_elem_of_further, Hp.
Qed.

Lemma tournament_selection_empty (w : world) :
  (tournament_selection [] w).1 = Raise ValueError.
Proof. reflexivity. Qed.

Lemma tournament_selection_member (w : world) (population : list ref) :
  population <> [] ->
  (forall p, p ∈ population -> is_Some (heap w !! p)) ->
  exists p, (tournament_selection population w).1 = Ok p /\ p ∈ population.
Proof.
  intros Hne Hlive. unfold tournament_selection.
  destruct (sample_spec population (Z.min 3 (Py.len population)) (rng w))
    as (s & r' & E & Hlen & Hsub).
  { unfold Py.len. lia. }
  erewrite bind_ok; cycle 1.
  { unfold draw_or_raise. rewrite E. reflexivity. }
  destruct s as [|p rest].
  { exfalso. destruct population; [congruence|].
    unfold Py.len in Hlen. simpl length in Hlen. lia. }
  set (w1 := {| heap := heap w; rng := r' |}).
  destruct (Hlive p) as [c Hc]; [apply Hsub, list_elem_of_here|].
  unfold max_by_fitness.
  rewrite (bind_ok _ _ _ _ _ (deref_live p c w1 Hc)).
  destruct (max_go_member rest p (Chromosome.fitness_score c) w1)
    as (q & Eq & Hq).
  { intros q Hq. apply Hlive, Hsub, list_elem_of_further, Hq. }
  rewrite Eq. exists q. split; [reflexivity|].
  destruct Hq as [->|Hq]; apply Hsub;
    [apply list_elem_of_here | apply list_elem_of_further, Hq].
Qed.

Lemma crossover_returns (w : world) (p1 p2 : ref) (c1 c2 : Chromosome.t) :
  heap w !! p1 = Some c1 -> heap w !! p2 = Some c2 ->
  let arity := Py.len (Chromosome.genes c1) in
  exists child,
    (crossover p1 p2 w).1 = Ok child /\
    (arity < 2 -> child = p1 /\ (crossover p1 p2 w).2 = w) /\
    (2 <= arity ->
     exists point c,
       1 <= point <= arity - 1 /\
       heap (crossover p1 p2 w).2 !! child = Some c /\
       Chromosome.genes c =
         take (Z.to_nat point) (Chromosome.genes c1) ++
         drop (Z.to_nat point) (Chromosome.genes c2)).
Proof.
  intros H1 H2 arity. unfold crossover.
  rewrite (bind_ok _ _ w w c1 (deref_live p1 c1 w H1)).
  fold arity.
  destruct (arity <? 2) eqn:E.
  - apply Z.ltb_lt in E. exists p1.
    split; [reflexivity|]. split; [auto | lia].
  - apply Z.ltb_ge in E.
    destruct (randint_in_range 1 (arity - 1) (rng w))
      as (point & r1 & Hr & Hpt & _); [lia|].
    erewrite bind_ok; cycle 1.
    { unfold draw_or_raise. rewrite Hr. reflexivity. }
    erewrite bind_ok; cycle 1.
    { apply deref_live. exact H2. }
    destruct (Random.uuid4_8 r1) as [ident r2] eqn:Hu.
    erewrite bind_ok; cycle 1.
    { unfold draw. cbn [rng]. rewrite Hu. reflexivity. }
    unfold new; cbn [fst snd heap].
    eexists. split; [reflexivity|]. split; [lia|].
    intros _. exists point. eexists. split; [exact Hpt|].
    split; [apply lookup_insert_eq|].
    cbn [Chromosome.genes]. unfold Py.slice_to, Py.slice_from.
    destruct (0 <=? point) eqn:E0; [reflexivity|apply Z.leb_gt in E0; lia].
Qed.

Lemma mutate_outcome (w : world) (ch : ref) (c : Chromosome.t) (rate : Q) :
  heap w !! ch = Some c ->
  (mutate ch rate w).1 =
    match Chromosome.genes c with
    | [] => if Py.lt (Random.random (rng w)).1 (1 # 10)
            then Raise ValueError else Ok tt
    | _ :: _ => Ok tt
    end.
Proof.
  intros Hc. destruct (Chromosome.genes c) as [|x g0] eqn:Hg.
  - rewrite (mutate_empty w ch c rate Hc Hg). reflexivity.
  - destruct (returns_mutate ch (heap w) c rate) with (w := w)
      as ([] & w' & E & _).
    + rewrite Hg. unfold Py.len. simpl length. lia.
    + apply in_place_start, Hc.
    + rewrite E. reflexivity.
Qed.

End Operators.

Section OperatorProperties.

Import GeneticEngine.

(** On the tape of zeros the cut point is 1: the child of [1, 2, 3] and
    [9, 8, 7] is [1, 8, 7], a new object at reference 2. *)
Example crossover_example :
  (crossover 0%nat 1%nat parents_world).1 = Ok 2%nat /\
  heap (crossover 0%nat 1%nat parents_world).2 !! 2%nat =
    Some (chromosome "00000000" [GInt 1; GInt 8; GInt 7]).
Proof. split; vm_compute; reflexivity. Qed.

(** On the tape of zeros [mutate] copies gene 0 over gene 1, then writes
    the boundary value 0 at position 0 and returns. *)
Example mutate_example :
  (mutate 0%nat 1 parents_world).1 = Ok tt /\
  heap (mutate 0%nat 1 parents_world).2 !! 0%nat =
    Some (chromosome "p1" [GInt 0; GInt 1; GInt 3]).
Proof. split; vm_compute; reflexivity. Qed.

(** C5 (as stated) fails on the identifier: it is not fresh. The parent
    at reference 0 is called [deadbeef]; the random UUID starts with
    [deadbeef]; the child, a new object, is called [deadbeef] too. *)
Lemma crossover_identifier_in_use :
  (crossover 0%nat 1%nat collision_world).1 = Ok 2%nat /\
  heap collision_world !! 2%nat = None /\
  (Chromosome.id <$> heap collision_world !! 0%nat)
    = Some "deadbeef"%string /\
  (Chromosome.id <$> heap (crossover 0%nat 1%nat collision_world).2 !! 2%nat)
    = Some "deadbeef"%string.
Proof. repeat split; vm_compute; reflexivity. Qed.

(** C5 at two parents of three genes: the child is a new object. *)
Lemma crossover_single_point_witness :
  exists child,
    (crossover 0%nat 1%nat parents_world).1 = Ok child /\
    heap parents_world !! child = None.
Proof.
  destruct (crossover_single_point parents_world 0%nat 1%nat
              (chromosome "p1" [GInt 1; GInt 2; GInt 3])
              (chromosome "p2" [GInt 9; GInt 8; GInt 7]))
    as [H _]; [reflexivity | reflexivity | reflexivity |].
  destruct H as (point & r1 & child & _ & _ & _ & Hnew & Hres & _);
    [vm_compute; discriminate|].
  exists child. split; assumption.
Defined.

(** C6 (as stated) fails on types: with the boundary step firing, the real
    gene 2.5 is overwritten by the integer boundary value 0. *)
Lemma mutate_changes_type :
  (map type_of <$> (Chromosome.genes <$> heap float_world !! 0%nat))
    = Some [TFloat] /\
  (map type_of <$>
     (Chromosome.genes <$> heap (mutate 0%nat (1 # 2) float_world).2 !! 0%nat))
    = Some [TInt].
Proof. split; vm_compute; reflexivity. Qed.

(** C6 at a parent of three integer genes. *)
Lemma mutate_in_place_witness :
  exists g',
    heap (mutate 0%nat (1 # 2) parents_world).2 =
      <[0%nat := Chromosome.with_genes
                   (chromosome "p1" [GInt 1; GInt 2; GInt 3]) g']>
        (heap parents_world) /\
    length g' = 3%nat /\
    (Forall is_int [GInt 1; GInt 2; GInt 3] ->
     map type_of g' = [TInt; TInt; TInt]).
Proof.
  apply (mutate_in_place parents_world 0%nat
           (chromosome "p1" [GInt 1; GInt 2; GInt 3]) (1 # 2)).
  reflexivity.
Defined.

(** C7 (as stated) fails for crossover: parents of three genes and of one
    gene raise nothing; the call returns a new child, of one gene. *)
Lemma crossover_mismatched_arity_returns :
  (crossover 0%nat 1%nat mismatched_world).1 = Ok 2%nat /\
  (Chromosome.genes <$>
     heap (crossover 0%nat 1%nat mismatched_world).2 !! 2%nat)
    = Some [GInt 1].
Proof. split; vm_compute; reflexivity. Qed.

(** C7 (as amended). Tournament selection on an empty population raises
    [ValueError], and on a non-empty population of live chromosomes returns
    one of its members. [crossover] checks no arity and never raises: on
    any two parents, of equal arity or not, it returns [p1] itself when [p1]
    has fewer than two genes and otherwise a child made of [p1]'s genes
    before the cut and [p2]'s genes from the cut onward. [mutate] takes one
    chromosome; it raises, a [ValueError], exactly when the chromosome has
    no genes and the boundary step fires. *)
Theorem invalid_argument_conditions (w : world) :
  (tournament_selection [] w).1 = Raise ValueError /\
  (forall population,
     population <> [] ->
     (forall p, p ∈ population -> is_Some (heap w !! p)) ->
     exists p, (tournament_selection population w).1 = Ok p /\
               p ∈ population) /\
  (forall p1 p2 c1 c2,
     heap w !! p1 = Some c1 -> heap w !! p2 = Some c2 ->
     let arity := Py.len (Chromosome.genes c1) in
     exists child,
       (crossover p1 p2 w).1 = Ok child /\
       (arity < 2 -> child = p1 /\ (crossover p1 p2 w).2 = w) /\
       (2 <= arity ->
        exists point c,
          1 <= point <= arity - 1 /\
          heap (crossover p1 p2 w).2 !! child = Some c /\
          Chromosome.genes c =
            take (Z.to_nat point) (Chromosome.genes c1) ++
            drop (Z.to_nat point) (Chromosome.genes c2))) /\
  (forall ch c rate,
     heap w !! ch = Some c ->
     (mutate ch rate w).1 =
       match Chromosome.genes c with
       | [] => if Py.lt (Random.random (rng w)).1 (1 # 10)
               then Raise ValueError else Ok tt
       | _ :: _ => Ok tt
       end).
Proof.
  split; [apply tournament_selection_empty|].
  split; [apply tournament_selection_member|].
  split; [apply crossover_returns | apply mutate_outcome].
Qed.

(** C7 on the store of two parents: an empty population raises, the
    population of both parents yields one of them, and [mutate] on a parent
    of three genes returns normally. *)
Lemma invalid_argument_conditions_witness :
  (tournament_selection [] parents_world).1 = Raise ValueError /\
  (exists p, (tournament_selection [0%nat; 1%nat] parents_world).1 = Ok p /\
             p ∈ [0%nat; 1%nat]) /\
  (mutate 0%nat (1 # 2) parents_world).1 = Ok tt.
Proof.
  destruct (invalid_argument_conditions parents_world) as (H1 & H2 & _ & H4).
  split; [exact H1|]. split.
  - apply H2; [discriminate|].
    intros p Hp. apply elem_of_cons in Hp as [->|Hp].
    + eexists. reflexivity.
    + apply list_elem_of_singleton in Hp as ->. eexists. reflexivity.
  - rewrite (H4 0%nat (chromosome "p1" [GInt 1; GInt 2; GInt 3]) (1 # 2));
      reflexivity.
Defined.

End OperatorProperties.

(** ** The Tarantula localizer *)

Section Tarantula.

Import TarantulaLocalizer.

(** *** The formula *)

Lemma round_half_even_compat (x y : Q) :
  (x == y)%Q -> Py.round_half_even x = Py.round_half_even y.
Proof.
  intros E. unfold Py.round_half_even.
  rewrite (Qfloor_comp x y E).
  assert (E' : (x - inject_Z (Qfloor y) == y - inject_Z (Qfloor y))%Q)
    by (apply Qplus_comp; [exact E | reflexivity]).
  rewrite (Qcompare_comp _ _ E' (1 # 2) (1 # 2) (Qeq_refl _)).
  reflexivity.
Qed.

Lemma round_compat (x y : Q) (k : nat) :
  (x == y)%Q -> Py.round x k = Py.round y k.
Proof.
  intros E. unfold Py.round.
  rewrite (round_half_even_compat
             (x * inject_Z (Z.pos (Z.to_pos (10 ^ Z.of_nat k))))
             (y * inject_Z (Z.pos (Z.to_pos (10 ^ Z.of_nat k)))))
    by (apply Qmult_comp; [exact E | reflexivity]).
  reflexivity.
Qed.

Lemma truediv_nonneg (a b : Z) : 0 <= a -> 0 < b -> (0 <= Py.truediv a b)%Q.
Proof.
  intros Ha Hb. unfold Py.truediv.
  apply Qle_shift_div_l.
  - change 0%Q with (inject_Z 0). rewrite <- Zlt_Qlt. exact Hb.
  - rewrite Qmult_0_l. change 0%Q with (inject_Z 0). rewrite <- Zle_Qle. exact Ha.
Qed.

Lemma truediv_pos (a b : Z) : 0 < a -> 0 < b -> (0 < Py.truediv a b)%Q.
Proof.
  intros Ha Hb. unfold Py.truediv.
  apply Qlt_shift_div_l.
  - change 0%Q with (inject_Z 0). rewrite <- Zlt_Qlt. exact Hb.
  - rewrite Qmult_0_l. change 0%Q with (inject_Z 0). rewrite <- Zlt_Qlt. exact Ha.
Qed.

Lemma truediv_zero (b : Z) : (Py.truediv 0 b == 0)%Q.
Proof. unfold Py.truediv, Qdiv. change (inject_Z 0) with 0%Q. ring. Qed.

Lemma pct_nonneg (n total : Z) :
  0 <= n -> (0 <= (if 0 <? total then Py.truediv n total else 0))%Q.
Proof.
  intros Hn. destruct (0 <? total) eqn:E; [|apply Qle_refl].
  apply Z.ltb_lt in E. apply truediv_nonneg; assumption.
Qed.

Lemma lt_true (a b : Q) : Py.lt a b = true <-> (a < b)%Q.
Proof.
  unfold Py.lt. rewrite Qlt_alt.
  destruct (Qcompare a b); split; congruence.
Qed.

Lemma tarantula_unit_interval (n_passed n_failed total_passed total_failed : Z) :
  0 <= n_passed -> 0 <= n_failed ->
  (0 <= tarantula n_passed n_failed total_passed total_failed)%Q /\
  (tarantula n_passed n_failed total_passed total_failed <= 1)%Q.
Proof.
  intros Hp Hf. unfold tarantula.
  pose proof (pct_nonneg n_failed total_failed Hf) as Hpf.
  pose proof (pct_nonneg n_passed total_passed Hp) as Hpp.
  set (pf := (if 0 <? total_failed then Py.truediv n_failed total_failed else 0)%Q) in *.
  set (pp := (if 0 <? total_passed then Py.truediv n_passed total_passed else 0)%Q) in *.
  destruct (Py.lt 0 (pf + pp)) eqn:E; [|split; [apply Qle_refl | discriminate]].
  apply lt_true in E. split.
  - apply Qle_shift_div_l; [exact E | lra].
  - apply Qle_shift_div_r; [exact E | lra].
Qed.

Lemma tarantula_only_failing (n_failed total_passed total_failed : Z) :
  0 < n_failed -> 0 < total_failed ->
  (tarantula 0 n_failed total_passed total_failed == 1)%Q.
Proof.
  intros Hf Ht. unfold tarantula.
  apply Z.ltb_lt in Ht as Ht'. rewrite Ht'.
  pose proof (truediv_pos n_failed total_failed Hf Ht) as Hpos.
  set (pf := Py.truediv n_failed total_failed) in *.
  assert (Hpp : ((if 0 <? total_passed then Py.truediv 0 total_passed else 0) == 0)%Q).
  { destruct (0 <? total_passed); [apply truediv_zero | reflexivity]. }
  set (pp := (if 0 <? total_passed then Py.truediv 0 total_passed else 0)%Q) in *.
  assert (E : Py.lt 0 (pf + pp) = true) by (apply lt_true; lra).
  rewrite E.
  assert (Hd : (pf + pp == pf)%Q) by lra.
  rewrite Hd. field. lra.
Qed.

Lemma tarantula_only_passing (n_passed total_passed total_failed : Z) :
  (tarantula n_passed 0 total_passed total_failed == 0)%Q.
Proof.
  unfold tarantula.
  assert (Hpf : ((if 0 <? total_failed then Py.truediv 0 total_failed else 0) == 0)%Q).
  { destruct (0 <? total_failed); [apply truediv_zero | reflexivity]. }
  set (pf := (if 0 <? total_failed then Py.truediv 0 total_failed else 0)%Q) in *.
  destruct (Py.lt 0 _); [|reflexivity].
  rewrite Hpf. unfold Qdiv. ring.
Qed.

(** *** The coverage dictionary *)

Lemma dict_get_set (d : matrix) (k k' : Z) (c : coverage) :
  dict_get (dict_set d k c) k' = if k =? k' then Some c else dict_get d k'.
Proof.
  induction d as [|[k0 c0] rest IH]; simpl.
  - reflexivity.
  - destruct (k0 =? k) eqn:E0; simpl.
    + apply Z.eqb_eq in E0. subst k0.
      destruct (k =? k'); reflexivity.
    + destruct (k0 =? k') eqn:E1; [|exact IH].
      apply Z.eqb_eq in E1. subst k0.
      apply Z.eqb_neq in E0.
      destruct (k =? k') eqn:E2; [apply Z.eqb_eq in E2; congruence | reflexivity].
Qed.

Lemma dict_set_keys (d : matrix) (k : Z) (c : coverage) :
  map fst (dict_set d k c) =
  if dict_mem d k then map fst d else map fst d ++ [k].
Proof.
  unfold dict_mem. induction d as [|[k0 c0] rest IH]; simpl.
  - reflexivity.
  - destruct (k0 =? k) eqn:E0; simpl; [reflexivity|].
    rewrite IH. destruct (dict_get rest k); reflexivity.
Qed.

Lemma dict_get_keys (d : matrix) (k : Z) :
  dict_mem d k = true <-> In k (map fst d).
Proof.
  unfold dict_mem. induction d as [|[k0 c0] rest IH]; simpl.
  - split; [discriminate | tauto].
  - destruct (k0 =? k) eqn:E0.
    + apply Z.eqb_eq in E0. split; auto.
    + apply Z.eqb_neq in E0. rewrite IH. split; [auto | intros [?|?]; [congruence | auto]].
Qed.

Lemma dict_get_In (d : matrix) (k : Z) (c : coverage) :
  List.NoDup (map fst d) -> In (k, c) d -> dict_get d k = Some c.
Proof.
  induction d as [|[k0 c0] rest IH]; simpl; intros Hnd Hin; [tauto|].
  inversion Hnd as [|? ? Hnot Hnd']; subst.
  destruct Hin as [E|Hin].
  - inversion E; subst. rewrite Z.eqb_refl. reflexivity.
  - destruct (k0 =? k) eqn:E0; [|auto].
    apply Z.eqb_eq in E0. subst k0. exfalso. apply Hnot.
    change k with (fst (k, c)). apply in_map, Hin.
Qed.

Lemma dict_set_nodup (d : matrix) (k : Z) (c : coverage) :
  List.NoDup (map fst d) -> List.NoDup (map fst (dict_set d k c)).
Proof.
  intros Hnd. rewrite dict_set_keys.
  destruct (dict_mem d k) eqn:E; [exact Hnd|].
  apply NoDup_ListNoDup, NoDup_app. split; [apply NoDup_ListNoDup, Hnd|].
  split; [|apply NoDup_singleton].
  intros x Hx Hk. apply list_elem_of_singleton in Hk. subst x.
  apply list_elem_of_In, dict_get_keys in Hx. congruence.
Qed.

Lemma count_line_get (bump : coverage -> coverage) (d : matrix) (ln k : Z) :
  dict_get (count_line bump d ln) k =
  if ln =? k then Some (bump (default zero_coverage (dict_get d ln)))
  else dict_get d k.
Proof.
  unfold count_line, dict_mem.
  destruct (dict_get d ln) as [c|] eqn:E.
  - rewrite E. rewrite dict_get_set. reflexivity.
  - assert (H : dict_get (dict_set d ln zero_coverage) ln = Some zero_coverage)
      by (rewrite dict_get_set, Z.eqb_refl; reflexivity).
    fold zero_coverage. rewrite H, dict_get_set.
    destruct (ln =? k) eqn:Ek; [reflexivity|].
    rewrite dict_get_set, Ek. reflexivity.
Qed.

Lemma count_line_nodup (bump : coverage -> coverage) (d : matrix) (ln : Z) :
  List.NoDup (map fst d) -> List.NoDup (map fst (count_line bump d ln)).
Proof.
  intros Hnd. unfold count_line.
  set (d1 := if dict_mem d ln then d else dict_set d ln _).
  assert (H1 : List.NoDup (map fst d1)).
  { unfold d1. destruct (dict_mem d ln); [exact Hnd | apply dict_set_nodup, Hnd]. }
  destruct (dict_get d1 ln); [apply dict_set_nodup, H1 | exact H1].
Qed.

Lemma count_lines_get (bump : coverage -> coverage) (lines : list Z) :
  forall (d : matrix) (k : Z),
  dict_get (fold_left (count_line bump) lines d) k =
  match count_occ Z.eq_dec lines k with
  | O => dict_get d k
  | S m => Some (Nat.iter (S m) bump (default zero_coverage (dict_get d k)))
  end.
Proof.
  induction lines as [|ln rest IH]; intros d k; [reflexivity|].
  cbn [fold_left count_occ]. rewrite IH, count_line_get.
  destruct (Z.eq_dec ln k) as [->|Hne].
  - rewrite Z.eqb_refl. cbn [from_option id].
    destruct (count_occ Z.eq_dec rest k) as [|m]; [reflexivity|].
    rewrite <- Nat.iter_succ_r. reflexivity.
  - apply Z.eqb_neq in Hne. rewrite Hne. reflexivity.
Qed.

Lemma count_lines_nodup (bump : coverage -> coverage) (lines : list Z) :
  forall d : matrix,
  List.NoDup (map fst d) ->
  List.NoDup (map fst (fold_left (count_line bump) lines d)).
Proof.
  induction lines as [|ln rest IH]; intros d Hnd; [exact Hnd|].
  apply IH, count_line_nodup, Hnd.
Qed.

Lemma count_tests_get (bump : coverage -> coverage) (tests : list TestResult.t) :
  forall (d : matrix) (k : Z),
  dict_get (count_tests bump d tests) k =
  match hits tests k with
  | O => dict_get d k
  | S m => Some (Nat.iter (S m) bump (default zero_coverage (dict_get d k)))
  end.
Proof.
  unfold count_tests.
  induction tests as [|t rest IH]; intros d k; [reflexivity|].
  cbn [fold_left hits]. rewrite IH, count_lines_get.
  destruct (count_occ Z.eq_dec (TestResult.covered_lines t) k) as [|a];
    [reflexivity|].
  cbn [from_option id]. rewrite Nat.add_succ_l.
  destruct (hits rest k) as [|b].
  - rewrite Nat.add_0_r. reflexivity.
  - rewrite <- Nat.iter_add.
    replace (S (a + S b)) with (S b + S a)%nat by lia. reflexivity.
Qed.

Lemma count_tests_nodup (bump : coverage -> coverage) (tests : list TestResult.t) :
  forall d : matrix,
  List.NoDup (map fst d) -> List.NoDup (map fst (count_tests bump d tests)).
Proof.
  unfold count_tests.
  induction tests as [|t rest IH]; intros d Hnd; [exact Hnd|].
  apply IH, count_lines_nodup, Hnd.
Qed.

Lemma iter_bump_passed (m : nat) (c : coverage) :
  Nat.iter m bump_passed c =
  {| passed := passed c + Z.of_nat m; failed := failed c |}.
Proof.
  induction m as [|m IH].
  - destruct c; simpl. f_equal. lia.
  - rewrite Nat.iter_succ, IH. unfold bump_passed; simpl. f_equal. lia.
Qed.

Lemma iter_bump_failed (m : nat) (c : coverage) :
  Nat.iter m bump_failed c =
  {| passed := passed c; failed := failed c + Z.of_nat m |}.
Proof.
  induction m as [|m IH].
  - destruct c; simpl. f_equal. lia.
  - rewrite Nat.iter_succ, IH. unfold bump_failed; simpl. f_equal. lia.
Qed.

(** The matrix holds, for exactly the lines that some passed or failed test
    covers, how often passed tests and failed tests name the line. *)
Lemma matrix_get (self : t) (passed_tests failed_tests : list TestResult.t)
    (k : Z) :
  dict_get (line_coverage
              (_build_coverage_matrix self passed_tests failed_tests)) k =
  match (hits passed_tests k + hits failed_tests k)%nat with
  | O => None
  | S _ => Some {| passed := Z.of_nat (hits passed_tests k);
                   failed := Z.of_nat (hits failed_tests k) |}
  end.
Proof.
  unfold _build_coverage_matrix; cbn [line_coverage].
  rewrite !count_tests_get. cbn [dict_get from_option id].
  destruct (hits passed_tests k) as [|p]; destruct (hits failed_tests k) as [|f];
    cbn [Nat.add]; try reflexivity;
    rewrite ?iter_bump_passed, ?iter_bump_failed;
    cbn [passed failed zero_coverage]; f_equal; f_equal; lia.
Qed.

Lemma matrix_nodup (self : t) (passed_tests failed_tests : list TestResult.t) :
  List.NoDup
    (map fst (line_coverage
                (_build_coverage_matrix self passed_tests failed_tests))).
Proof.
  unfold _build_coverage_matrix; cbn [line_coverage].
  apply count_tests_nodup, count_tests_nodup. constructor.
Qed.

Lemma matrix_entry (self : t) (passed_tests failed_tests : list TestResult.t)
    (k : Z) (c : coverage) :
  In (k, c) (line_coverage
               (_build_coverage_matrix self passed_tests failed_tests)) ->
  c = {| passed := Z.of_nat (hits passed_tests k);
         failed := Z.of_nat (hits failed_tests k) |} /\
  (0 < hits passed_tests k + hits failed_tests k)%nat.
Proof.
  intros Hin.
  apply dict_get_In in Hin; [|apply matrix_nodup].
  rewrite matrix_get in Hin.
  destruct (hits passed_tests k + hits failed_tests k)%nat; [discriminate|].
  inversion Hin. split; [reflexivity | lia].
Qed.

Lemma dict_get_Some_In (d : matrix) (k : Z) (c : coverage) :
  dict_get d k = Some c -> In (k, c) d.
Proof.
  induction d as [|[k0 c0] rest IH]; simpl; [discriminate|].
  destruct (k0 =? k) eqn:E.
  - apply Z.eqb_eq in E. intros H; inversion H; subst. left; reflexivity.
  - intros H. right. apply IH, H.
Qed.

Lemma hits_zero (tests : list TestResult.t) (k : Z) :
  hits tests k = O <->
  forall test, In test tests -> ~ In k (TestResult.covered_lines test).
Proof.
  induction tests as [|t rest IH]; simpl.
  - split; [tauto | reflexivity].
  - split.
    + intros H test [<-|Hin].
      * apply (count_occ_not_In Z.eq_dec). lia.
      * apply IH; [lia | exact Hin].
    + intros H.
      assert (H1 : count_occ Z.eq_dec (TestResult.covered_lines t) k = O).
      { apply count_occ_not_In, H. left; reflexivity. }
      assert (H2 : hits rest k = O).
      { apply IH. intros test Hin. apply H. right; exact Hin. }
      lia.
Qed.

Lemma hits_pos (tests : list TestResult.t) (k : Z) :
  (exists test, In test tests /\ In k (TestResult.covered_lines test)) ->
  (0 < hits tests k)%nat.
Proof.
  intros (test & Hin & Hk).
  destruct (hits tests k) eqn:E; [|lia].
  exfalso. rewrite hits_zero in E. exact (E test Hin Hk).
Qed.

(** *** The sort *)

Lemma insert_desc_perm (x : SuspiciousLine.t) (l : list SuspiciousLine.t) :
  insert_desc x l ≡ₚ x :: l.
Proof.
  induction l as [|y rest IH]; simpl; [reflexivity|].
  destruct (Py.lt _ _); [|reflexivity].
  rewrite IH. apply Permutation_swap.
Qed.

Lemma sort_desc_perm (l : list SuspiciousLine.t) : sort_desc l ≡ₚ l.
Proof.
  unfold sort_desc. induction l as [|x rest IH]; simpl; [reflexivity|].
  rewrite insert_desc_perm, IH. reflexivity.
Qed.

(** *** The analysis *)

Lemma has_status_true (s : string) (test : TestResult.t) :
  has_status s test = true <-> TestResult.status test = s.
Proof. unfold has_status. apply String.eqb_eq. Qed.

Lemma hits_filter_zero (tests : list TestResult.t) (s : string) (k : Z) :
  ~ covered_by tests s k -> hits (List.filter (has_status s) tests) k = O.
Proof.
  intros Hno. apply hits_zero. intros test Hin Hk.
  apply filter_In in Hin as [Hin Hs]. apply has_status_true in Hs.
  apply Hno. exists test. auto.
Qed.

Lemma hits_filter_pos (tests : list TestResult.t) (s : string) (k : Z) :
  covered_by tests s k -> (0 < hits (List.filter (has_status s) tests) k)%nat.
Proof.
  intros (test & Hin & Hs & Hk). apply hits_pos. exists test.
  split; [|exact Hk]. apply filter_In. split; [exact Hin|].
  apply has_status_true, Hs.
Qed.

(** With a failed test in the spectrum, the ranking is the sorted list of
    the records of the matrix. *)
Lemma analyze_ranking (self : t) (r : Random.rng) (source_file : string)
    (tests : list TestResult.t) (source_lines : option (gmap Z string)) :
  List.filter (has_status "failed") tests <> [] ->
  FaultLocalizationOutput.suspicious_lines
    (analyze self r source_file tests source_lines).1.1 =
  sort_desc
    (_calculate_suspiciousness
       (_build_coverage_matrix self
          (List.filter (has_status "passed") tests)
          (List.filter (has_status "failed") tests))
       source_file
       (Py.len (List.filter (has_status "passed") tests))
       (Py.len (List.filter (has_status "failed") tests))
       source_lines).
Proof.
  intros Hne. unfold analyze.
  destruct (Random.uuid4_8 r) as [ident r'].
  destruct (List.filter (has_status "failed") tests) as [|f fs];
    [congruence | reflexivity].
Qed.

Lemma ranked_record (self : t) (r : Random.rng) (source_file : string)
    (tests : list TestResult.t) (source_lines : option (gmap Z string))
    (x : SuspiciousLine.t) :
  List.filter (has_status "failed") tests <> [] ->
  In x (FaultLocalizationOutput.suspicious_lines
          (analyze self r source_file tests source_lines).1.1) <->
  exists k,
    (0 < hits (List.filter (has_status "passed") tests) k
         + hits (List.filter (has_status "failed") tests) k)%nat /\
    x = suspicious_line source_file
          (Py.len (List.filter (has_status "passed") tests))
          (Py.len (List.filter (has_status "failed") tests))
          source_lines
          (k, {| passed :=
                   Z.of_nat (hits (List.filter (has_status "passed") tests) k);
                 failed :=
                   Z.of_nat (hits (List.filter (has_status "failed") tests) k)
              |}).
Proof.
  intros Hne. rewrite (analyze_ranking _ _ _ _ _ Hne).
  rewrite <- list_elem_of_In, sort_desc_perm, list_elem_of_In.
  unfold _calculate_suspiciousness. rewrite in_map_iff. split.
  - intros ([k c] & <- & Hin).
    destruct (matrix_entry _ _ _ _ _ Hin) as [-> Hpos].
    exists k. split; [exact Hpos | reflexivity].
  - intros (k & Hpos & ->).
    eexists. split; [reflexivity|].
    apply dict_get_Some_In. rewrite matrix_get.
    destruct (_ + _)%nat; [lia | reflexivity].
Qed.

Lemma round_one : Py.round 1 4 = 1%Q.
Proof. vm_compute. reflexivity. Qed.

Lemma round_zero : Py.round 0 4 = 0%Q.
Proof. vm_compute. reflexivity. Qed.

(** C1. For every spectrum with at least one failed test: every record of
    the ranking has a score between 0 and 1; the record of a line that
    some failed test covers and no passed test covers scores 1; the record
    of a line that some passed test covers and no failed test covers scores
    0; a line that no test covers has no record; and every line covered by
    a passed or failed test has one. *)
Theorem tarantula_ranking
    (self : t) (r : Random.rng) (source_file : string)
    (tests : list TestResult.t) (source_lines : option (gmap Z string)) :
  (exists test, In test tests /\ TestResult.status test = "failed") ->
  let ranking :=
    FaultLocalizationOutput.suspicious_lines
      (analyze self r source_file tests source_lines).1.1 in
  (forall x, In x ranking ->
     (0 <= SuspiciousLine.suspiciousness_score x)%Q /\
     (SuspiciousLine.suspiciousness_score x <= 1)%Q) /\
  (forall x, In x ranking ->
     covered_by tests "failed" (SuspiciousLine.line_number x) ->
     ~ covered_by tests "passed" (SuspiciousLine.line_number x) ->
     SuspiciousLine.suspiciousness_score x = 1%Q) /\
  (forall x, In x ranking ->
     covered_by tests "passed" (SuspiciousLine.line_number x) ->
     ~ covered_by tests "failed" (SuspiciousLine.line_number x) ->
     SuspiciousLine.suspiciousness_score x = 0%Q) /\
  (forall k,
     (forall test, In test tests -> ~ In k (TestResult.covered_lines test)) ->
     forall x, In x ranking -> SuspiciousLine.line_number x <> k) /\
  (forall k,
     covered_by tests "passed" k \/ covered_by tests "failed" k ->
     exists x, In x ranking /\ SuspiciousLine.line_number x = k).
Proof.
  intros (ft & Hft & Hfs) ranking.
  assert (Hne : List.filter (has_status "failed") tests <> []).
  { intros E. assert (Hin : In ft (List.filter (has_status "failed") tests)).
    { apply filter_In. split; [exact Hft | apply has_status_true, Hfs]. }
    rewrite E in Hin. inversion Hin. }
  assert (Htf : 0 < Py.len (List.filter (has_status "failed") tests)).
  { unfold Py.len. destruct (List.filter (has_status "failed") tests);
      [congruence | simpl; lia]. }
  split; [|split; [|split; [|split]]].
  - intros x Hx. apply (ranked_record _ _ _ _ _ _ Hne) in Hx as (k & _ & ->).
    cbn [suspicious_line SuspiciousLine.suspiciousness_score fst snd passed failed].
    apply round_unit_interval; apply tarantula_unit_interval; lia.
  - intros x Hx. apply (ranked_record _ _ _ _ _ _ Hne) in Hx as (k & _ & ->).
    cbn [suspicious_line SuspiciousLine.suspiciousness_score
         SuspiciousLine.line_number fst snd passed failed].
    intros Hf Hp. apply hits_filter_pos in Hf. apply hits_filter_zero in Hp.
    rewrite Hp. rewrite <- round_one. apply round_compat.
    apply tarantula_only_failing; lia.
  - intros x Hx. apply (ranked_record _ _ _ _ _ _ Hne) in Hx as (k & _ & ->).
    cbn [suspicious_line SuspiciousLine.suspiciousness_score
         SuspiciousLine.line_number fst snd passed failed].
    intros Hp Hf. apply hits_filter_zero in Hf.
    rewrite Hf. rewrite <- round_zero. apply round_compat.
    apply tarantula_only_passing.
  - intros k Hno x Hx.
    apply (ranked_record _ _ _ _ _ _ Hne) in Hx as (k' & Hpos & ->).
    cbn [suspicious_line SuspiciousLine.line_number fst]. intros ->.
    assert (Hz : forall s, hits (List.filter (has_status s) tests) k = O).
    { intros s. apply hits_filter_zero. intros (test & Hin & _ & Hk).
      exact (Hno test Hin Hk). }
    rewrite !Hz in Hpos. lia.
  - intros k Hcov. eexists. split.
    + apply (ranked_record _ _ _ _ _ _ Hne). exists k. split; [|reflexivity].
      destruct Hcov as [H|H]; apply hits_filter_pos in H; lia.
    + reflexivity.
Qed.

Lemma analyze_output_independent
    (self self' : t) (r r' : Random.rng) (source_file : string)
    (tests : list TestResult.t) (source_lines : option (gmap Z string)) :
  let a := (analyze self r source_file tests source_lines).1.1 in
  let b := (analyze self' r' source_file tests source_lines).1.1 in
  FaultLocalizationOutput.suspicious_lines a =
    FaultLocalizationOutput.suspicious_lines b /\
  FaultLocalizationOutput.source_file a =
    FaultLocalizationOutput.source_file b /\
  FaultLocalizationOutput.total_tests a =
    FaultLocalizationOutput.total_tests b /\
  FaultLocalizationOutput.failed_tests a =
    FaultLocalizationOutput.failed_tests b /\
  FaultLocalizationOutput.passed_tests a =
    FaultLocalizationOutput.passed_tests b.
Proof.
  unfold analyze.
  destruct (Random.uuid4_8 r) as [i1 r1].
  destruct (Random.uuid4_8 r') as [i2 r2].
  destruct (List.filter (has_status "failed") tests); cbn; auto.
Qed.

(** C9. Calling [analyze] a second time on the same instance with the same
    file name, test results and line contents gives the same list of
    suspicious-line records (same scores, same counts, same order) and the
    same totals, whatever the scratch matrix and the random source were
    left as by the first call; only the analysis identifier, drawn anew,
    may differ. *)
Theorem analyze_twice
    (self : t) (r : Random.rng) (source_file : string)
    (tests : list TestResult.t) (source_lines : option (gmap Z string)) :
  let first := analyze self r source_file tests source_lines in
  let second := analyze first.1.2 first.2 source_file tests source_lines in
  FaultLocalizationOutput.suspicious_lines first.1.1 =
    FaultLocalizationOutput.suspicious_lines second.1.1 /\
  FaultLocalizationOutput.source_file first.1.1 =
    FaultLocalizationOutput.source_file second.1.1 /\
  FaultLocalizationOutput.total_tests first.1.1 =
    FaultLocalizationOutput.total_tests second.1.1 /\
  FaultLocalizationOutput.failed_tests first.1.1 =
    FaultLocalizationOutput.failed_tests second.1.1 /\
  FaultLocalizationOutput.passed_tests first.1.1 =
    FaultLocalizationOutput.passed_tests second.1.1.
Proof.
  intros first second. apply analyze_output_independent.
Qed.

Lemma filter_without (f : TestResult.t -> bool) (pre post : list TestResult.t)
    (e : TestResult.t) :
  f e = false -> List.filter f (pre ++ e :: post) = List.filter f (pre ++ post).
Proof.
  intros He. rewrite !List.filter_app. simpl. rewrite He. reflexivity.
Qed.

Lemma has_status_false (s : string) (test : TestResult.t) :
  TestResult.status test <> s -> has_status s test = false.
Proof. intros H. unfold has_status. apply String.eqb_neq, H. Qed.

(** C10. Let [e] be a test result whose status is neither ["passed"] nor
    ["failed"]. Adding [e] anywhere in a spectrum raises [total_tests] by
    one and changes nothing else: the passed and failed totals, every
    record of the ranking (hence every line's counts) and the coverage
    matrix are as without [e]. When no test of the spectrum has status
    ["failed"], the analysis leaves through the early exit: the ranking is
    empty, [failed_tests] is 0 and the instance is left as it was. *)
Theorem error_status_excluded
    (self : t) (r : Random.rng) (source_file : string)
    (pre post : list TestResult.t) (e : TestResult.t)
    (source_lines : option (gmap Z string)) :
  TestResult.status e <> "passed" ->
  TestResult.status e <> "failed" ->
  let with_e := analyze self r source_file (pre ++ e :: post) source_lines in
  let without := analyze self r source_file (pre ++ post) source_lines in
  FaultLocalizationOutput.total_tests with_e.1.1 =
    FaultLocalizationOutput.total_tests without.1.1 + 1 /\
  FaultLocalizationOutput.passed_tests with_e.1.1 =
    FaultLocalizationOutput.passed_tests without.1.1 /\
  FaultLocalizationOutput.failed_tests with_e.1.1 =
    FaultLocalizationOutput.failed_tests without.1.1 /\
  FaultLocalizationOutput.suspicious_lines with_e.1.1 =
    FaultLocalizationOutput.suspicious_lines without.1.1 /\
  with_e.1.2 = without.1.2 /\
  (Forall (fun test => TestResult.status test <> "failed") (pre ++ post) ->
   FaultLocalizationOutput.suspicious_lines with_e.1.1 = [] /\
   FaultLocalizationOutput.failed_tests with_e.1.1 = 0 /\
   with_e.1.2 = self).
Proof.
  intros Hp Hf with_e without. subst with_e without. unfold analyze.
  rewrite (filter_without _ pre post e (has_status_false _ _ Hp)).
  rewrite (filter_without _ pre post e (has_status_false _ _ Hf)).
  destruct (Random.uuid4_8 r) as [ident r'].
  assert (Hlen : Py.len (pre ++ e :: post) = Py.len (pre ++ post) + 1).
  { unfold Py.len. rewrite !length_app. simpl. lia. }
  destruct (List.filter (has_status "failed") (pre ++ post)) as [|f fs] eqn:E;
    cbn [fst snd FaultLocalizationOutput.total_tests
         FaultLocalizationOutput.passed_tests
         FaultLocalizationOutput.failed_tests
         FaultLocalizationOutput.suspicious_lines].
  - repeat split; auto.
  - split; [exact Hlen|]. do 4 (split; [reflexivity|]).
    intros Hall. exfalso.
    assert (Hin : In f (List.filter (has_status "failed") (pre ++ post)))
      by (rewrite E; left; reflexivity).
    apply filter_In in Hin as [Hin Hs]. apply has_status_true in Hs.
    rewrite Forall_forall in Hall.
    apply (Hall f); [apply list_elem_of_In, Hin | exact Hs].
Qed.

(** Scenario A: line 3 is ranked first with score 1, lines 1 and 2 follow
    in discovery order with score 0.5. *)
Example scenario_A_ranking :
  map (fun x => (SuspiciousLine.line_number x,
                 SuspiciousLine.suspiciousness_score x,
                 SuspiciousLine.failed_coverage x,
                 SuspiciousLine.passed_coverage x))
      (FaultLocalizationOutput.suspicious_lines (analysis_of scenario_A)) =
  [(3, 1%Q, 1, 0); (1, (1 # 2)%Q, 1, 1); (2, (1 # 2)%Q, 1, 1)].
Proof. vm_compute. reflexivity. Qed.

(** C1 on scenario A: line 3, covered by the failed test only, is ranked
    with score 1. *)
Lemma tarantula_ranking_witness :
  exists x,
    In x (FaultLocalizationOutput.suspicious_lines (analysis_of scenario_A)) /\
    SuspiciousLine.line_number x = 3 /\
    SuspiciousLine.suspiciousness_score x = 1%Q.
Proof.
  destruct (tarantula_ranking __init__ zero_tape "f.cpp" scenario_A None)
    as (_ & Hone & _ & _ & Hex).
  { exists (TestResult.mk "f" "failed" [1; 2; 3]).
    split; [right; left; reflexivity | reflexivity]. }
  assert (Hf : covered_by scenario_A "failed" 3).
  { exists (TestResult.mk "f" "failed" [1; 2; 3]).
    split; [right; left; reflexivity|].
    split; [reflexivity | right; right; left; reflexivity]. }
  destruct (Hex 3 (or_intror Hf)) as (x & Hx & Hl).
  exists x. split; [exact Hx|]. split; [exact Hl|].
  apply Hone; [exact Hx | rewrite Hl; exact Hf |].
  rewrite Hl. intros (test & Hin & Hs & Hk).
  destruct Hin as [<-|[<-|[]]]; simpl in *.
  - destruct Hk as [Hk|[Hk|[]]]; discriminate Hk.
  - discriminate Hs.
Defined.

(** C10 on a passed test followed by a test that ended in an error. *)
Lemma error_status_excluded_witness :
  FaultLocalizationOutput.total_tests (analysis_of [passed_test; error_test]) =
    FaultLocalizationOutput.total_tests (analysis_of [passed_test]) + 1 /\
  FaultLocalizationOutput.passed_tests (analysis_of [passed_test; error_test])
    = FaultLocalizationOutput.passed_tests (analysis_of [passed_test]) /\
  FaultLocalizationOutput.suspicious_lines
    (analysis_of [passed_test; error_test]) = [].
Proof.
  destruct (error_status_excluded __init__ zero_tape "f.cpp"
              [passed_test] [] error_test None)
    as (Ht & Hp & _ & _ & _ & Hexit).
  - discriminate.
  - discriminate.
  - destruct Hexit as (Hs & _ & _).
    { repeat constructor. discriminate. }
    split; [exact Ht|]. split; [exact Hp | exact Hs].
Defined.

End Tarantula.

(** ** The reporter *)

Section Reporter.

Import FaultLocalizationReporter.

Lemma max_of_le (gs : list Z) : forall (g t : Z),
  max_of g gs <= t <-> Forall (fun d => d <= t) (g :: gs).
Proof.
  unfold max_of.
  induction gs as [|h gs IH]; intros g t; simpl.
  - split; [intros H; repeat constructor; exact H | intros H; inversion H; auto].
  - rewrite IH. split; intros H.
    + inversion H as [|? ? Hm Hr]; subst.
      repeat constructor; [lia | lia | exact Hr].
    + inversion H as [|? ? Hg Hr]; subst.
      inversion Hr as [|? ? Hh Hr']; subst.
      constructor; [lia | exact Hr'].
Qed.

Lemma min_of_spec (l : list Z) : forall x : Z, is_min (min_of x l) (x :: l).
Proof.
  unfold min_of, is_min.
  induction l as [|h l IH]; intros x; simpl.
  - split; [left; reflexivity | repeat constructor; lia].
  - destruct (IH (Z.min x h)) as [Hin Hall].
    inversion Hall as [|? ? Hm Hr]; subst. split.
    + destruct Hin as [E|Hin]; [|right; right; exact Hin].
      rewrite <- E. destruct (Z.min_spec x h) as [[_ ->]|[_ ->]]; auto.
    + constructor; [lia|]. constructor; [lia | exact Hr].
Qed.

Lemma max_of_spec (l : list Z) : forall x : Z, is_max (max_of x l) (x :: l).
Proof.
  unfold max_of, is_max.
  induction l as [|h l IH]; intros x; simpl.
  - split; [left; reflexivity | repeat constructor; lia].
  - destruct (IH (Z.max x h)) as [Hin Hall].
    inversion Hall as [|? ? Hm Hr]; subst. split.
    + destruct Hin as [E|Hin]; [|right; right; exact Hin].
      rewrite <- E. destruct (Z.max_spec x h) as [[_ ->]|[_ ->]]; auto.
    + constructor; [lia|]. constructor; [lia | exact Hr].
Qed.

Lemma is_min_unique (l : list Z) (a b : Z) : is_min a l -> is_min b l -> a = b.
Proof.
  intros [Ha Hla] [Hb Hlb]. rewrite Forall_forall in Hla, Hlb.
  apply list_elem_of_In in Ha, Hb.
  specialize (Hla b Hb). specialize (Hlb a Ha). lia.
Qed.

Lemma is_max_unique (l : list Z) (a b : Z) : is_max a l -> is_max b l -> a = b.
Proof.
  intros [Ha Hla] [Hb Hlb]. rewrite Forall_forall in Hla, Hlb.
  apply list_elem_of_In in Ha, Hb.
  specialize (Hla b Hb). specialize (Hlb a Ha). lia.
Qed.

Lemma gaps_cons (a b : Z) (rest : list Z) :
  gaps (a :: b :: rest) = (b - a) :: gaps (b :: rest).
Proof. reflexivity. Qed.

Lemma gaps_within (t : Z) (s : list Z) :
  Forall (fun d => d <= t) (gaps s) <-> neighbours_within t s.
Proof.
  unfold neighbours_within.
  induction s as [|a s IH].
  - split; [intros _ i x y H; inversion H | constructor].
  - destruct s as [|b rest].
    + split; [intros _ [|i] x y H1 H2; inversion H2 | constructor].
    + rewrite gaps_cons. split.
      * intros H. apply Forall_cons in H as [Hab Hr].
        intros [|i] x y H1 H2.
        -- inversion H1; inversion H2; subst. exact Hab.
        -- destruct IH as [IH1 _]. exact (IH1 Hr i x y H1 H2).
      * intros H. constructor.
        -- exact (H O a b eq_refl eq_refl).
        -- destruct IH as [_ IH2]. apply IH2.
           intros i x y H1 H2. exact (H (S i) x y H1 H2).
Qed.

Lemma sorted_length (l : list Z) : length (sorted l) = length l.
Proof. unfold sorted. rewrite merge_sort_Permutation. reflexivity. Qed.

Lemma clustered_neighbours (l : list Z) (t : Z) :
  2 <= Py.len l ->
  _are_lines_clustered l t = true <-> neighbours_within t (sorted l).
Proof.
  intros Hlen. unfold _are_lines_clustered.
  destruct (Py.len l <? 2) eqn:E; [apply Z.ltb_lt in E; lia|].
  rewrite <- gaps_within.
  pose proof (sorted_length l) as Hs.
  destruct (sorted l) as [|a [|b rest]];
    try (unfold Py.len in Hlen; simpl in Hs; lia).
  rewrite gaps_cons, Z.leb_le. apply max_of_le.
Qed.

Lemma chained_sorted (l : list Z) (t : Z) :
  chained_within t l <-> neighbours_within t (sorted l).
Proof.
  unfold chained_within. split.
  - intros (s & Hp & Hs & Hn).
    assert (E : s = sorted l); [|rewrite <- E; exact Hn].
    apply (Sorted_unique Z.le); [exact Hs | apply Sorted_merge_sort; apply _ |].
    unfold sorted. rewrite merge_sort_Permutation. exact Hp.
  - intros Hn. exists (sorted l).
    split; [apply merge_sort_Permutation|].
    split; [apply Sorted_merge_sort; apply _ | exact Hn].
Qed.

(** Case analysis on which of the five rules a recommendation comes from,
    and on the guard of each rule. *)
Ltac rule_cases H :=
  destruct H as [H|[H|[H|[H|H]]]]; revert H;
  repeat match goal with
         | |- context [if ?b then _ else _] => destruct b
         | |- context [match ?b with [] => _ | _ :: _ => _ end] => destruct b
         end; simpl.

(** Only the third rule produces a [Clustered] recommendation. *)
Lemma clustered_from_third_rule (analysis : FaultLocalizationOutput.t)
    (top : list SuspiciousLine.t) (lo hi : Z) :
  In (Clustered lo hi) (_generate_recommendations analysis top) <->
  3 <= Py.len top /\
  _are_lines_clustered
    (map SuspiciousLine.line_number (Py.slice_to top 5)) 5 = true /\
  match map SuspiciousLine.line_number (Py.slice_to top 5) with
  | x :: l => lo = min_of x l /\ hi = max_of x l
  | [] => False
  end.
Proof.
  unfold _generate_recommendations.
  destruct top as [|top_line rest] eqn:Etop.
  - simpl. split; [intros [H|[]]; discriminate H | unfold Py.len; simpl; lia].
  - rewrite <- Etop.
    set (nums := map SuspiciousLine.line_number (Py.slice_to top 5)).
    rewrite !in_app_iff.
    destruct (3 <=? Py.len top) eqn:E3.
    + apply Z.leb_le in E3.
      destruct (_are_lines_clustered nums 5) eqn:Ec.
      * destruct nums as [|x l].
        { split; [|tauto].
          intros H; rule_cases H; intuition discriminate. }
        split.
        { intros H; rule_cases H; try intuition discriminate.
          intros [H|[]]. inversion H. auto. }
        { intros (_ & _ & -> & ->). right; right; left. left. reflexivity. }
      * split; [|intros (_ & H & _); discriminate H].
        intros H; rule_cases H; intuition discriminate.
    + apply Z.leb_gt in E3. split; [|intros (H & _); lia].
      intros H; rule_cases H; intuition discriminate.
Qed.

Lemma slice_to_take {A} (l : list A) (n : Z) :
  0 <= n -> Py.slice_to l n = take (Z.to_nat n) l.
Proof.
  intros Hn. unfold Py.slice_to.
  destruct (0 <=? n) eqn:E; [reflexivity | apply Z.leb_gt in E; lia].
Qed.

Lemma first_five_length (analysis : FaultLocalizationOutput.t) (top_n : Z) :
  Py.len (first_five analysis top_n) =
  Z.min 5 (Py.len (Py.slice_to
                     (FaultLocalizationOutput.suspicious_lines analysis)
                     top_n)).
Proof.
  unfold first_five, Py.len. rewrite length_map.
  rewrite (slice_to_take _ 5) by lia. rewrite length_take.
  rewrite Nat2Z.inj_min, Z2Nat.id by lia. reflexivity.
Qed.

(** C8 (as amended). In [generate_report] the "clustered" recommendation is
    present exactly when at least three suspicious lines are reported (the
    first [top_n] of the ranking) and the line numbers of the first five
    reported lines, put in ascending order, have every two neighbours at
    most 5 apart; the region it names runs from the smallest to the largest
    of those line numbers. *)
Theorem clustered_recommendation
    (r : Random.rng) (now : string) (analysis : FaultLocalizationOutput.t)
    (top_n lo hi : Z) :
  let report := (generate_report r now analysis top_n).1 in
  let reported :=
    Py.slice_to (FaultLocalizationOutput.suspicious_lines analysis) top_n in
  In (Clustered lo hi) (ReportOutput.recommendations report) <->
  3 <= Py.len reported /\
  chained_within 5 (first_five analysis top_n) /\
  is_min lo (first_five analysis top_n) /\
  is_max hi (first_five analysis top_n).
Proof.
  intros report reported. subst report. unfold generate_report.
  destruct (Random.uuid4_8 r) as [ident r'].
  cbn [fst ReportOutput.recommendations].
  rewrite clustered_from_third_rule. fold reported.
  change (map SuspiciousLine.line_number (Py.slice_to reported 5))
    with (first_five analysis top_n).
  pose proof (first_five_length analysis top_n) as Hlen. fold reported in Hlen.
  split.
  - intros (H3 & Hc & Hm).
    split; [exact H3|].
    apply clustered_neighbours in Hc; [|lia].
    split; [apply chained_sorted, Hc|].
    destruct (first_five analysis top_n) as [|x l]; [tauto|].
    destruct Hm as [-> ->]. split; [apply min_of_spec | apply max_of_spec].
  - intros (H3 & Hc & Hlo & Hhi).
    split; [exact H3|].
    split; [apply clustered_neighbours; [lia | apply chained_sorted, Hc]|].
    destruct (first_five analysis top_n) as [|x l].
    + unfold Py.len in *. simpl in Hlen. lia.
    + split; [eapply is_min_unique | eapply is_max_unique]; eauto.
      * apply min_of_spec.
      * apply max_of_spec.
Qed.

(** C8 on the ranking 1, 6, 11: the recommendation is present, so the three
    line numbers are chained within 5 and the region is 1-11. *)
Lemma clustered_recommendation_witness :
  3 <= Py.len
         (Py.slice_to
            (FaultLocalizationOutput.suspicious_lines
               (analysis_of spread_spectrum)) 10) /\
  chained_within 5 (first_five (analysis_of spread_spectrum) 10) /\
  is_min 1 (first_five (analysis_of spread_spectrum) 10) /\
  is_max 11 (first_five (analysis_of spread_spectrum) 10).
Proof.
  destruct (clustered_recommendation zero_tape "2025-01-01T00:00:00"
              (analysis_of spread_spectrum) 10 1 11) as [H _].
  apply H. vm_compute. tauto.
Defined.

(** C8 (as stated) fails in both directions. On the ranking 1, 6, 11 the
    recommendation is present and names lines 1-11, a span of 10; on the
    ranking 10, 11, a span of 1, it is absent. *)
Lemma clustered_is_not_span :
  map SuspiciousLine.line_number
    (ReportOutput.top_suspicious_lines (report_of spread_spectrum 10))
    = [1; 6; 11] /\
  In (Clustered 1 11)
    (ReportOutput.recommendations (report_of spread_spectrum 10)) /\
  5 < 11 - 1 /\
  map SuspiciousLine.line_number
    (ReportOutput.top_suspicious_lines (report_of pair_spectrum 10))
    = [10; 11] /\
  ReportOutput.recommendations (report_of pair_spectrum 10)
    = [HighPriority 10 1; OnlyInFailed 1 [10]; FewTests 2].
Proof.
  split; [vm_compute; reflexivity|].
  split; [vm_compute; tauto|].
  split; [lia|].
  split; vm_compute; reflexivity.
Qed.

End Reporter.

(** ** Rounding: monotonicity and fixed points *)

(** Turn the outcomes of comparisons into order facts. *)
Ltac compare_facts :=
  repeat match goal with
         | H : Qcompare _ _ = Eq |- _ => apply Qeq_alt in H
         | H : Qcompare _ _ = Lt |- _ => apply Qlt_alt in H
         | H : Qcompare _ _ = Gt |- _ => apply Qgt_alt in H
         end.

Section RoundingOrder.


Lemma round_half_even_mono (x y : Q) :
  (x <= y)%Q -> Py.round_half_even x <= Py.round_half_even y.
Proof.
  intros Hxy.
  pose proof (Qfloor_resp_le x y Hxy) as Hfl.
  unfold Py.round_half_even.
  destruct (Z.eq_dec (Qfloor x) (Qfloor y)) as [E|E].
  - rewrite E.
    destruct (Qcompare (x - inject_Z (Qfloor y)) (1 # 2)) eqn:Cx;
      destruct (Qcompare (y - inject_Z (Qfloor y)) (1 # 2)) eqn:Cy;
      compare_facts; try (exfalso; lra);
      destruct (Z.even (Qfloor y)); lia.
  - assert (Qfloor x + 1 <= Qfloor y) by lia.
    destruct (Qcompare (x - inject_Z (Qfloor x)) (1 # 2));
      destruct (Qcompare (y - inject_Z (Qfloor y)) (1 # 2));
      destruct (Z.even (Qfloor x)); destruct (Z.even (Qfloor y)); lia.
Qed.

Lemma round_mono (x y : Q) (k : nat) :
  (x <= y)%Q -> (Py.round x k <= Py.round y k)%Q.
Proof.
  intros Hxy. unfold Py.round.
  set (p := Z.to_pos (10 ^ Z.of_nat k)).
  rewrite !Qred_correct. unfold Qle; simpl.
  apply Z.mul_le_mono_nonneg_r; [lia|].
  apply round_half_even_mono.
  apply Qmult_le_compat_r; [exact Hxy|].
  unfold Qle, inject_Z; simpl. lia.
Qed.

Lemma round_half_even_integer (n : Z) : Py.round_half_even (inject_Z n) = n.
Proof.
  pose proof (round_half_even_bounds (inject_Z n) n n (Qle_refl _) (Qle_refl _)).
  lia.
Qed.

(** A value with [k] decimals is its own rounding to [k] decimals. *)
Lemma round_decimal (z : Z) (k : nat) :
  Py.round (z # Z.to_pos (10 ^ Z.of_nat k)) k =
  Qred (z # Z.to_pos (10 ^ Z.of_nat k)).
Proof.
  unfold Py.round.
  set (p := Z.to_pos (10 ^ Z.of_nat k)).
  rewrite (round_half_even_compat ((z # p) * inject_Z (Z.pos p)) (inject_Z z)).
  - rewrite round_half_even_integer. reflexivity.
  - unfold Qeq, Qmult, inject_Z; simpl. lia.
Qed.

Lemma round_idempotent (x : Q) (k : nat) :
  Py.round (Py.round x k) k = Py.round x k.
Proof.
  unfold Py.round at 2.
  set (p := Z.to_pos (10 ^ Z.of_nat k)).
  set (z := Py.round_half_even (x * inject_Z (Z.pos p))).
  rewrite (round_compat (Qred (z # p)) (z # p)) by apply Qred_correct.
  apply round_decimal.
Qed.

Lemma round_integer_fixed (a : Z) (k : nat) :
  (Py.round (inject_Z a) k == inject_Z a)%Q.
Proof.
  rewrite (round_compat (inject_Z a)
             (a * Z.pos (Z.to_pos (10 ^ Z.of_nat k))
              # Z.to_pos (10 ^ Z.of_nat k)))
    by (unfold Qeq, inject_Z; simpl; lia).
  rewrite round_decimal, Qred_correct.
  unfold Qeq, inject_Z; simpl. lia.
Qed.

(** Rounding does not cross an integer. *)
Lemma round_ge_integer (x : Q) (k : nat) (a : Z) :
  (inject_Z a <= x)%Q -> (inject_Z a <= Py.round x k)%Q.
Proof.
  intros Ha. rewrite <- (round_integer_fixed a k). apply round_mono, Ha.
Qed.

Lemma round_le_integer (x : Q) (k : nat) (b : Z) :
  (x <= inject_Z b)%Q -> (Py.round x k <= inject_Z b)%Q.
Proof.
  intros Hb. rewrite <- (round_integer_fixed b k). apply round_mono, Hb.
Qed.

End RoundingOrder.

(** ** The ranking: order, ties, counts *)

Section Ranking.

Import TarantulaLocalizer FaultLocalizer.

Lemma lt_false (a b : Q) : Py.lt a b = false <-> (b <= a)%Q.
Proof.
  unfold Py.lt. destruct (Qcompare a b) eqn:C.
  - apply Qeq_alt in C. split; [intros _; rewrite C; apply Qle_refl | reflexivity].
  - apply Qlt_alt in C. split; [discriminate | intros H; exfalso; lra].
  - apply Qgt_alt in C. split; [intros _; lra | reflexivity].
Qed.

Lemma insert_desc_descending (x : SuspiciousLine.t) (l : list SuspiciousLine.t) :
  descending l -> descending (insert_desc x l).
Proof.
  unfold descending. induction l as [|y rest IH]; intros Hs; simpl.
  - constructor; constructor.
  - apply StronglySorted_inv in Hs as [Hrest Hy].
    destruct (Py.lt _ _) eqn:E.
    + apply lt_true in E. constructor; [apply IH, Hrest|].
      rewrite insert_desc_perm. constructor; [lra | exact Hy].
    + apply lt_false in E. constructor; [constructor; assumption|].
      constructor; [exact E|].
      eapply Forall_impl; [exact Hy|]. intros z Hz. simpl in Hz. lra.
Qed.

Lemma sort_desc_descending (l : list SuspiciousLine.t) :
  descending (sort_desc l).
Proof.
  unfold sort_desc. induction l as [|x rest IH]; simpl.
  - constructor.
  - apply insert_desc_descending, IH.
Qed.

Lemma has_score_true (s : Q) (x : SuspiciousLine.t) :
  has_score s x = true <-> (SuspiciousLine.suspiciousness_score x == s)%Q.
Proof. unfold has_score. apply Qeq_bool_iff. Qed.

Lemma insert_desc_filter (s : Q) (x : SuspiciousLine.t)
    (l : list SuspiciousLine.t) :
  List.filter (has_score s) (insert_desc x l) =
  List.filter (has_score s) (x :: l).
Proof.
  induction l as [|y rest IH]; [reflexivity|].
  cbn [insert_desc]. destruct (Py.lt _ _) eqn:E; [|reflexivity].
  apply lt_true in E.
  cbn [List.filter] in *. rewrite IH.
  destruct (has_score s y) eqn:Hy; [|reflexivity].
  destruct (has_score s x) eqn:Hx; [|reflexivity].
  apply has_score_true in Hx, Hy. exfalso. lra.
Qed.

(** The sort is stable: records of one score keep their order. *)
Lemma sort_desc_stable (s : Q) (l : list SuspiciousLine.t) :
  List.filter (has_score s) (sort_desc l) = List.filter (has_score s) l.
Proof.
  unfold sort_desc. induction l as [|x rest IH]; [reflexivity|].
  cbn [foldr]. rewrite insert_desc_filter. cbn [List.filter].
  rewrite IH. reflexivity.
Qed.

Lemma count_line_keys (bump : coverage -> coverage) (d : matrix) (k : Z) :
  map fst (count_line bump d k) =
  if dict_mem d k then map fst d else map fst d ++ [k].
Proof.
  unfold count_line.
  destruct (dict_mem d k) eqn:E.
  - unfold dict_mem in E. destruct (dict_get d k) as [c|] eqn:G; [|discriminate].
    rewrite dict_set_keys. unfold dict_mem. rewrite G. reflexivity.
  - assert (H : dict_get (dict_set d k zero_coverage) k = Some zero_coverage)
      by (rewrite dict_get_set, Z.eqb_refl; reflexivity).
    rewrite H, dict_set_keys. unfold dict_mem at 1. rewrite H.
    rewrite dict_set_keys, E. reflexivity.
Qed.

Lemma dict_mem_decide (d : matrix) (k : Z) :
  dict_mem d k = bool_decide (k ∈ map fst d).
Proof.
  destruct (dict_mem d k) eqn:E; symmetry.
  - apply bool_decide_eq_true_2, list_elem_of_In, dict_get_keys, E.
  - apply bool_decide_eq_false_2. intros H.
    apply list_elem_of_In, dict_get_keys in H. congruence.
Qed.

Lemma count_lines_keys (bump : coverage -> coverage) (lines : list Z) :
  forall d : matrix,
  map fst (fold_left (count_line bump) lines d) =
  map fst d ++ first_occurrences (map fst d) lines.
Proof.
  induction lines as [|k rest IH]; intros d; simpl.
  - rewrite app_nil_r. reflexivity.
  - rewrite IH, count_line_keys, dict_mem_decide.
    destruct (bool_decide (k ∈ map fst d)); [reflexivity|].
    rewrite <- app_assoc. reflexivity.
Qed.

Lemma first_occurrences_app (l1 l2 : list Z) : forall seen : list Z,
  first_occurrences seen (l1 ++ l2) =
  first_occurrences seen l1 ++
  first_occurrences (seen ++ first_occurrences seen l1) l2.
Proof.
  induction l1 as [|k rest IH]; intros seen; simpl.
  - rewrite app_nil_r. reflexivity.
  - destruct (bool_decide (k ∈ seen)); [apply IH|].
    rewrite IH. simpl. rewrite <- app_assoc. reflexivity.
Qed.

Lemma count_tests_keys (bump : coverage -> coverage) (tests : list TestResult.t) :
  forall d : matrix,
  map fst (count_tests bump d tests) =
  map fst d ++
  first_occurrences (map fst d) (concat (map TestResult.covered_lines tests)).
Proof.
  unfold count_tests.
  induction tests as [|t rest IH]; intros d; simpl.
  - rewrite app_nil_r. reflexivity.
  - rewrite IH, count_lines_keys, first_occurrences_app, app_assoc.
    reflexivity.
Qed.

Lemma matrix_keys (self : t) (tests : list TestResult.t) :
  map fst (line_coverage
             (_build_coverage_matrix self
                (List.filter (has_status "passed") tests)
                (List.filter (has_status "failed") tests))) =
  discovery_order tests.
Proof.
  unfold _build_coverage_matrix, discovery_order; cbn [line_coverage].
  rewrite !count_tests_keys. cbn [map app].
  rewrite map_app, concat_app, first_occurrences_app. reflexivity.
Qed.

Lemma matrix_records (self : t) (tests : list TestResult.t)
    (source_file : string) (source_lines : option (gmap Z string)) :
  _calculate_suspiciousness
    (_build_coverage_matrix self
       (List.filter (has_status "passed") tests)
       (List.filter (has_status "failed") tests))
    source_file
    (Py.len (List.filter (has_status "passed") tests))
    (Py.len (List.filter (has_status "failed") tests)) source_lines =
  map (fun k =>
         suspicious_line source_file
           (Py.len (List.filter (has_status "passed") tests))
           (Py.len (List.filter (has_status "failed") tests)) source_lines
           (k, {| passed :=
                    Z.of_nat (hits (List.filter (has_status "passed") tests) k);
                  failed :=
                    Z.of_nat (hits (List.filter (has_status "failed") tests) k)
               |}))
      (discovery_order tests).
Proof.
  rewrite <- (matrix_keys self). unfold _calculate_suspiciousness.
  rewrite map_map. apply map_ext_in. intros [k c] Hin.
  apply matrix_entry in Hin as [-> _]. reflexivity.
Qed.

Lemma failed_filter_nonempty (tests : list TestResult.t) :
  (exists test, In test tests /\ TestResult.status test = "failed") ->
  List.filter (has_status "failed") tests <> [].
Proof.
  intros (ft & Hft & Hfs) E.
  assert (Hin : In ft (List.filter (has_status "failed") tests)).
  { apply filter_In. split; [exact Hft | apply has_status_true, Hfs]. }
  rewrite E in Hin. inversion Hin.
Qed.

Lemma ranking_cases (self : t) (r : Random.rng) (source_file : string)
    (tests : list TestResult.t) (source_lines : option (gmap Z string)) :
  let ranking :=
    FaultLocalizationOutput.suspicious_lines
      (analyze self r source_file tests source_lines).1.1 in
  (List.filter (has_status "failed") tests = [] /\ ranking = []) \/
  (List.filter (has_status "failed") tests <> [] /\
   ranking =
     sort_desc
       (map (fun k =>
               suspicious_line source_file
                 (Py.len (List.filter (has_status "passed") tests))
                 (Py.len (List.filter (has_status "failed") tests))
                 source_lines
                 (k, {| passed :=
                          Z.of_nat
                            (hits (List.filter (has_status "passed") tests) k);
                        failed :=
                          Z.of_nat
                            (hits (List.filter (has_status "failed") tests) k)
                     |}))
          (discovery_order tests))).
Proof.
  intros ranking.
  destruct (List.filter (has_status "failed") tests) as [|f fs] eqn:E.
  - left. split; [reflexivity|]. subst ranking. unfold analyze.
    destruct (Random.uuid4_8 r). rewrite E. reflexivity.
  - right. split; [discriminate|]. subst ranking.
    rewrite analyze_ranking by (rewrite E; discriminate).
    rewrite matrix_records, E. reflexivity.
Qed.

Lemma ranking_descending_order
    (self : t) (r : Random.rng) (source_file : string)
    (tests : list TestResult.t) (source_lines : option (gmap Z string)) :
  descending
    (FaultLocalizationOutput.suspicious_lines
       (analyze self r source_file tests source_lines).1.1).
Proof.
  destruct (ranking_cases self r source_file tests source_lines)
    as [[_ E]|[Hne E]]; rewrite E.
  - constructor.
  - apply sort_desc_descending.
Qed.

(** X1. Whatever the spectrum, the ranking that [analyze] returns is in
    descending order of score and holds at most one record per line. *)
Theorem ranking_descending_distinct
    (self : t) (r : Random.rng) (source_file : string)
    (tests : list TestResult.t) (source_lines : option (gmap Z string)) :
  let ranking :=
    FaultLocalizationOutput.suspicious_lines
      (analyze self r source_file tests source_lines).1.1 in
  descending ranking /\
  List.NoDup (map SuspiciousLine.line_number ranking).
Proof.
  intros ranking.
  destruct (ranking_cases self r source_file tests source_lines)
    as [[_ E]|[Hne E]]; fold ranking in E; rewrite E.
  - split; constructor.
  - split; [apply sort_desc_descending|].
    apply NoDup_ListNoDup. rewrite sort_desc_perm, map_map. cbn.
    rewrite map_id, <- (matrix_keys self).
    apply NoDup_ListNoDup, matrix_nodup.
Qed.

Lemma filter_split {A} (p : A -> bool) (x : A) (l : list A) :
  forall a rest,
    List.filter p l = a ++ x :: rest ->
    exists l1 l2,
      l = l1 ++ x :: l2 /\ List.filter p l1 = a /\ List.filter p l2 = rest.
Proof.
  induction l as [|y l IH]; intros a rest E; cbn [List.filter] in E.
  - destruct a; discriminate E.
  - destruct (p y) eqn:Hy.
    + destruct a as [|z a]; cbn [app] in E.
      * injection E as -> E. exists [], l. split; [reflexivity|].
        split; [reflexivity | exact E].
      * injection E as -> E. destruct (IH a rest E) as (l1 & l2 & -> & <- & <-).
        exists (z :: l1), l2. split; [reflexivity|].
        cbn [List.filter]. rewrite Hy. split; reflexivity.
    + destruct (IH a rest E) as (l1 & l2 & -> & <- & <-).
      exists (y :: l1), l2. split; [reflexivity|].
      cbn [List.filter]. rewrite Hy. split; reflexivity.
Qed.

(** Two records of one score keep their relative order in the sort. *)
Lemma sort_desc_keeps_ties (x y : SuspiciousLine.t)
    (l : list SuspiciousLine.t) :
  SuspiciousLine.suspiciousness_score x =
    SuspiciousLine.suspiciousness_score y ->
  before x y l -> before x y (sort_desc l).
Proof.
  intros Hs (l1 & l2 & l3 & ->).
  set (s := SuspiciousLine.suspiciousness_score x).
  assert (Hx : has_score s x = true) by (apply has_score_true; reflexivity).
  assert (Hy : has_score s y = true)
    by (apply has_score_true; unfold s; rewrite Hs; reflexivity).
  pose proof (sort_desc_stable s (l1 ++ x :: l2 ++ y :: l3)) as E.
  assert (Efil : List.filter (has_score s) (l1 ++ x :: l2 ++ y :: l3) =
                 List.filter (has_score s) l1 ++
                 x :: List.filter (has_score s) l2 ++
                 y :: List.filter (has_score s) l3).
  { rewrite List.filter_app. cbn [List.filter]. rewrite Hx.
    rewrite List.filter_app. cbn [List.filter]. rewrite Hy. reflexivity. }
  rewrite Efil in E.
  apply filter_split in E as (m1 & m2 & E & _ & E2).
  apply filter_split in E2 as (m3 & m4 & -> & _ & _).
  exists m1, m3, m4. exact E.
Qed.

(** X2. With a failed test in the spectrum, two lines that the passed
    tests name equally often and the failed tests name equally often get
    the same score, and the one met first is ranked first: lines are met
    scanning the passed tests first, then the failed tests, each test's
    lines in the order given. *)
Theorem ranking_ties_in_discovery_order
    (self : t) (r : Random.rng) (source_file : string)
    (tests : list TestResult.t) (source_lines : option (gmap Z string))
    (k1 k2 : Z) :
  (exists test, In test tests /\ TestResult.status test = "failed") ->
  let passed_tests := List.filter (has_status "passed") tests in
  let failed_tests := List.filter (has_status "failed") tests in
  let ranking :=
    FaultLocalizationOutput.suspicious_lines
      (analyze self r source_file tests source_lines).1.1 in
  hits passed_tests k1 = hits passed_tests k2 ->
  hits failed_tests k1 = hits failed_tests k2 ->
  before k1 k2 (discovery_order tests) ->
  exists x1 x2,
    SuspiciousLine.line_number x1 = k1 /\
    SuspiciousLine.line_number x2 = k2 /\
    SuspiciousLine.passed_coverage x1 = SuspiciousLine.passed_coverage x2 /\
    SuspiciousLine.failed_coverage x1 = SuspiciousLine.failed_coverage x2 /\
    SuspiciousLine.suspiciousness_score x1 =
      SuspiciousLine.suspiciousness_score x2 /\
    before x1 x2 ranking.
Proof.
  intros Hf passed_tests failed_tests ranking Hp Hfl (l1 & l2 & l3 & Hd).
  apply failed_filter_nonempty in Hf.
  destruct (ranking_cases self r source_file tests source_lines)
    as [[E0 _]|[_ E]]; [contradiction|].
  fold ranking passed_tests failed_tests in E.
  set (record := fun k =>
         suspicious_line source_file (Py.len passed_tests)
           (Py.len failed_tests) source_lines
           (k, {| passed := Z.of_nat (hits passed_tests k);
                  failed := Z.of_nat (hits failed_tests k) |})) in E.
  exists (record k1), (record k2).
  unfold record at 1 2 3 4 5 6 7 8.
  cbn [suspicious_line SuspiciousLine.line_number
       SuspiciousLine.passed_coverage SuspiciousLine.failed_coverage
       SuspiciousLine.suspiciousness_score fst snd passed failed].
  rewrite Hp, Hfl. do 5 (split; [reflexivity|]).
  rewrite E. apply sort_desc_keeps_ties.
  - unfold record.
    cbn [suspicious_line SuspiciousLine.suspiciousness_score fst snd
         passed failed].
    rewrite Hp, Hfl. reflexivity.
  - exists (map record l1), (map record l2), (map record l3).
    rewrite Hd, map_app. cbn [map]. rewrite map_app. reflexivity.
Qed.

Lemma hits_le_length (tests : list TestResult.t) (k : Z) :
  Forall (fun test => List.NoDup (TestResult.covered_lines test)) tests ->
  (hits tests k <= length tests)%nat.
Proof.
  induction 1 as [|t rest Hnd _ IH]; simpl; [lia|].
  assert (count_occ Z.eq_dec (TestResult.covered_lines t) k <= 1)%nat.
  { apply NoDup_count_occ. exact Hnd. }
  lia.
Qed.

Lemma Forall_filter_keep {A} (P : A -> Prop) (f : A -> bool) (l : list A) :
  Forall P l -> Forall P (List.filter f l).
Proof.
  rewrite !Forall_forall. intros H x Hx.
  apply list_elem_of_In, filter_In in Hx as [Hx _].
  apply H, list_elem_of_In, Hx.
Qed.

(** X3. With a failed test in the spectrum, the two counts of a ranked
    record say how many times the passed tests, and the failed tests, list
    its line; they are not negative and not both zero. A line that a test
    lists twice is counted twice; when no test lists a line twice, the
    counts do not exceed [passed_tests] and [failed_tests]. *)
Theorem coverage_counts
    (self : t) (r : Random.rng) (source_file : string)
    (tests : list TestResult.t) (source_lines : option (gmap Z string))
    (x : SuspiciousLine.t) :
  (exists test, In test tests /\ TestResult.status test = "failed") ->
  let out := (analyze self r source_file tests source_lines).1.1 in
  In x (FaultLocalizationOutput.suspicious_lines out) ->
  SuspiciousLine.passed_coverage x =
    Z.of_nat (hits (List.filter (has_status "passed") tests)
                (SuspiciousLine.line_number x)) /\
  SuspiciousLine.failed_coverage x =
    Z.of_nat (hits (List.filter (has_status "failed") tests)
                (SuspiciousLine.line_number x)) /\
  0 < SuspiciousLine.passed_coverage x + SuspiciousLine.failed_coverage x /\
  (Forall (fun test => List.NoDup (TestResult.covered_lines test)) tests ->
   SuspiciousLine.passed_coverage x <=
     FaultLocalizationOutput.passed_tests out /\
   SuspiciousLine.failed_coverage x <=
     FaultLocalizationOutput.failed_tests out).
Proof.
  intros Hf out Hx. apply failed_filter_nonempty in Hf.
  apply (ranked_record _ _ _ _ _ _ Hf) in Hx as (k & Hpos & ->).
  cbn [suspicious_line SuspiciousLine.passed_coverage
       SuspiciousLine.failed_coverage SuspiciousLine.line_number
       fst snd passed failed].
  split; [reflexivity|]. split; [reflexivity|]. split; [lia|].
  intros Hnd. subst out. unfold analyze.
  destruct (Random.uuid4_8 r) as [ident r'].
  destruct (List.filter (has_status "failed") tests) as [|f fs] eqn:E;
    [congruence|].
  cbn [fst FaultLocalizationOutput.passed_tests
       FaultLocalizationOutput.failed_tests].
  rewrite <- E. unfold Py.len. split; apply inj_le, hits_le_length,
    Forall_filter_keep, Hnd.
Qed.

Lemma hits_filter_covered (tests : list TestResult.t) (s : string) (k : Z) :
  (0 < hits (List.filter (has_status s) tests) k)%nat -> covered_by tests s k.
Proof.
  induction tests as [|t rest IH]; simpl; [lia|].
  destruct (has_status s t) eqn:Hs.
  - simpl. intros Hpos.
    destruct (count_occ Z.eq_dec (TestResult.covered_lines t) k) eqn:Hc.
    + destruct (IH Hpos) as (test & Hin & Hst & Hk).
      exists test. split; [right; exact Hin | auto].
    + exists t. split; [left; reflexivity|].
      split; [apply has_status_true, Hs|].
      apply (count_occ_In Z.eq_dec). lia.
  - intros Hpos. destruct (IH Hpos) as (test & Hin & Hst & Hk).
    exists test. split; [right; exact Hin | auto].
Qed.

Lemma round_half : Py.round (1 # 2) 4 = (1 # 2)%Q.
Proof. vm_compute. reflexivity. Qed.

Lemma truediv_le (a b c d : Z) :
  0 < b -> 0 < d -> a * d <= c * b ->
  (Py.truediv a b <= Py.truediv c d)%Q.
Proof.
  intros Hb Hd H. unfold Py.truediv.
  assert (Hb' : (0 < inject_Z b)%Q)
    by (change 0%Q with (inject_Z 0); rewrite <- Zlt_Qlt; exact Hb).
  assert (Hd' : (0 < inject_Z d)%Q)
    by (change 0%Q with (inject_Z 0); rewrite <- Zlt_Qlt; exact Hd).
  assert (H' : (inject_Z a * inject_Z d <= inject_Z c * inject_Z b)%Q)
    by (rewrite <- !inject_Z_mult, <- Zle_Qle; exact H).
  apply Qle_shift_div_r; [exact Hb'|].
  assert (E : (inject_Z c / inject_Z d * inject_Z b ==
               (inject_Z c * inject_Z b) / inject_Z d)%Q) by (field; lra).
  rewrite E. apply Qle_shift_div_l; [exact Hd' | exact H'].
Qed.

Lemma tarantula_half (n_passed n_failed total_passed total_failed : Z) :
  0 <= n_passed -> 0 <= n_failed -> 0 < n_passed + n_failed ->
  0 < total_passed -> 0 < total_failed ->
  (n_passed * total_failed <= n_failed * total_passed ->
   (1 # 2 <= tarantula n_passed n_failed total_passed total_failed)%Q) /\
  (n_failed * total_passed <= n_passed * total_failed ->
   (tarantula n_passed n_failed total_passed total_failed <= 1 # 2)%Q).
Proof.
  intros Hp Hf Hpos Htp Htf. unfold tarantula.
  apply Z.ltb_lt in Htp as Htp', Htf as Htf'. rewrite Htp', Htf'.
  pose proof (truediv_nonneg n_failed total_failed Hf Htf) as Hpf.
  pose proof (truediv_nonneg n_passed total_passed Hp Htp) as Hpp.
  assert (Hden : (0 < Py.truediv n_failed total_failed
                      + Py.truediv n_passed total_passed)%Q).
  { destruct (Z.eq_dec n_failed 0) as [E|E].
    - pose proof (truediv_pos n_passed total_passed ltac:(lia) Htp). lra.
    - pose proof (truediv_pos n_failed total_failed ltac:(lia) Htf). lra. }
  apply lt_true in Hden as E. rewrite E. split; intros H.
  - pose proof (truediv_le n_passed total_passed n_failed total_failed Htp Htf H).
    apply Qle_shift_div_l; [exact Hden | lra].
  - pose proof (truediv_le n_failed total_failed n_passed total_passed Htf Htp H).
    apply Qle_shift_div_r; [exact Hden | lra].
Qed.

(** X4. With a failed and a passed test in the spectrum, a ranked line
    scores at least 0.5 when the share of failed tests' hits on it is at
    least the share of passed tests' hits (failed_coverage / failed_tests
    >= passed_coverage / passed_tests), and at most 0.5 when it is at most
    that share. *)
Theorem score_against_one_half
    (self : t) (r : Random.rng) (source_file : string)
    (tests : list TestResult.t) (source_lines : option (gmap Z string))
    (x : SuspiciousLine.t) :
  (exists test, In test tests /\ TestResult.status test = "failed") ->
  (exists test, In test tests /\ TestResult.status test = "passed") ->
  let out := (analyze self r source_file tests source_lines).1.1 in
  In x (FaultLocalizationOutput.suspicious_lines out) ->
  (SuspiciousLine.passed_coverage x * FaultLocalizationOutput.failed_tests out
     <= SuspiciousLine.failed_coverage x
        * FaultLocalizationOutput.passed_tests out ->
   (1 # 2 <= SuspiciousLine.suspiciousness_score x)%Q) /\
  (SuspiciousLine.failed_coverage x * FaultLocalizationOutput.passed_tests out
     <= SuspiciousLine.passed_coverage x
        * FaultLocalizationOutput.failed_tests out ->
   (SuspiciousLine.suspiciousness_score x <= 1 # 2)%Q).
Proof.
  intros Hf (pt & Hpt & Hps) out Hx. apply failed_filter_nonempty in Hf.
  apply (ranked_record _ _ _ _ _ _ Hf) in Hx as (k & Hpos & ->).
  assert (Hout :
    FaultLocalizationOutput.failed_tests out =
      Py.len (List.filter (has_status "failed") tests) /\
    FaultLocalizationOutput.passed_tests out =
      Py.len (List.filter (has_status "passed") tests)).
  { subst out. unfold analyze. destruct (Random.uuid4_8 r) as [ident r'].
    destruct (List.filter (has_status "failed") tests) eqn:E; [congruence|].
    split; reflexivity. }
  destruct Hout as [-> ->].
  cbn [suspicious_line SuspiciousLine.passed_coverage
       SuspiciousLine.failed_coverage SuspiciousLine.suspiciousness_score
       fst snd passed failed].
  assert (Htf : 0 < Py.len (List.filter (has_status "failed") tests)).
  { unfold Py.len. destruct (List.filter (has_status "failed") tests);
      [congruence | simpl; lia]. }
  assert (Htp : 0 < Py.len (List.filter (has_status "passed") tests)).
  { assert (Hin : In pt (List.filter (has_status "passed") tests)).
    { apply filter_In. split; [exact Hpt | apply has_status_true, Hps]. }
    unfold Py.len. destruct (List.filter (has_status "passed") tests);
      [inversion Hin | simpl; lia]. }
  destruct (tarantula_half
              (Z.of_nat (hits (List.filter (has_status "passed") tests) k))
              (Z.of_nat (hits (List.filter (has_status "failed") tests) k))
              (Py.len (List.filter (has_status "passed") tests))
              (Py.len (List.filter (has_status "failed") tests)))
    as [Hge Hle]; try lia.
  split; intros H; rewrite <- round_half.
  - apply round_mono, Hge, H.
  - apply round_mono, Hle, H.
Qed.

(** X5. [get_top_suspicious] on the result of [analyze] splits the ranking
    into the returned lines and the rest: no line of the rest scores higher
    than a returned line. For [top_n >= 0] it returns min(top_n, length)
    lines; a negative [top_n] drops that many lines from the end. *)
Theorem top_suspicious_are_the_highest
    (self : t) (r : Random.rng) (source_file : string)
    (tests : list TestResult.t) (source_lines : option (gmap Z string))
    (top_n : Z) :
  let analysis := (analyze self r source_file tests source_lines).1.1 in
  let ranking := FaultLocalizationOutput.suspicious_lines analysis in
  let top := get_top_suspicious analysis top_n in
  exists rest,
    ranking = top ++ rest /\
    (forall x y, In x top -> In y rest ->
       (SuspiciousLine.suspiciousness_score y <=
        SuspiciousLine.suspiciousness_score x)%Q) /\
    Py.len top =
      (if 0 <=? top_n then Z.min top_n (Py.len ranking)
       else Z.max 0 (Py.len ranking + top_n)).
Proof.
  intros analysis ranking top.
  pose proof (ranking_descending_order self r source_file tests source_lines)
    as Hdesc.
  fold analysis in Hdesc. fold ranking in Hdesc.
  subst top. unfold get_top_suspicious, Py.slice_to. fold ranking.
  set (n := if 0 <=? top_n then Z.to_nat top_n
            else Z.to_nat (Z.of_nat (length ranking) + top_n)).
  exists (drop n ranking).
  assert (E : (if 0 <=? top_n then take (Z.to_nat top_n) ranking
               else take (Z.to_nat (Z.of_nat (length ranking) + top_n)) ranking)
              = take n ranking).
  { unfold n. destruct (0 <=? top_n); reflexivity. }
  rewrite E. split; [symmetry; apply take_drop|]. split.
  - intros x y Hx Hy. rewrite <- (take_drop n ranking) in Hdesc.
    apply (StronglySorted_app_1_elem_of _ _ _ x y Hdesc);
      apply list_elem_of_In; assumption.
  - unfold Py.len. rewrite length_take. unfold n.
    destruct (0 <=? top_n) eqn:E0; [apply Z.leb_le in E0 | apply Z.leb_gt in E0];
      lia.
Qed.

Lemma number_lines_lookup (lines : list string) :
  forall (i k : Z) (m : gmap Z string),
  number_lines i lines m !! k =
  if (i <=? k) && (k <? i + Py.len lines)
  then lines !! Z.to_nat (k - i) else m !! k.
Proof.
  induction lines as [|line rest IH]; intros i k m; cbn [number_lines].
  - assert (E : (i <=? k) && (k <? i + Py.len (@nil string)) = false).
    { apply andb_false_iff. unfold Py.len; simpl.
      destruct (Z.leb_spec i k); [right; apply Z.ltb_ge; lia | left; reflexivity]. }
    rewrite E. reflexivity.
  - rewrite IH. unfold Py.len. cbn [length].
    destruct (Z.leb_spec (i + 1) k);
      destruct (Z.ltb_spec k (i + 1 + Z.of_nat (length rest)));
      destruct (Z.leb_spec i k);
      destruct (Z.ltb_spec k (i + Z.of_nat (S (length rest))));
      cbn [andb]; try lia.
    + replace (Z.to_nat (k - i)) with (S (Z.to_nat (k - (i + 1)))) by lia.
      reflexivity.
    + rewrite lookup_insert_ne by lia. reflexivity.
    + assert (k = i) by lia. subst k.
      rewrite lookup_insert_eq, Z.sub_diag. reflexivity.
    + rewrite lookup_insert_ne by lia. reflexivity.
Qed.

Lemma covered_lines_of_spec (e : Execution.t) (k : Z) :
  In k (covered_lines_of e) <->
  exists cov, In cov (Execution.coverage_data e) /\
              GCovData.line_number cov = k /\
              0 < GCovData.execution_count cov.
Proof.
  unfold covered_lines_of. rewrite in_map_iff. split.
  - intros (cov & <- & Hin). apply filter_In in Hin as [Hin Hc].
    apply Z.ltb_lt in Hc. exists cov. auto.
  - intros (cov & Hin & <- & Hc). exists cov. split; [reflexivity|].
    apply filter_In. split; [exact Hin | apply Z.ltb_lt, Hc].
Qed.

Lemma covered_by_executions (executions : list (string * Execution.t))
    (s : string) (k : Z) :
  covered_by (map to_test_result executions) s k <->
  exists item cov,
    In item executions /\ Execution.execution_status item.2 = s /\
    In cov (Execution.coverage_data item.2) /\
    GCovData.line_number cov = k /\ 0 < GCovData.execution_count cov.
Proof.
  unfold covered_by. split.
  - intros (test & Hin & Hs & Hk).
    apply in_map_iff in Hin as (item & <- & Hin).
    apply covered_lines_of_spec in Hk as (cov & Hc).
    exists item, cov. auto.
  - intros (item & cov & Hin & Hs & Hc).
    exists (to_test_result item). split; [apply in_map, Hin|].
    split; [exact Hs|]. apply covered_lines_of_spec. exists cov. exact Hc.
Qed.

(** X6. In the result of [analyze_from_executions], a ranked line was
    executed: some execution with status passed or failed has a coverage
    entry for that line with a positive count (entries with count 0 or the
    not-executable mark -1 never rank a line). Its [line_content] is the
    line of that number in the source text split at line feeds, counting
    from 1, and the placeholder when the source has no such line. *)
Theorem analyze_from_executions_ranking
    (r : Random.rng) (source_file source_code : string)
    (executions : list (string * Execution.t)) (x : SuspiciousLine.t) :
  let out := (analyze_from_executions r source_file source_code executions).1 in
  In x (FaultLocalizationOutput.suspicious_lines out) ->
  (exists item cov,
     In item executions /\
     (Execution.execution_status item.2 = "passed" \/
      Execution.execution_status item.2 = "failed") /\
     In cov (Execution.coverage_data item.2) /\
     GCovData.line_number cov = SuspiciousLine.line_number x /\
     0 < GCovData.execution_count cov) /\
  SuspiciousLine.line_content x =
    (let k := SuspiciousLine.line_number x in
     let lines := split_lines source_code in
     if (1 <=? k) && (k <=? Py.len lines)
     then nth (Z.to_nat (k - 1)) lines EmptyString
     else placeholder k).
Proof.
  intros out Hx. subst out. unfold analyze_from_executions in Hx.
  set (src := number_lines 1 (split_lines source_code) ∅) in *.
  set (tests := map to_test_result executions) in *.
  destruct (analyze __init__ r source_file tests (Some src))
    as [[out self'] r'] eqn:Ea.
  assert (Eout : out = (analyze __init__ r source_file tests (Some src)).1.1)
    by (rewrite Ea; reflexivity).
  cbn [fst] in Hx. rewrite Eout in Hx.
  assert (Hne : List.filter (has_status "failed") tests <> []).
  { destruct (ranking_cases __init__ r source_file tests (Some src))
      as [[_ E]|[Hne _]]; [rewrite E in Hx; inversion Hx | exact Hne]. }
  apply (ranked_record _ _ _ _ _ _ Hne) in Hx as (k & Hpos & ->).
  cbn [suspicious_line SuspiciousLine.line_number SuspiciousLine.line_content
       fst]. split.
  - assert (Hc : covered_by tests "passed" k \/ covered_by tests "failed" k).
    { destruct (hits (List.filter (has_status "passed") tests) k) eqn:E.
      - right. apply hits_filter_covered. lia.
      - left. apply hits_filter_covered. lia. }
    destruct Hc as [Hc|Hc];
      apply covered_by_executions in Hc as (item & cov & Hin & Hs & Hc);
      exists item, cov; auto.
  - unfold src. rewrite number_lines_lookup, lookup_empty.
    replace (k <? 1 + Py.len (split_lines source_code))
      with (k <=? Py.len (split_lines source_code))
      by (destruct (k <=? _) eqn:E1; destruct (k <? _) eqn:E2;
          try reflexivity;
          try apply Z.leb_le in E1; try apply Z.leb_gt in E1;
          try apply Z.ltb_lt in E2; try apply Z.ltb_ge in E2; lia).
    destruct ((1 <=? k) && (k <=? Py.len (split_lines source_code))) eqn:E;
      [|reflexivity].
    apply andb_true_iff in E as [E1 E2].
    apply Z.leb_le in E1, E2. unfold Py.len in E2.
    destruct (lookup_lt_is_Some_2 (split_lines source_code) (Z.to_nat (k - 1)))
      as [line Hl]; [lia|].
    rewrite Hl. symmetry. apply nth_lookup_Some with (d := EmptyString) in Hl.
    exact Hl.
Qed.

Lemma truediv_le_one (a b : Z) : 0 <= a <= b -> 0 < b -> (Py.truediv a b <= 1)%Q.
Proof.
  intros Ha Hb. unfold Py.truediv. apply Qle_shift_div_r.
  - change 0%Q with (inject_Z 0). rewrite <- Zlt_Qlt. exact Hb.
  - rewrite Qmult_1_l, <- Zle_Qle. lia.
Qed.

(** X7. [calculate_jaccard_score] returns 0 when its denominator
    [total_failed + n_passed] is 0 and does not divide. For counts that fit
    (0 <= n_failed <= total_failed, 0 <= n_passed) the score lies in [0,1],
    and it is 1 for a line that every failed test and no passed test
    covers. *)
Theorem jaccard_score_range (n_failed n_passed total_failed : Z) :
  (total_failed + n_passed = 0 ->
   calculate_jaccard_score n_failed n_passed total_failed = 0%Q) /\
  (0 <= n_failed <= total_failed -> 0 <= n_passed ->
   (0 <= calculate_jaccard_score n_failed n_passed total_failed)%Q /\
   (calculate_jaccard_score n_failed n_passed total_failed <= 1)%Q) /\
  (0 < total_failed -> n_failed = total_failed -> n_passed = 0 ->
   (calculate_jaccard_score n_failed n_passed total_failed == 1)%Q).
Proof.
  unfold calculate_jaccard_score. split; [|split].
  - intros ->. reflexivity.
  - intros Hf Hp.
    destruct (total_failed + n_passed =? 0) eqn:E; [split; lra|].
    apply Z.eqb_neq in E.
    split; [apply truediv_nonneg; lia | apply truediv_le_one; lia].
  - intros Ht -> ->. rewrite Z.add_0_r.
    destruct (total_failed =? 0) eqn:E; [apply Z.eqb_eq in E; lia|].
    unfold Py.truediv. field.
    intros H. unfold Qeq, inject_Z in H. simpl in H. lia.
Qed.

(** *** The order of the tests *)

Lemma filter_perm {A} (p : A -> bool) (l l' : list A) :
  Permutation l l' -> Permutation (List.filter p l) (List.filter p l').
Proof.
  induction 1 as [|x l l' _ IH|x y l|l l' l'' _ IH1 _ IH2]; cbn [List.filter].
  - constructor.
  - destruct (p x); [constructor|]; exact IH.
  - destruct (p x), (p y); try reflexivity. apply perm_swap.
  - etransitivity; eassumption.
Qed.

Lemma hits_perm (tests tests' : list TestResult.t) (k : Z) :
  Permutation tests tests' -> hits tests k = hits tests' k.
Proof.
  induction 1 as [|x l l' _ IH|x y l|l l' l'' _ IH1 _ IH2]; cbn [hits];
    lia.
Qed.

Lemma ranking_lines_nodup
    (self : t) (r : Random.rng) (source_file : string)
    (tests : list TestResult.t) (source_lines : option (gmap Z string)) :
  List.NoDup
    (FaultLocalizationOutput.suspicious_lines
       (analyze self r source_file tests source_lines).1.1).
Proof.
  destruct (ranking_cases self r source_file tests source_lines)
    as [[_ E]|[Hne E]]; cbn zeta in E; rewrite E; [constructor|].
  apply (NoDup_map_inv SuspiciousLine.line_number).
  apply NoDup_ListNoDup. rewrite sort_desc_perm, map_map. cbn.
  rewrite map_id, <- (matrix_keys self).
  apply NoDup_ListNoDup, matrix_nodup.
Qed.

(** X24. The analysis does not depend on the order of the tests, nor on
    the localizer instance or the random source: for a reordered
    spectrum the ranking holds the same records, with the same counts and
    scores, and the totals are the same. Only the order of lines of equal
    score can differ. *)
Theorem ranking_independent_of_test_order
    (self self' : t) (r r' : Random.rng) (source_file : string)
    (tests tests' : list TestResult.t)
    (source_lines : option (gmap Z string)) :
  Permutation tests tests' ->
  let out := (analyze self r source_file tests source_lines).1.1 in
  let out' := (analyze self' r' source_file tests' source_lines).1.1 in
  Permutation (FaultLocalizationOutput.suspicious_lines out)
              (FaultLocalizationOutput.suspicious_lines out') /\
  FaultLocalizationOutput.total_tests out =
    FaultLocalizationOutput.total_tests out' /\
  FaultLocalizationOutput.passed_tests out =
    FaultLocalizationOutput.passed_tests out' /\
  FaultLocalizationOutput.failed_tests out =
    FaultLocalizationOutput.failed_tests out'.
Proof.
  intros Hperm out out'.
  pose proof (filter_perm (has_status "passed") _ _ Hperm) as Hp.
  pose proof (filter_perm (has_status "failed") _ _ Hperm) as Hf.
  pose proof (Permutation_length Hperm) as Hl.
  pose proof (Permutation_length Hp) as Hlp.
  pose proof (Permutation_length Hf) as Hlf.
  split.
  - apply Permutation.NoDup_Permutation; try apply ranking_lines_nodup.
    intros x.
    destruct (ranking_cases self r source_file tests source_lines)
      as [[Hnone E]|[Hne _]];
      destruct (ranking_cases self' r' source_file tests' source_lines)
        as [[Hnone' E']|[Hne' _]]; cbn zeta in *.
    + fold out in E. fold out' in E'. rewrite E, E'. tauto.
    + exfalso. rewrite Hnone in Hlf.
      destruct (List.filter (has_status "failed") tests');
        [congruence | discriminate Hlf].
    + exfalso. rewrite Hnone' in Hlf.
      destruct (List.filter (has_status "failed") tests);
        [congruence | discriminate Hlf].
    + unfold out, out'.
      rewrite (ranked_record _ _ _ _ _ _ Hne),
        (ranked_record _ _ _ _ _ _ Hne').
      unfold Py.len. rewrite Hlp, Hlf.
      split; intros (k & Hk & ->); exists k;
        rewrite ?(hits_perm _ _ k Hp), ?(hits_perm _ _ k Hf) in *;
        (split; [exact Hk | reflexivity]).
  - unfold out, out', analyze.
    destruct (Random.uuid4_8 r) as [i1 r1].
    destruct (Random.uuid4_8 r') as [i2 r2].
    destruct (List.filter (has_status "failed") tests) as [|a l] eqn:E1;
      destruct (List.filter (has_status "failed") tests') as [|a' l'] eqn:E2;
      try discriminate Hlf;
      cbn [fst FaultLocalizationOutput.total_tests
           FaultLocalizationOutput.passed_tests
           FaultLocalizationOutput.failed_tests];
      unfold Py.len; rewrite ?Hl, ?Hlp, ?Hlf; tauto.
Qed.

End Ranking.
(** ** The fitness evaluator: coverage, novelty, penalty, statistics *)

Section FitnessMore.

Import FitnessEvaluator FitnessScore.

Lemma clamp_mono (x y : Q) : (x <= y)%Q -> (clamp x <= clamp y)%Q.
Proof.
  intros Hxy. unfold clamp, Py.max2, Py.min2.
  destruct (Qcompare x 1) eqn:C1; destruct (Qcompare y 1) eqn:C2;
    compare_facts; try (exfalso; lra);
    repeat match goal with
           | |- context [Qcompare ?a ?b] =>
               let C := fresh "C" in destruct (Qcompare a b) eqn:C
           end;
    compare_facts; lra.
Qed.

Lemma truthy_size (s : gset string) : truthy s = (0 <? set_len s).
Proof.
  unfold truthy, set_len. destruct (decide (s = ∅)) as [->|Hne].
  - rewrite bool_decide_eq_true_2 by reflexivity. rewrite size_empty. reflexivity.
  - rewrite bool_decide_eq_false_2 by exact Hne.
    assert (size s <> 0%nat) by (intros E; apply size_empty_inv in E; apply Hne;
                                 apply leibniz_equiv, E).
    symmetry. apply Z.ltb_lt. lia.
Qed.

Lemma total_of_pos (self : t) : 1 <= total_of self.
Proof.
  unfold total_of. rewrite truthy_size.
  destruct (0 <? set_len (all_branches self)) eqn:E; [apply Z.ltb_lt in E|]; lia.
Qed.

(** The score is the rounded clamp of base + bonus - penalty. *)
Lemma fitness_formula (self : t) (test_case : string) (r : TestExecutionOutput) :
  fitness_score (calculate_fitness self test_case r).1 =
  Py.round
    (clamp
       (raw (set_len (list_to_set (branches_taken r)))
            (set_len (list_to_set (branches_taken r)
                      ∖ global_covered_branches self))
            (total_of self)
            (String.eqb (execution_status r) "failed"))) 4.
Proof.
  unfold calculate_fitness; cbn [fst fitness_score].
  fold (total_of self). unfold clamp. apply round_compat.
  assert (E : forall a b : Q, (a == b)%Q ->
            (Py.max2 0 (Py.min2 1 a) == Py.max2 0 (Py.min2 1 b))%Q).
  { intros a b Hab. apply Qle_antisym; apply clamp_mono; lra. }
  apply E. unfold raw. rewrite truthy_size.
  destruct (0 <? _); destruct (String.eqb _ _); ring.
Qed.

Lemma raw_mono_fresh (covered fresh fresh' total : Z) (is_failed : bool) :
  0 < total -> fresh' <= fresh ->
  (raw covered fresh' total is_failed <= raw covered fresh total is_failed)%Q.
Proof.
  intros Ht Hf. unfold raw.
  assert (Hb : forall n, 0 < n -> (0 <= Py.truediv n total)%Q)
    by (intros n Hn; apply truediv_nonneg; lia).
  destruct (0 <? fresh') eqn:E1; destruct (0 <? fresh) eqn:E2;
    try apply Z.ltb_lt in E1; try apply Z.ltb_ge in E1;
    try apply Z.ltb_lt in E2; try apply Z.ltb_ge in E2; try lia.
  - assert ((Py.truediv fresh' total <= Py.truediv fresh total)%Q)
      by (apply truediv_le; nia).
    lra.
  - pose proof (Hb fresh E2). lra.
  - lra.
Qed.

(** X8. [calculate_fitness] reports a universe of at least one branch and a
    coverage percentage that is not negative. The percentage is at most
    100 when every branch taken belongs to the universe; branches outside
    the universe are counted too. *)
Theorem coverage_percentage_range
    (self : t) (test_case : string) (r : TestExecutionOutput) :
  let result := (calculate_fitness self test_case r).1 in
  1 <= total_branches result /\
  (0 <= coverage_percentage result)%Q /\
  (list_to_set (branches_taken r) ⊆ all_branches self ->
   (coverage_percentage result <= 100)%Q).
Proof.
  intros result. subst result.
  unfold calculate_fitness; cbn [fst total_branches coverage_percentage].
  fold (total_of self). pose proof (total_of_pos self) as Ht.
  set (c := set_len (list_to_set (branches_taken r))).
  assert (Hc : 0 <= c) by (unfold c, set_len; lia).
  pose proof (truediv_nonneg c (total_of self) Hc ltac:(lia)) as Hd.
  split; [exact Ht|]. split.
  - apply (round_ge_integer _ 2 0). change (inject_Z 0) with 0%Q. lra.
  - intros Hsub.
    assert (Hle : c <= total_of self).
    { unfold c, total_of, set_len. apply subseteq_size in Hsub.
      rewrite truthy_size. unfold set_len.
      destruct (0 <? Z.of_nat (size (all_branches self))) eqn:E;
        [lia | apply Z.ltb_ge in E; lia]. }
    pose proof (truediv_le_one c (total_of self) ltac:(lia) ltac:(lia)).
    apply (round_le_integer _ 2 100). change (inject_Z 100) with 100%Q. lra.
Qed.


Lemma calculate_fitness_universe (self : t) test_case r :
  all_branches (calculate_fitness self test_case r).2 = all_branches self.
Proof. reflexivity. Qed.

Lemma evaluate_each_universe trs : forall self : t,
  all_branches (evaluate_each self trs).2 = all_branches self.
Proof.
  induction trs as [|[test_case r] rest IH]; intros self; [reflexivity|].
  rewrite evaluate_each_cons.
  pose proof (calculate_fitness_universe self test_case r) as Hstep.
  destruct (calculate_fitness self test_case r) as [res self1].
  specialize (IH self1).
  destruct (evaluate_each self1 rest) as [others self2].
  cbn [fst snd] in *. congruence.
Qed.



Lemma set_len_mono (s s' : gset string) : s ⊆ s' -> set_len s <= set_len s'.
Proof. intros H. apply subseteq_size in H. unfold set_len. lia. Qed.





(** X10. Of two outcomes with the same branches evaluated in the same
    state, a failed one never scores above the other, whatever the
    other's status; both leave the evaluator in the same state. *)
Theorem failed_outcome_scores_lower
    (self : t) (tc tc' : string) (r r' : TestExecutionOutput) :
  branches_taken r = branches_taken r' ->
  execution_status r = "failed"%string ->
  (fitness_score (calculate_fitness self tc r).1
   <= fitness_score (calculate_fitness self tc' r').1)%Q /\
  (calculate_fitness self tc r).2 = (calculate_fitness self tc' r').2.
Proof.
  intros Hb Hs. split.
  - rewrite !fitness_formula, Hb, Hs.
    apply round_mono, clamp_mono. unfold raw.
    rewrite String.eqb_refl.
    destruct (String.eqb (execution_status r') "failed"); lra.
  - unfold calculate_fitness; cbn [snd]. rewrite Hb. reflexivity.
Qed.

(** *** The statistics of [evaluate_population] *)

Lemma max2_cases (a b : Q) :
  (Py.max2 a b = a /\ (b <= a)%Q) \/ (Py.max2 a b = b /\ (a <= b)%Q).
Proof.
  unfold Py.max2. destruct (Qcompare b a) eqn:C; compare_facts;
    [left | left | right]; split; try reflexivity; lra.
Qed.

Lemma max_list_upper (l : list Q) : forall x : Q,
  (x <= Py.max_list x l)%Q /\ Forall (fun y => (y <= Py.max_list x l)%Q) l.
Proof.
  unfold Py.max_list.
  induction l as [|y l IH]; intros x; cbn [fold_left].
  - split; [lra | constructor].
  - destruct (IH (Py.max2 x y)) as [H1 H2].
    destruct (max2_cases x y) as [[E Hle]|[E Hle]]; rewrite E in *.
    + split; [exact H1|]. constructor; [lra | exact H2].
    + split; [lra|]. constructor; [exact H1 | exact H2].
Qed.

Lemma max_list_member (l : list Q) : forall x : Q,
  In (Py.max_list x l) (x :: l).
Proof.
  unfold Py.max_list.
  induction l as [|y l IH]; intros x; cbn [fold_left].
  - left; reflexivity.
  - destruct (IH (Py.max2 x y)) as [E|Hin].
    + rewrite <- E.
      destruct (max2_cases x y) as [[E' _]|[E' _]]; rewrite E'.
      * left; reflexivity.
      * right; left; reflexivity.
    + right; right; exact Hin.
Qed.

Lemma sum_bounds (m : Q) (l : list Q) : forall acc : Q,
  Forall (fun y => (0 <= y)%Q /\ (y <= m)%Q) l ->
  (acc <= fold_left Qplus l acc)%Q /\
  (fold_left Qplus l acc <= acc + inject_Z (Py.len l) * m)%Q.
Proof.
  induction l as [|y l IH]; intros acc Hall; cbn [fold_left].
  - unfold Py.len; cbn [length].
    change (inject_Z (Z.of_nat 0)) with 0%Q.
    split; lra.
  - apply Forall_cons in Hall as [[Hy0 Hym] Hall].
    destruct (IH (acc + y)%Q Hall) as [H1 H2]. split; [lra|].
    replace (Py.len (y :: l)) with (Py.len l + 1)
      by (unfold Py.len; cbn [length]; lia).
    rewrite inject_Z_plus. change (inject_Z 1) with 1%Q. lra.
Qed.

(** Every result of the loop is the result of one call, on the universe of
    the start. *)
Lemma evaluate_each_results trs : forall self : t,
  Forall2 (fun result item =>
             exists self' : t,
               all_branches self' = all_branches self /\
               result = (calculate_fitness self' item.1 item.2).1)
          (evaluate_each self trs).1 trs.
Proof.
  induction trs as [|[test_case r] rest IH]; intros self.
  - constructor.
  - rewrite evaluate_each_cons.
    pose proof (calculate_fitness_universe self test_case r) as Hu.
    destruct (calculate_fitness self test_case r) as [res self1] eqn:E.
    specialize (IH self1).
    destruct (evaluate_each self1 rest) as [others self2].
    cbn [fst snd] in *. constructor.
    + exists self. split; [reflexivity|]. cbn [fst snd]. rewrite E.
      reflexivity.
    + eapply Forall2_impl; [exact IH|].
      intros result item (self' & Hu' & ->). exists self'.
      split; [congruence | reflexivity].
Qed.

Lemma evaluate_population_results (self : t) n trs :
  results (evaluate_population self n trs).1 = (evaluate_each self trs).1.
Proof.
  unfold evaluate_population.
  destruct (evaluate_each self trs) as [res self']. reflexivity.
Qed.

Lemma evaluate_each_scores (self : t) trs :
  Forall (fun result =>
            (0 <= fitness_score result)%Q /\ (fitness_score result <= 1)%Q /\
            Py.round (fitness_score result) 4 = fitness_score result)
         (evaluate_each self trs).1.
Proof.
  pose proof (evaluate_each_results trs self) as H.
  induction H as [|result item res rest (self' & _ & ->) _ IH];
    constructor; [|exact IH].
  unfold calculate_fitness; cbn [fst fitness_score].
  match goal with
  | |- context [Py.round ?v 4] =>
      destruct (round_unit_interval v 4) as [H0 H1];
        [apply clamp_unit_interval | apply clamp_unit_interval |]
  end.
  split; [exact H0|]. split; [exact H1|].
  apply round_idempotent.
Qed.

(** X11. [evaluate_population] returns one result per candidate, in the
    order of the candidates and under their ids; the statistics satisfy
    0 <= average <= best <= 1; no result scores above the best; and the
    best is the score of one of the results, or 0 (with the average) when
    there is no candidate. *)
Theorem evaluate_population_statistics
    (self : t) (cfg_name : string)
    (test_results : list (string * TestExecutionOutput)) :
  let out := (evaluate_population self cfg_name test_results).1 in
  evaluated_count out = Py.len test_results /\
  map test_case_id (results out) = map fst test_results /\
  (0 <= avg_fitness out)%Q /\
  (avg_fitness out <= best_fitness out)%Q /\
  (best_fitness out <= 1)%Q /\
  Forall (fun result => (fitness_score result <= best_fitness out)%Q)
         (results out) /\
  ((test_results = [] /\ best_fitness out = 0%Q /\ avg_fitness out = 0%Q) \/
   Exists (fun result => fitness_score result = best_fitness out)
          (results out)).
Proof.
  intros out. subst out.
  pose proof (evaluate_each_results test_results self) as Hres.
  pose proof (evaluate_each_scores self test_results) as Hsc.
  unfold evaluate_population.
  destruct (evaluate_each self test_results) as [res self'].
  cbn [fst snd evaluated_count results best_fitness avg_fitness] in *.
  assert (Hlen : Py.len res = Py.len test_results).
  { unfold Py.len. f_equal. eapply Forall2_length, Hres. }
  assert (Hids : map test_case_id res = map fst test_results).
  { clear Hsc Hlen. induction Hres as [|result item ? ? (s & _ & ->) _ IH];
      [reflexivity|]. cbn [map]. rewrite IH. reflexivity. }
  split; [exact Hlen|]. split; [exact Hids|].
  destruct res as [|first others].
  - cbn [map].
    assert (E : Py.round 0 4 = 0%Q) by reflexivity. rewrite E.
    split; [lra|]. split; [lra|]. split; [lra|]. split; [constructor|].
    left. split; [|split; reflexivity].
    destruct test_results; [reflexivity | inversion Hres].
  - cbn [map].
    set (s := fitness_score first).
    set (l := map fitness_score others).
    set (best := Py.max_list s l).
    assert (Hall : Forall (fun y => (0 <= y)%Q /\ (y <= 1)%Q /\
                                    Py.round y 4 = y) (s :: l)).
    { change (s :: l) with (map fitness_score (first :: others)).
      apply List.Forall_map, Hsc. }
    pose proof (max_list_member l s) as Hmem. fold best in Hmem.
    pose proof (max_list_upper l s) as [Hs Hl]. fold best in Hs, Hl.
    assert (Hbest : (0 <= best)%Q /\ (best <= 1)%Q /\ Py.round best 4 = best).
    { rewrite List.Forall_forall in Hall. apply Hall, Hmem. }
    destruct Hbest as (Hb0 & Hb1 & Hbr). rewrite Hbr.
    assert (Hup : Forall (fun y => (0 <= y)%Q /\ (y <= best)%Q) (s :: l)).
    { apply List.Forall_cons_iff in Hall as [Hs' Hl']. constructor; [split; tauto|].
      rewrite List.Forall_forall in Hl, Hl' |- *. intros y Hy.
      split; [apply Hl', Hy | apply Hl, Hy]. }
    set (n := Py.len (s :: l)).
    assert (Hn : (0 < inject_Z n)%Q).
    { unfold n, Py.len. cbn [length]. change 0%Q with (inject_Z 0).
      rewrite <- Zlt_Qlt. lia. }
    destruct (sum_bounds best (s :: l) 0%Q Hup) as [S0 S1].
    fold (Py.sum (s :: l)) in S0, S1. fold n in S1.
    set (total := Py.sum (s :: l)) in *.
    assert (Havg : (0 <= total / inject_Z n)%Q /\
                   (total / inject_Z n <= best)%Q).
    { split.
      - apply Qle_shift_div_l; [exact Hn | lra].
      - apply Qle_shift_div_r; [exact Hn | lra]. }
    destruct Havg as [A0 A1].
    split; [apply (round_ge_integer _ 4 0); exact A0|].
    split; [rewrite <- Hbr; apply round_mono, A1|].
    split; [exact Hb1|]. split.
    + apply List.Forall_cons_iff in Hup as [[_ Hf] Ho].
      constructor; [exact Hf|].
      rewrite List.Forall_forall in Ho |- *. intros x Hx.
      apply Ho. unfold l. apply in_map, Hx.
    + right. apply List.Exists_exists.
      destruct Hmem as [E|Hin].
      * exists first. split; [left; reflexivity | exact E].
      * unfold l in Hin. apply in_map_iff in Hin as (x & E & Hx).
        exists x. split; [right; exact Hx | exact E].
Qed.

Lemma evaluate_each_union trs : forall self : t,
  global_covered_branches (evaluate_each self trs).2 =
  global_covered_branches self ∪ branches_of trs.
Proof.
  induction trs as [|[test_case r] rest IH]; intros self.
  - cbn [evaluate_each snd branches_of].
    apply set_eq; intros x. rewrite elem_of_union, elem_of_empty. tauto.
  - rewrite evaluate_each_cons.
    pose proof (calculate_fitness_global self test_case r) as Hstep.
    destruct (calculate_fitness self test_case r) as [res self1].
    specialize (IH self1).
    destruct (evaluate_each self1 rest) as [others self2].
    cbn [fst snd branches_of] in *. rewrite IH, Hstep.
    apply set_eq; intros x. rewrite !elem_of_union. tauto.
Qed.

Lemma branches_of_elem (trs : list (string * TestExecutionOutput)) (b : string) :
  b ∈ branches_of trs <->
  exists item, In item trs /\ In b (branches_taken item.2).
Proof.
  induction trs as [|[tc r] rest IH]; cbn [branches_of].
  - rewrite elem_of_empty. split; [tauto | intros (? & [] & _)].
  - rewrite elem_of_union, elem_of_list_to_set, list_elem_of_In, IH.
    split.
    + intros [H|(item & Hin & Hb)].
      * exists (tc, r). split; [left; reflexivity | exact H].
      * exists item. split; [right; exact Hin | exact Hb].
    + intros (item & [<-|Hin] & Hb); [left; exact Hb|].
      right. exists item. split; assumption.
Qed.

(** X12. After [evaluate_population] the coverage set holds exactly what
    it held before and the branches taken by the candidates, whatever
    their status and whether or not they belong to the universe; it is
    the same for every order of the candidates; the universe is left as
    it was. *)
Theorem evaluate_population_coverage
    (self : t) (cfg_name cfg_name' : string)
    (test_results reordered : list (string * TestExecutionOutput)) :
  let self' := (evaluate_population self cfg_name test_results).2 in
  (forall b : string,
     b ∈ global_covered_branches self' <->
     b ∈ global_covered_branches self \/
     exists item, In item test_results /\ In b (branches_taken item.2)) /\
  all_branches self' = all_branches self /\
  (Permutation test_results reordered ->
   global_covered_branches
     (evaluate_population self cfg_name' reordered).2 =
   global_covered_branches self').
Proof.
  intros self'. subst self'. rewrite !evaluate_population_state.
  split; [|split].
  - intros b. rewrite evaluate_each_union, elem_of_union, branches_of_elem.
    reflexivity.
  - apply evaluate_each_universe.
  - intros Hperm. rewrite !evaluate_each_union.
    apply set_eq; intros b. rewrite !elem_of_union, !branches_of_elem.
    split; (intros [H|(item & Hin & Hb)]; [left; exact H|]);
      right; exists item; (split; [|exact Hb]).
    + eapply Permutation_in; [symmetry; exact Hperm | exact Hin].
    + eapply Permutation_in; [exact Hperm | exact Hin].
Qed.

Lemma raw_mono_covered (covered covered' fresh total : Z) (is_failed : bool) :
  0 < total -> covered <= covered' ->
  (raw covered fresh total is_failed <= raw covered' fresh total is_failed)%Q.
Proof.
  intros Ht Hc. unfold raw.
  assert ((Py.truediv covered total <= Py.truediv covered' total)%Q)
    by (apply truediv_le; nia).
  lra.
Qed.

(** X25. In one evaluator state, an outcome whose branches include those
    of another outcome of the same status does not score lower: covering
    more never costs fitness. *)
Theorem more_coverage_scores_higher
    (self : t) (tc tc' : string) (r r' : TestExecutionOutput) :
  (list_to_set (branches_taken r) : gset string)
    ⊆ list_to_set (branches_taken r') ->
  execution_status r = execution_status r' ->
  (fitness_score (calculate_fitness self tc r).1
   <= fitness_score (calculate_fitness self tc' r').1)%Q.
Proof.
  intros Hsub Hs. rewrite !fitness_formula, Hs.
  apply round_mono, clamp_mono.
  pose proof (total_of_pos self) as Ht.
  eapply Qle_trans.
  - apply raw_mono_covered; [lia|]. apply set_len_mono, Hsub.
  - apply raw_mono_fresh; [lia|]. apply set_len_mono.
    intros x. rewrite !elem_of_difference. intros [Hx Hn].
    split; [apply Hsub, Hx | exact Hn].
Qed.

End FitnessMore.
(** ** The executor's branch identifiers *)

Section ExecutorBranches.

Import Str TestExecutor.

Lemma append_empty (s : string) : s +:+ EmptyString = s.
Proof.
  induction s as [|c s IH]; [reflexivity|].
  change (String c (s +:+ EmptyString) = String c s). f_equal. exact IH.
Qed.

Lemma branches_at_shape (cov : GCovData.t) (following : list GCovData.t)
    (b : string) :
  In b (branches_at cov following) ->
  0 < GCovData.execution_count cov /\
  is_decision (strip (GCovData.source_line cov)) = true /\
  exists suffix,
    b = "L" +:+ pretty (GCovData.line_number cov) +:+ suffix /\
    In suffix suffixes /\
    (suffix <> EmptyString ->
     contains "if" (strip (GCovData.source_line cov)) = true) /\
    (suffix = "_false"%string ->
     exists next_cov rest,
       following = next_cov :: rest /\
       0 < GCovData.execution_count next_cov).
Proof.
  unfold branches_at.
  destruct (0 <? GCovData.execution_count cov) eqn:Ec; [|intros []].
  apply Z.ltb_lt in Ec.
  destruct (is_decision _) eqn:Ed; [|intros []].
  intros Hin. split; [exact Ec|]. split; [reflexivity|].
  destruct Hin as [<-|Hin].
  - exists EmptyString. split; [|split; [left; reflexivity|split]].
    + rewrite append_empty. reflexivity.
    + intros H; contradiction H; reflexivity.
    + discriminate.
  - destruct (contains "if" _) eqn:Ei; [|destruct Hin].
    destruct Hin as [<-|Hin].
    + exists "_true"%string.
      split; [reflexivity|]. split; [right; left; reflexivity|].
      split; [reflexivity | discriminate].
    + destruct following as [|next_cov rest]; [destruct Hin|].
      destruct (0 <? GCovData.execution_count next_cov) eqn:En;
        [|destruct Hin].
      apply Z.ltb_lt in En. destruct Hin as [<-|[]].
      exists "_false"%string.
      split; [reflexivity|]. split; [right; right; left; reflexivity|].
      split; [reflexivity|]. intros _. exists next_cov, rest. tauto.
Qed.

Lemma extract_branches_elem (coverage_data : list GCovData.t) (b : string) :
  In b (_extract_branches coverage_data) <->
  exists before cov following,
    coverage_data = before ++ cov :: following /\
    In b (branches_at cov following).
Proof.
  induction coverage_data as [|cov following IH]; cbn [_extract_branches].
  - split; [intros [] | intros (before & c & fl & E & _)].
    destruct before; discriminate.
  - rewrite in_app_iff, IH. split.
    + intros [H|(before & c & fl & -> & H)].
      * exists [], cov, following. split; [reflexivity | exact H].
      * exists (cov :: before), c, fl. split; [reflexivity | exact H].
    + intros (before & c & fl & E & H).
      destruct before as [|x before]; cbn [app] in E.
      * injection E as -> ->. left; exact H.
      * injection E as -> ->. right. exists before, c, fl.
        split; [reflexivity | exact H].
Qed.

(** X13. Every identifier that [_extract_branches] returns is "L", the
    line number of an executed record whose stripped source contains one
    of the six keywords, and nothing, "_true" or "_false"; the two longer
    forms only come from records containing "if". Each executed record
    with a keyword contributes its plain identifier, and with "if" its
    "_true" identifier as well, whatever the records around it. *)
Theorem extracted_branch_ids (coverage_data : list GCovData.t) :
  Forall (fun b =>
            exists cov suffix,
              In cov coverage_data /\
              0 < GCovData.execution_count cov /\
              is_decision (strip (GCovData.source_line cov)) = true /\
              b = "L" +:+ pretty (GCovData.line_number cov) +:+ suffix /\
              In suffix suffixes /\
              (suffix <> EmptyString ->
               contains "if" (strip (GCovData.source_line cov)) = true))
         (_extract_branches coverage_data) /\
  (forall cov,
     In cov coverage_data ->
     0 < GCovData.execution_count cov ->
     is_decision (strip (GCovData.source_line cov)) = true ->
     In ("L" +:+ pretty (GCovData.line_number cov))
        (_extract_branches coverage_data) /\
     (contains "if" (strip (GCovData.source_line cov)) = true ->
      In ("L" +:+ pretty (GCovData.line_number cov) +:+ "_true")
         (_extract_branches coverage_data))).
Proof.
  split.
  - apply List.Forall_forall. intros b Hb.
    apply extract_branches_elem in Hb as (before & cov & fl & -> & Hb).
    apply branches_at_shape in Hb as (Hc & Hd & suffix & -> & Hs & Hif & _).
    exists cov, suffix. split; [apply in_elt|]. tauto.
  - intros cov Hin Hc Hd.
    apply in_split in Hin as (before & fl & ->).
    assert (Hat : forall b, In b (branches_at cov fl) ->
                  In b (_extract_branches (before ++ cov :: fl))).
    { intros b Hb. apply extract_branches_elem. exists before, cov, fl.
      split; [reflexivity | exact Hb]. }
    apply Z.ltb_lt in Hc.
    split; [|intros Hif]; apply Hat; unfold branches_at; rewrite Hc, Hd.
    + left; reflexivity.
    + rewrite Hif. right; left; reflexivity.
Qed.

(** *** Identifiers of the executor and of the evaluator *)

Lemma pretty_N_go_not_L (x : N) : forall s s' : string,
  s <> String "L" s' -> pretty_N_go x s <> String "L" s'.
Proof.
  induction (N.lt_wf_0 x) as [x _ IH]; intros s s' Hs.
  assert (x = 0 \/ 0 < x)%N as [->|Hx] by lia.
  - rewrite pretty_N_go_0. exact Hs.
  - rewrite pretty_N_go_step by exact Hx. apply IH.
    + apply N.div_lt; [exact Hx | reflexivity].
    + unfold pretty_N_char. repeat case_match; discriminate.
Qed.

Lemma pretty_Z_not_L (z : Z) (s : string) : pretty z <> String "L" s.
Proof.
  assert (HN : forall n : N, pretty n <> String "L" s).
  { intros n. unfold pretty, pretty_N. destruct (decide (n = 0%N)).
    - discriminate.
    - apply pretty_N_go_not_L. discriminate. }
  destruct z as [|p|p]; unfold pretty, pretty_Z.
  - discriminate.
  - apply HN.
  - discriminate.
Qed.

Lemma branch_id_not_L (e : CFGEdge) (s : string) :
  FitnessEvaluator.branch_id e <> String "L" s.
Proof.
  unfold FitnessEvaluator.branch_id.
  pose proof (pretty_Z_not_L (source_node_id e)) as Hp.
  destruct (pretty (source_node_id e)) as [|c t].
  - discriminate.
  - rewrite append_cons. intros E. injection E as -> _. apply (Hp t).
    reflexivity.
Qed.

Lemma extract_all_branches_elem (c : CFGOutput) (b : string) :
  b ∈ FitnessEvaluator._extract_all_branches c <->
  exists e, In e (edges c) /\ b = FitnessEvaluator.branch_id e.
Proof.
  unfold FitnessEvaluator._extract_all_branches.
  assert (H : forall l (acc : gset string),
            b ∈ fold_left (fun branches e =>
                             branches ∪ {[ FitnessEvaluator.branch_id e ]})
                          l acc <->
            b ∈ acc \/ exists e, In e l /\ b = FitnessEvaluator.branch_id e).
  { induction l as [|e l IH]; intros acc; cbn [fold_left].
    - split; [tauto | intros [H|(e & [] & _)]; exact H].
    - rewrite IH, elem_of_union, elem_of_singleton. split.
      + intros [[H|H]|(e' & Hin & E)].
        * left; exact H.
        * right. exists e. split; [left; reflexivity | exact H].
        * right. exists e'. split; [right; exact Hin | exact E].
      + intros [H|(e' & [<-|Hin] & E)].
        * left; left; exact H.
        * left; right; exact E.
        * right. exists e'. split; assumption. }
  rewrite H, elem_of_empty. tauto.
Qed.

(** X14. No identifier that the executor's [_extract_branches] returns
    belongs to the universe that the evaluator builds from a control-flow
    graph: the former start with "L", the latter with the decimal form of
    a node number. Evaluated against any graph, a candidate's branches as
    the executor reports them are all outside the universe and all count
    as covered. *)
Theorem executor_ids_outside_universe
    (c : CFGOutput) (coverage_data : list GCovData.t)
    (test_case : string) (r : TestExecutionOutput) :
  let self := FitnessEvaluator.__init__ c in
  Forall (fun b => b ∉ FitnessEvaluator.all_branches self)
         (_extract_branches coverage_data) /\
  (branches_taken r = _extract_branches coverage_data ->
   forall b,
     In b (branches_covered
             (FitnessEvaluator.calculate_fitness self test_case r).1) <->
     In b (_extract_branches coverage_data) /\
     b ∉ FitnessEvaluator.all_branches self).
Proof.
  intros self.
  assert (Hout : forall b, In b (_extract_branches coverage_data) ->
                 b ∉ FitnessEvaluator.all_branches self).
  { intros b Hb Hin. unfold self in Hin.
    cbn [FitnessEvaluator.__init__ FitnessEvaluator.all_branches] in Hin.
    apply extract_all_branches_elem in Hin as (e & _ & E).
    apply extract_branches_elem in Hb as (? & cov & fl & _ & Hb).
    apply branches_at_shape in Hb as (_ & _ & suffix & -> & _).
    symmetry in E. revert E. apply branch_id_not_L. }
  split; [apply List.Forall_forall, Hout|].
  intros Hr b.
  unfold FitnessEvaluator.calculate_fitness; cbn [fst branches_covered].
  rewrite <- list_elem_of_In, elem_of_elements, elem_of_list_to_set, Hr,
    list_elem_of_In.
  split; [intros H; split; [exact H | apply Hout, H] | tauto].
Qed.

(** *** The identifier of an edge determines its end points *)

Lemma pretty_N_go_chars (c : ascii) (x : N) : forall s : string,
  (forall d, (d < 10)%N -> pretty_N_char d <> c) ->
  (forall s1 s2, s <> s1 +:+ String c s2) ->
  forall s1 s2, pretty_N_go x s <> s1 +:+ String c s2.
Proof.
  intros s Hc. revert s.
  induction (N.lt_wf_0 x) as [x _ IH]; intros s Hs.
  assert (x = 0 \/ 0 < x)%N as [->|Hx] by lia.
  - rewrite pretty_N_go_0. exact Hs.
  - rewrite pretty_N_go_step by exact Hx. apply IH.
    + apply N.div_lt; [exact Hx | reflexivity].
    + intros s1 s2 E. destruct s1 as [|a s1].
      * injection E as E _. revert E. apply Hc.
        apply N.mod_lt. discriminate.
      * rewrite append_cons in E. injection E as _ E. exact (Hs _ _ E).
Qed.

Lemma digit_not_gt (d : N) : (d < 10)%N -> pretty_N_char d <> ">"%char.
Proof. intros _. unfold pretty_N_char. repeat case_match; discriminate. Qed.

Lemma pretty_Z_no_gt (z : Z) (s1 s2 : string) :
  pretty z <> s1 +:+ String ">" s2.
Proof.
  assert (HN : forall (n : N) t1 t2, pretty n <> t1 +:+ String ">" t2).
  { intros n t1 t2. unfold pretty, pretty_N. destruct (decide (n = 0%N)).
    - destruct t1 as [|a [|b t1]]; discriminate.
    - apply pretty_N_go_chars; [apply digit_not_gt|].
      intros [|a u1] u2; discriminate. }
  destruct z as [|p|p]; unfold pretty, pretty_Z.
  - destruct s1 as [|a [|b s1]]; discriminate.
  - apply HN.
  - destruct s1 as [|a s1].
    + discriminate.
    + rewrite append_cons. intros E. injection E as _ E.
      exact (HN _ _ _ E).
Qed.

(** Two strings without ">" followed by ">" and a rest: the split is
    unique. *)
Lemma split_at_gt (s s' t t' : string) :
  (forall s1 s2, s <> s1 +:+ String ">" s2) ->
  (forall s1 s2, s' <> s1 +:+ String ">" s2) ->
  s +:+ String ">" t = s' +:+ String ">" t' -> s = s' /\ t = t'.
Proof.
  revert s'. induction s as [|a s IH]; intros [|a' s'] Hs Hs' E.
  - injection E as ->. split; reflexivity.
  - exfalso. rewrite append_cons in E. injection E as <- E.
    apply (Hs' EmptyString s'). reflexivity.
  - exfalso. rewrite append_cons in E. injection E as -> E.
    apply (Hs EmptyString s). reflexivity.
  - rewrite !append_cons in E. injection E as -> E.
    destruct (IH s') as [-> ->]; [| |exact E|split; reflexivity].
    + intros s1 s2 ->. apply (Hs (String a' s1) s2). reflexivity.
    + intros s1 s2 ->. apply (Hs' (String a' s1) s2). reflexivity.
Qed.

Lemma append_assoc (s t u : string) : (s +:+ t) +:+ u = s +:+ t +:+ u.
Proof.
  induction s as [|a s IH]; [reflexivity|].
  rewrite !append_cons, IH. reflexivity.
Qed.

Lemma append_dash_inj (s s' : string) : s +:+ "-" = s' +:+ "-" -> s = s'.
Proof.
  revert s'. induction s as [|a s IH]; intros [|a' s'] E.
  - reflexivity.
  - exfalso. rewrite append_cons in E. injection E as _ E.
    destruct s'; discriminate.
  - exfalso. rewrite append_cons in E. injection E as _ E.
    destruct s; discriminate.
  - rewrite !append_cons in E. injection E as -> E. f_equal. apply IH, E.
Qed.

Lemma pretty_dash_no_gt (z : Z) (s1 s2 : string) :
  pretty z +:+ "-" <> s1 +:+ String ">" s2.
Proof.
  intros E.
  assert (H : forall s t1 t2,
            (forall u1 u2, s <> u1 +:+ String ">" u2) ->
            s +:+ "-" <> t1 +:+ String ">" t2).
  { induction s as [|a s IH]; intros t1 t2 Hs E'.
    - destruct t1 as [|b [|b' t1]]; discriminate.
    - destruct t1 as [|b t1].
      + rewrite append_cons in E'. injection E' as -> _.
        apply (Hs EmptyString s). reflexivity.
      + rewrite !append_cons in E'. injection E' as -> E'.
        apply (IH t1 t2); [|exact E'].
        intros u1 u2 ->. apply (Hs (String b u1) u2). reflexivity. }
  apply (H _ _ _ (pretty_Z_no_gt z) E).
Qed.

Lemma branch_id_inj (e1 e2 : CFGEdge) :
  FitnessEvaluator.branch_id e1 = FitnessEvaluator.branch_id e2 <->
  source_node_id e1 = source_node_id e2 /\
  target_node_id e1 = target_node_id e2.
Proof.
  unfold FitnessEvaluator.branch_id. split.
  - intros E.
    change "->"%string with ("-" +:+ String ">" EmptyString)%string in E.
    rewrite <- !append_assoc in E.
    rewrite !(append_assoc _ (String ">" EmptyString)) in E.
    change (String ">" EmptyString +:+ ?x) with (String ">" x) in E.
    apply split_at_gt in E as [E1 E2]; try apply pretty_dash_no_gt.
    apply append_dash_inj in E1.
    split; eapply (inj pretty); assumption.
  - intros [-> ->]. reflexivity.
Qed.

Lemma size_list_to_set_le `{Countable A} (l : list A) :
  (size (list_to_set l : gset A) <= length l)%nat.
Proof.
  induction l as [|x l IH]; cbn [list_to_set length].
  - rewrite size_empty. lia.
  - rewrite size_union_alt, size_singleton.
    assert (size (list_to_set l ∖ {[x]} : gset A)
            <= size (list_to_set l : gset A))%nat.
    { apply subseteq_size. intros y Hy.
      apply elem_of_difference in Hy as [Hy _]. exact Hy. }
    lia.
Qed.

Lemma size_image `{Countable A} `{Countable B} (g : A -> B) (l : list A) :
  (forall x y, g x = g y -> x = y) ->
  size (list_to_set (map g l) : gset B) = size (list_to_set l : gset A).
Proof.
  intros Hinj. induction l as [|x l IH]; cbn [map list_to_set].
  - rewrite !size_empty. reflexivity.
  - destruct (decide (x ∈ (list_to_set l : gset A))) as [Hin|Hout].
    + assert (E1 : ({[x]} ∪ list_to_set l : gset A) = list_to_set l).
      { apply set_eq. intros y. rewrite elem_of_union, elem_of_singleton.
        split; [intros [->|Hy]; assumption | tauto]. }
      assert (E2 : ({[g x]} ∪ list_to_set (map g l) : gset B)
                   = list_to_set (map g l)).
      { apply set_eq. intros y. rewrite elem_of_union, elem_of_singleton.
        split; [intros [->|Hy]; [|exact Hy] | tauto].
        apply elem_of_list_to_set, list_elem_of_fmap. exists x.
        split; [reflexivity|]. apply elem_of_list_to_set in Hin. exact Hin. }
      rewrite E1, E2. exact IH.
    + rewrite !size_union, !size_singleton, IH; [reflexivity| |].
      * intros y Hy1 Hy2. apply elem_of_singleton in Hy1 as ->.
        exact (Hout Hy2).
      * intros y Hy1 Hy2. apply elem_of_singleton in Hy1 as ->.
        apply elem_of_list_to_set, list_elem_of_fmap in Hy2
          as (x' & E & Hx').
        apply Hinj in E as ->. apply Hout, elem_of_list_to_set, Hx'.
Qed.

(** X23. The universe of an evaluator holds one identifier per pair of
    end points occurring among the edges of the graph: two edges have the
    same identifier exactly when they join the same nodes, whatever
    their labels, so the size of the universe is the number of distinct
    (source, target) pairs and never exceeds the number of edges. *)
Theorem universe_counts_end_points (c : CFGOutput) :
  let self := FitnessEvaluator.__init__ c in
  let end_points (e : CFGEdge) := (source_node_id e, target_node_id e) in
  (forall b, b ∈ FitnessEvaluator.all_branches self <->
             exists e, In e (edges c) /\ b = FitnessEvaluator.branch_id e) /\
  (forall e1 e2,
     FitnessEvaluator.branch_id e1 = FitnessEvaluator.branch_id e2 <->
     end_points e1 = end_points e2) /\
  size (FitnessEvaluator.all_branches self) =
    size (list_to_set (map end_points (edges c)) : gset (Z * Z)) /\
  FitnessEvaluator.set_len (FitnessEvaluator.all_branches self)
    <= Py.len (edges c).
Proof.
  intros self end_points.
  set (g := fun p : Z * Z => (pretty p.1 +:+ "->" +:+ pretty p.2)%string).
  assert (Hg : forall x y, g x = g y -> x = y).
  { intros [a b] [a' b'] E.
    apply (branch_id_inj (mkCFGEdge a b None) (mkCFGEdge a' b' None)) in E
      as [E1 E2]. cbn in E1, E2. congruence. }
  assert (Hset : FitnessEvaluator.all_branches self =
                 list_to_set (map g (map end_points (edges c)))).
  { apply set_eq. intros b. unfold self.
    cbn [FitnessEvaluator.__init__ FitnessEvaluator.all_branches].
    rewrite extract_all_branches_elem, elem_of_list_to_set, map_map,
      list_elem_of_fmap.
    split; intros (e & H1 & H2); exists e.
    - split; [exact H2 | apply list_elem_of_In, H1].
    - split; [apply list_elem_of_In, H2 | exact H1]. }
  split; [|split; [|split]].
  - intros b. apply extract_all_branches_elem.
  - intros e1 e2. rewrite branch_id_inj. unfold end_points.
    split; [intros [-> ->]; reflexivity | intros E; injection E; tauto].
  - rewrite Hset. apply size_image, Hg.
  - rewrite Hset. unfold FitnessEvaluator.set_len, Py.len.
    pose proof (size_list_to_set_le (map g (map end_points (edges c)))) as H.
    rewrite !length_map in H. lia.
Qed.

End ExecutorBranches.
(** ** Random genes, the mock fitness, the tournament *)

Section GeneticMoreProofs.

Import GeneticEngine GeneticMore.

Lemma random_unit (r : Random.rng) :
  (0 <= (Random.random r).1)%Q /\ ((Random.random r).1 < 1)%Q.
Proof.
  unfold Random.random. destruct (Random.next r) as [w r']. cbn [fst].
  pose proof (Z.mod_pos_bound w (2 ^ 53) ltac:(lia)) as [H0 H1].
  unfold Qle, Qlt. cbn [Qnum Qden]. rewrite Z2Pos.id by lia. lia.
Qed.

Lemma uniform_range (a b : Q) (r : Random.rng) :
  (a <= b)%Q ->
  (a <= (Random.uniform a b r).1)%Q /\ ((Random.uniform a b r).1 <= b)%Q.
Proof.
  intros Hab. unfold Random.uniform.
  pose proof (random_unit r) as [H0 H1].
  destruct (Random.random r) as [u r']. cbn [fst] in *. split; nra.
Qed.

Lemma round_range (x : Q) (k : nat) (a b : Q) :
  Py.round a k = a -> Py.round b k = b ->
  (a <= x)%Q -> (x <= b)%Q ->
  (a <= Py.round x k)%Q /\ (Py.round x k <= b)%Q.
Proof.
  intros Ea Eb Ha Hb. split.
  - rewrite <- Ea. apply round_mono, Ha.
  - rewrite <- Eb. apply round_mono, Hb.
Qed.

Lemma generate_random_gene_in_range (param_type : string) (r : Random.rng) :
  exists g r',
    generate_random_gene param_type r = (Ok g, r') /\ gene_in_range g.
Proof.
  unfold generate_random_gene.
  destruct (Str.contains "int" param_type).
  - destruct (randint_in_range (-100) 100 r ltac:(lia))
      as (z & r' & E & Hz & _).
    rewrite E. exists (GInt z), r'. split; [reflexivity | exact Hz].
  - destruct (Str.contains "float" param_type || Str.contains "double" param_type).
    + pose proof (uniform_range (-100) 100 r ltac:(lra)) as [H0 H1].
      destruct (Random.uniform (-100) 100 r) as [x r']. cbn [fst] in *.
      exists (GFloat (Py.round x 2)), r'. split; [reflexivity|].
      apply (round_range x 2 (-100) 100 eq_refl eq_refl H0 H1).
    + destruct (Str.contains "bool" param_type).
      * pose proof (choice_member (fun z => -100 <= z <= 100) 0 [1] r) as Hc.
        destruct (Random.choice 0 [1] r) as [z r']. cbn [fst] in Hc.
        exists (GInt z), r'. split; [reflexivity|].
        apply Hc. repeat constructor; lia.
      * exists (GInt 0), r. split; [reflexivity|]. cbn. lia.
Qed.

(** X15. [generate_random_gene] always returns, and never a boolean: an
    integer of -100..100 when the type name contains "int"; otherwise a
    real of [-100, 100] with two decimals when it contains "float" or
    "double"; otherwise the integer 0 or 1 (for "bool") or the integer 0. *)
Theorem generate_random_gene_range (param_type : string) (r : Random.rng) :
  exists g r',
    generate_random_gene param_type r = (Ok g, r') /\
    match g with
    | GInt z =>
        -100 <= z <= 100 /\
        (Str.contains "int" param_type = false ->
         Str.contains "float" param_type = false /\
         Str.contains "double" param_type = false /\
         0 <= z <= 1 /\
         (Str.contains "bool" param_type = false -> z = 0 /\ r' = r))
    | GFloat x =>
        (-100 <= x)%Q /\ (x <= 100)%Q /\ Py.round x 2 = x /\
        Str.contains "int" param_type = false /\
        (Str.contains "float" param_type = true \/
         Str.contains "double" param_type = true)
    | GBool _ => False
    end.
Proof.
  unfold generate_random_gene.
  destruct (Str.contains "int" param_type) eqn:Ei.
  - destruct (randint_in_range (-100) 100 r ltac:(lia))
      as (z & r' & E & Hz & _).
    rewrite E. exists (GInt z), r'. split; [reflexivity|].
    split; [exact Hz | discriminate].
  - assert (Hfloat :
      Str.contains "float" param_type = true \/
      Str.contains "double" param_type = true ->
      let '(x, r') := Random.uniform (-100) 100 r in
      exists g r'',
        (Ok (GFloat (Py.round x 2)), r') = (Ok g, r'') /\
        match g with
        | GFloat y =>
            (-100 <= y)%Q /\ (y <= 100)%Q /\ Py.round y 2 = y /\
            false = false /\
            (Str.contains "float" param_type = true \/
             Str.contains "double" param_type = true)
        | _ => False
        end).
    { intros Hd.
      pose proof (uniform_range (-100) 100 r ltac:(lra)) as [H0 H1].
      destruct (Random.uniform (-100) 100 r) as [x r']. cbn [fst] in *.
      exists (GFloat (Py.round x 2)), r'. split; [reflexivity|].
      destruct (round_range x 2 (-100) 100 eq_refl eq_refl H0 H1).
      split; [assumption|]. split; [assumption|].
      split; [apply round_idempotent|]. split; [reflexivity | exact Hd]. }
    destruct (Str.contains "float" param_type) eqn:Ef;
      [|destruct (Str.contains "double" param_type) eqn:Ed]; cbn [orb].
    1,2: specialize (Hfloat ltac:(tauto));
      destruct (Random.uniform (-100) 100 r) as [x r'];
      destruct Hfloat as (g & r'' & E & Hg); exists g, r'';
      (split; [exact E|]); destruct g; first [exact Hg | destruct Hg].
    destruct (Str.contains "bool" param_type) eqn:Eb.
    + pose proof (choice_member (fun z => 0 <= z <= 1) 0 [1] r) as Hc.
      destruct (Random.choice 0 [1] r) as [z r']. cbn [fst] in Hc.
      assert (Hz : 0 <= z <= 1)
        by (apply Hc; repeat constructor; lia).
      exists (GInt z), r'. split; [reflexivity|].
      split; [lia|]. intros _. repeat split; try lia; discriminate.
    + exists (GInt 0), r. split; [reflexivity|]. split; [lia|].
      intros _. repeat split; lia.
Qed.

Lemma mock_fitness_heap (chromosome : ref) (w : world) :
  exists s w',
    calculate_fitness_mock chromosome w = (Ok s, w') /\ heap w' = heap w.
Proof.
  unfold calculate_fitness_mock, mbind, M_bind, draw, mret, M_ret.
  destruct (Random.uniform (1 # 10) (9 # 10) (rng w)) as [u r'].
  eexists _, _. split; reflexivity.
Qed.

(** X16. The mock fitness is a real of [0.1, 0.9] with two decimals; the
    call reads no object and leaves every object as it was. *)
Theorem mock_fitness_range (chromosome : ref) (w : world) :
  exists s w',
    calculate_fitness_mock chromosome w = (Ok s, w') /\
    heap w' = heap w /\
    (1 # 10 <= s)%Q /\ (s <= 9 # 10)%Q /\ Py.round s 2 = s.
Proof.
  unfold calculate_fitness_mock, mbind, M_bind, draw, mret, M_ret.
  pose proof (uniform_range (1 # 10) (9 # 10) (rng w) ltac:(lra)) as [H0 H1].
  destruct (Random.uniform (1 # 10) (9 # 10) (rng w)) as [u r'].
  cbn [fst] in *. eexists _, _. split; [reflexivity|].
  split; [reflexivity|].
  destruct (round_range u 2 (1 # 10) (9 # 10) eq_refl eq_refl H0 H1).
  split; [assumption|]. split; [assumption | apply round_idempotent].
Qed.

(** *** The tournament *)

Lemma sample_go_submseteq {A} (k : nat) : forall (l : list A) (r : Random.rng),
  (k <= length l)%nat -> (Random.sample_go l k r).1 ⊆+ l.
Proof.
  induction k as [|k IH]; intros l r Hk.
  - apply submseteq_nil_l.
  - simpl.
    set (w := Random.words r (Random.position r)).
    set (r1 := {| Random.words := Random.words r;
                  Random.position := S (Random.position r) |}).
    pose proof (Z.mod_pos_bound w (Py.len l)) as Hb.
    unfold Py.len in *.
    assert (Hi : (Z.to_nat (w mod Z.of_nat (length l)) < length l)%nat) by lia.
    destruct (lookup_lt_is_Some_2 l _ Hi) as [x Hx].
    rewrite Hx.
    pose proof (IH (delete (Z.to_nat (w mod Z.of_nat (length l))) l) r1)
      as Hsub.
    destruct (Random.sample_go (delete _ l) k r1) as [rest r2].
    cbn [fst] in *.
    rewrite (delete_Permutation l _ x Hx). apply submseteq_skip, Hsub.
    rewrite length_delete by eauto. lia.
Qed.

Lemma max_go_max (rest : list ref) : forall (best : ref) (w : world),
  (forall q, q ∈ rest -> is_Some (heap w !! q)) ->
  exists p,
    max_go best (fitness_of w best) rest w = (Ok p, w) /\
    (p = best \/ p ∈ rest) /\
    (fitness_of w best <= fitness_of w p)%Q /\
    (forall q, q ∈ rest -> (fitness_of w q <= fitness_of w p)%Q).
Proof.
  induction rest as [|q rest IH]; intros best w Hlive; cbn [max_go].
  - exists best. split; [reflexivity|]. split; [left; reflexivity|].
    split; [lra|]. intros q Hq. inversion Hq.
  - destruct (Hlive q) as [c Hc]; [apply list_elem_of_here|].
    rewrite (bind_ok _ _ _ _ _ (deref_live q c w Hc)).
    assert (Hrest : forall q', q' ∈ rest -> is_Some (heap w !! q')).
    { intros q' Hq'. apply Hlive, list_elem_of_further, Hq'. }
    assert (Eq : Chromosome.fitness_score c = fitness_of w q)
      by (unfold fitness_of; rewrite Hc; reflexivity).
    rewrite Eq. unfold Py.lt.
    destruct (Qcompare (fitness_of w best) (fitness_of w q)) eqn:C;
      compare_facts.
    + destruct (IH best w Hrest) as (p & E & Hp & Hb & Hall).
      exists p. split; [exact E|]. split; [|split; [exact Hb|]].
      * destruct Hp as [->|Hp]; [left; reflexivity|].
        right. apply list_elem_of_further, Hp.
      * intros q' Hq'. apply elem_of_cons in Hq' as [->|Hq'];
          [lra | apply Hall, Hq'].
    + destruct (IH q w Hrest) as (p & E & Hp & Hb & Hall).
      exists p. split; [exact E|]. split; [|split; [lra|]].
      * right. destruct Hp as [->|Hp]; [apply list_elem_of_here|].
        apply list_elem_of_further, Hp.
      * intros q' Hq'. apply elem_of_cons in Hq' as [->|Hq'];
          [exact Hb | apply Hall, Hq'].
    + destruct (IH best w Hrest) as (p & E & Hp & Hb & Hall).
      exists p. split; [exact E|]. split; [|split; [exact Hb|]].
      * destruct Hp as [->|Hp]; [left; reflexivity|].
        right. apply list_elem_of_further, Hp.
      * intros q' Hq'. apply elem_of_cons in Hq' as [->|Hq'];
          [lra | apply Hall, Hq'].
Qed.

Lemma tournament_selection_spec (w : world) (population : list ref) :
  population <> [] ->
  (forall p, p ∈ population -> is_Some (heap w !! p)) ->
  exists p r' competitors,
    tournament_selection population w =
      (Ok p, {| heap := heap w; rng := r' |}) /\
    competitors ⊆+ population /\
    Py.len competitors = Z.min 3 (Py.len population) /\
    p ∈ competitors /\
    (forall q, q ∈ competitors -> (fitness_of w q <= fitness_of w p)%Q).
Proof.
  intros Hne Hlive. unfold tournament_selection.
  set (k := Z.min 3 (Py.len population)).
  assert (Hk : 0 <= k <= Py.len population) by (unfold k, Py.len; lia).
  unfold mbind, M_bind, draw_or_raise, Random.sample.
  destruct (k <? 0) eqn:E1; [apply Z.ltb_lt in E1; lia|].
  destruct (Py.len population <? k) eqn:E2; [apply Z.ltb_lt in E2; lia|].
  cbn [orb].
  pose proof (sample_go_submseteq (Z.to_nat k) population (rng w)) as Hsub.
  pose proof (sample_go_spec (Z.to_nat k) population (rng w)) as [Hlen _].
  { unfold Py.len in Hk. lia. }
  destruct (Random.sample_go population (Z.to_nat k) (rng w)) as [s r'].
  cbn [fst] in *.
  specialize (Hsub ltac:(unfold Py.len in Hk; lia)).
  assert (Hin : forall q, q ∈ s -> q ∈ population).
  { intros q Hq. eapply elem_of_submseteq; [exact Hq | exact Hsub]. }
  destruct s as [|p rest].
  { exfalso. destruct population; [congruence|].
    unfold k, Py.len in *. simpl length in *. lia. }
  set (w1 := {| heap := heap w; rng := r' |}).
  destruct (Hlive p) as [c Hc]; [apply Hin, list_elem_of_here|].
  unfold max_by_fitness.
  rewrite (bind_ok _ _ _ _ _ (deref_live p c w1 Hc)).
  assert (Ef : forall q, fitness_of w1 q = fitness_of w q) by reflexivity.
  assert (Ec : Chromosome.fitness_score c = fitness_of w1 p)
    by (unfold fitness_of; cbn [heap w1]; rewrite Hc; reflexivity).
  rewrite Ec.
  destruct (max_go_max rest p w1) as (q & Eq & Hq & Hb & Hall).
  { intros q Hq. apply Hlive, Hin, list_elem_of_further, Hq. }
  rewrite Eq. exists q, r', (p :: rest). split; [reflexivity|].
  split; [exact Hsub|]. split; [unfold Py.len; lia|]. split.
  - destruct Hq as [->|Hq];
      [apply list_elem_of_here | apply list_elem_of_further, Hq].
  - intros q' Hq'. rewrite <- !Ef.
    apply elem_of_cons in Hq' as [->|Hq']; [exact Hb | apply Hall, Hq'].
Qed.

(** X17. On a population that is not empty, [tournament_selection]
    returns a member of the population and changes no object. The winner
    is one of min(3, size) competitors drawn from distinct positions, and
    no competitor has a higher fitness score; with at most three
    individuals it is a fittest one of the whole population. *)
Theorem tournament_winner_is_fittest (w : world) (population : list ref) :
  population <> [] ->
  (forall p, p ∈ population -> is_Some (heap w !! p)) ->
  exists p w' competitors,
    tournament_selection population w = (Ok p, w') /\
    heap w' = heap w /\
    competitors ⊆+ population /\
    Py.len competitors = Z.min 3 (Py.len population) /\
    p ∈ competitors /\
    (forall q, q ∈ competitors -> (fitness_of w q <= fitness_of w p)%Q) /\
    (Py.len population <= 3 ->
     forall q, q ∈ population -> (fitness_of w q <= fitness_of w p)%Q).
Proof.
  intros Hne Hlive.
  destruct (tournament_selection_spec w population Hne Hlive)
    as (p & r' & competitors & E & Hsub & Hlen & Hp & Hmax).
  exists p, {| heap := heap w; rng := r' |}, competitors.
  split; [exact E|]. split; [reflexivity|]. split; [exact Hsub|].
  split; [exact Hlen|]. split; [exact Hp|]. split; [exact Hmax|].
  intros Hsmall q Hq. apply Hmax.
  assert (Hperm : competitors ≡ₚ population).
  { apply submseteq_length_Permutation; [exact Hsub|].
    unfold Py.len in *. lia. }
  rewrite Hperm. exact Hq.
Qed.

End GeneticMoreProofs.
(** ** The endpoints of the genetic algorithm *)

Section MainProofs.

Import GeneticEngine GeneticMore Main.

Lemma steps_ret {A} (a : A) (w : world) (post : A -> world -> Prop) :
  post a w -> steps (mret a) w post.
Proof. intros H. exists a, w. split; [reflexivity | exact H]. Qed.

Lemma steps_bind {A B} (m : M A) (f : A -> M B) (w : world)
    (mid : A -> world -> Prop) (post : B -> world -> Prop) :
  steps m w mid ->
  (forall a w1, mid a w1 -> steps (f a) w1 post) ->
  steps (m ≫= f) w post.
Proof.
  intros (a & w1 & E & Hmid) Hf.
  destruct (Hf a w1 Hmid) as (b & w2 & E2 & Hpost).
  exists b, w2. split; [|exact Hpost].
  rewrite (bind_ok _ _ _ _ _ E). exact E2.
Qed.

Lemma steps_bind_eq {A B} (m : M A) (f : A -> M B) (w w1 : world)
    (a : A) (post : B -> world -> Prop) :
  m w = (Ok a, w1) -> steps (f a) w1 post -> steps (m ≫= f) w post.
Proof.
  intros E (b & w2 & E2 & Hpost). exists b, w2. split; [|exact Hpost].
  rewrite (bind_ok _ _ _ _ _ E). exact E2.
Qed.

Lemma steps_weaken {A} (m : M A) (w : world)
    (post post' : A -> world -> Prop) :
  steps m w post -> (forall a w', post a w' -> post' a w') ->
  steps m w post'.
Proof.
  intros (a & w' & E & H) Himp. exists a, w'. split; [exact E|].
  apply Himp, H.
Qed.

Lemma grows_refl (n : nat) (w : world) : grows n w w.
Proof. split; [reflexivity | tauto]. Qed.

Lemma grows_trans (n : nat) (w1 w2 w3 : world) :
  grows n w1 w2 -> grows n w2 w3 -> grows n w1 w3.
Proof.
  intros [D1 K1] [D2 K2]. split.
  - intros p Hp. apply D2, D1, Hp.
  - intros p Hp. apply K2, K1, Hp.
Qed.

Lemma grows_same_heap (n : nat) (w w' : world) :
  heap w' = heap w -> grows n w w'.
Proof.
  intros E. split; [rewrite E; reflexivity|].
  intros p (c & Hc & Hn). exists c. rewrite E. tauto.
Qed.

Lemma steps_draw {A} (f : Random.rng -> A * Random.rng) (w : world)
    (post : A -> world -> Prop) :
  (forall a w', heap w' = heap w -> a = (f (rng w)).1 -> post a w') ->
  steps (draw f) w post.
Proof.
  intros H. unfold steps, draw. destruct (f (rng w)) as [a r] eqn:E.
  eexists _, _. split; [reflexivity|]. apply H; reflexivity.
Qed.

(** Replacing an object by one with the same genes. *)
Lemma grows_update (n : nat) (w : world) (p : ref) (c c' : Chromosome.t) :
  heap w !! p = Some c ->
  Chromosome.genes c' = Chromosome.genes c ->
  grows n w {| heap := <[p := c']> (heap w); rng := rng w |}.
Proof.
  intros Hc Hg. split; cbn [heap].
  - rewrite dom_insert. intros q Hq. apply elem_of_union_r, Hq.
  - intros q (d & Hd & Hn). unfold arity_ok. cbn [heap].
    destruct (decide (q = p)) as [->|Hne].
    + exists c'. rewrite lookup_insert_eq. split; [reflexivity|].
      rewrite Hg. congruence.
    + exists d. rewrite lookup_insert_ne by congruence. tauto.
Qed.

Lemma arity_live (n : nat) (w : world) (p : ref) :
  arity_ok n w p -> is_Some (heap w !! p).
Proof. intros (c & Hc & _). exists c. exact Hc. Qed.

Lemma steps_deref (w : world) (p : ref) (c : Chromosome.t) :
  heap w !! p = Some c ->
  steps (deref p) w (fun a w' => a = c /\ w' = w).
Proof.
  intros Hc. exists c, w. split; [apply deref_live, Hc | tauto].
Qed.

Lemma steps_set_fitness_score (n : nat) (w : world) (p : ref) (x : Q) :
  is_Some (heap w !! p) ->
  steps (set_fitness_score p x) w (fun _ w' => grows n w w').
Proof.
  intros [c Hc]. unfold set_fitness_score.
  eapply steps_bind; [apply steps_deref, Hc|]. intros a w1 [-> ->].
  eexists _, _. split; [reflexivity|].
  eapply grows_update; [exact Hc | reflexivity].
Qed.

Lemma steps_set_fitness (n : nat) (w : world) (p : ref) (x : option Q) :
  is_Some (heap w !! p) ->
  steps (set_fitness p x) w (fun _ w' => grows n w w').
Proof.
  intros [c Hc]. unfold set_fitness.
  eapply steps_bind; [apply steps_deref, Hc|]. intros a w1 [-> ->].
  eexists _, _. split; [reflexivity|].
  eapply grows_update; [exact Hc | reflexivity].
Qed.

Lemma steps_set_id (n : nat) (w : world) (p : ref) (x : string) :
  is_Some (heap w !! p) ->
  steps (set_id p x) w (fun _ w' => grows n w w').
Proof.
  intros [c Hc]. unfold set_id.
  eapply steps_bind; [apply steps_deref, Hc|]. intros a w1 [-> ->].
  eexists _, _. split; [reflexivity|].
  eapply grows_update; [exact Hc | reflexivity].
Qed.

Lemma steps_set_chromosome_id (n : nat) (w : world) (p : ref)
    (x : option string) :
  is_Some (heap w !! p) ->
  steps (set_chromosome_id p x) w (fun _ w' => grows n w w').
Proof.
  intros [c Hc]. unfold set_chromosome_id.
  eapply steps_bind; [apply steps_deref, Hc|]. intros a w1 [-> ->].
  eexists _, _. split; [reflexivity|].
  eapply grows_update; [exact Hc | reflexivity].
Qed.

Lemma steps_copy_fitness (n : nat) (w : world) (p : ref) :
  is_Some (heap w !! p) ->
  steps (copy_fitness p) w (fun _ w' => grows n w w').
Proof.
  intros [c Hc]. unfold copy_fitness.
  eapply steps_bind; [apply steps_deref, Hc|]. intros a w1 [-> ->].
  apply steps_set_fitness. exists c. exact Hc.
Qed.

Lemma steps_new (n : nat) (w : world) (c : Chromosome.t) :
  length (Chromosome.genes c) = n ->
  steps (new c) w
    (fun p w' => grows n w w' /\ arity_ok n w' p /\ (p ∉ dom (heap w)) /\
                 heap w' = <[p := c]> (heap w)).
Proof.
  intros Hn. unfold steps, new.
  set (p := fresh (dom (heap w))).
  assert (Hp : p ∉ dom (heap w)) by apply is_fresh.
  eexists _, _. split; [reflexivity|]. split; [|split; [|split]].
  - split; cbn [heap].
    + rewrite dom_insert. intros q Hq. apply elem_of_union_r, Hq.
    + intros q (d & Hd & Hl). exists d. cbn [heap].
      rewrite lookup_insert_ne; [tauto|].
      intros ->. apply Hp, elem_of_dom. exists d. exact Hd.
  - exists c. cbn [heap]. rewrite lookup_insert_eq. tauto.
  - exact Hp.
  - reflexivity.
Qed.

Lemma steps_mutate (n : nat) (w : world) (ch : ref) (rate : Q) :
  (1 <= n)%nat -> arity_ok n w ch ->
  steps (mutate ch rate) w (fun _ w' => grows n w w').
Proof.
  intros Hn (c & Hc & Hl).
  destruct (returns_mutate ch (heap w) c rate) with (w := w)
    as (a & w' & E & (g & Hh & Hg & _) & _).
  { unfold Py.len. lia. }
  { apply in_place_start, Hc. }
  exists a, w'. split; [exact E|]. split.
  - rewrite Hh, dom_insert. intros q Hq. apply elem_of_union_r, Hq.
  - intros q (d & Hd & Hdl). unfold arity_ok. rewrite Hh.
    destruct (decide (q = ch)) as [->|Hne].
    + eexists. rewrite lookup_insert_eq. split; [reflexivity|].
      cbn [Chromosome.with_genes Chromosome.genes]. lia.
    + exists d. rewrite lookup_insert_ne by congruence. tauto.
Qed.

Lemma steps_draw_or_raise {A} (f : Random.rng -> result A * Random.rng)
    (w : world) (a : A) (r : Random.rng) (post : A -> world -> Prop) :
  f (rng w) = (Ok a, r) ->
  post a {| heap := heap w; rng := r |} ->
  steps (draw_or_raise f) w post.
Proof.
  intros E H. unfold steps, draw_or_raise. rewrite E.
  eexists _, _. split; [reflexivity | exact H].
Qed.

Lemma steps_crossover (n : nat) (w : world) (p1 p2 : ref) :
  (1 <= n)%nat -> arity_ok n w p1 -> arity_ok n w p2 ->
  steps (crossover p1 p2) w
    (fun child w' =>
       grows n w w' /\ arity_ok n w' child /\
       (child = p1 \/ child ∉ dom (heap w))).
Proof.
  intros Hn (c1 & H1 & L1) (c2 & H2 & L2). unfold crossover.
  eapply steps_bind; [apply steps_deref, H1|]. intros a w1 [-> ->].
  destruct (Py.len (Chromosome.genes c1) <? 2) eqn:E.
  - apply steps_ret. split; [apply grows_refl|].
    split; [exists c1; tauto | left; reflexivity].
  - apply Z.ltb_ge in E. unfold Py.len in E.
    destruct (randint_in_range 1 (Py.len (Chromosome.genes c1) - 1) (rng w))
      as (point & r1 & Er & Hpoint & _); [unfold Py.len; lia|].
    eapply steps_bind.
    { eapply steps_draw_or_raise with (post := fun a w' =>
        a = point /\ heap w' = heap w); [exact Er | tauto]. }
    intros a w1 [-> Hw1].
    eapply steps_bind; [apply steps_deref; rewrite Hw1; exact H2|].
    intros a w2 [-> ->].
    eapply steps_bind.
    { apply steps_draw with (post := fun _ w' => heap w' = heap w).
      intros a w' Hw' _. congruence. }
    intros ident w2 Hw2.
    eapply steps_weaken.
    { apply (steps_new n). cbn [Chromosome.genes].
      unfold Py.slice_to, Py.slice_from.
      destruct (0 <=? point) eqn:Ep; [|apply Z.leb_gt in Ep; lia].
      rewrite length_app, length_take, length_drop.
      unfold Py.len in Hpoint. lia. }
    cbn beta. intros child w' (Hg & Ha & Hfresh & _).
    split; [|split; [exact Ha|]].
    + eapply grows_trans; [|exact Hg]. apply grows_same_heap. exact Hw2.
    + right. rewrite <- Hw2. exact Hfresh.
Qed.

Lemma steps_tournament (n : nat) (w : world) (population : list ref) :
  population <> [] ->
  (forall p, p ∈ population -> arity_ok n w p) ->
  steps (tournament_selection population) w
    (fun p w' => p ∈ population /\ heap w' = heap w).
Proof.
  intros Hne Hall.
  destruct (tournament_selection_spec w population Hne)
    as (p & r' & competitors & E & Hsub & _ & Hp & _).
  { intros p Hp. eapply arity_live, Hall, Hp. }
  eexists _, _. split; [exact E|]. split; [|reflexivity].
  eapply elem_of_submseteq; [exact Hp | exact Hsub].
Qed.

Lemma arity_same_heap (n : nat) (w w' : world) (p : ref) :
  heap w' = heap w -> arity_ok n w p -> arity_ok n w' p.
Proof. intros E (c & Hc & Hl). exists c. rewrite E. tauto. Qed.

Lemma steps_breed_one (n : nat) (w : world) (population : list ref)
    (mutation_rate crossover_rate : Q) :
  (1 <= n)%nat -> population <> [] ->
  (forall p, p ∈ population -> arity_ok n w p) ->
  steps (breed_one population mutation_rate crossover_rate) w
    (fun child w' =>
       grows n w w' /\ arity_ok n w' child /\
       (child ∈ population \/ child ∉ dom (heap w))).
Proof.
  intros Hn Hne Hall. unfold breed_one.
  eapply steps_bind; [apply (steps_tournament n); assumption|].
  intros p1 w1 [Hp1 Hw1].
  assert (Hall1 : forall p, p ∈ population -> arity_ok n w1 p).
  { intros p Hp. eapply arity_same_heap; [exact Hw1 | apply Hall, Hp]. }
  eapply steps_bind; [apply (steps_tournament n); assumption|].
  intros p2 w2 [Hp2 Hw2].
  assert (Hall2 : forall p, p ∈ population -> arity_ok n w2 p).
  { intros p Hp. eapply arity_same_heap; [exact Hw2 | apply Hall1, Hp]. }
  eapply steps_bind.
  { apply steps_draw with (post := fun _ w' => heap w' = heap w2).
    intros a w' Hw' _. exact Hw'. }
  intros u w3 Hw3.
  assert (Hall3 : forall p, p ∈ population -> arity_ok n w3 p).
  { intros p Hp. eapply arity_same_heap; [exact Hw3 | apply Hall2, Hp]. }
  assert (Hdom : dom (heap w3) = dom (heap w)) by congruence.
  eapply steps_bind with (mid := fun child w' =>
    grows n w3 w' /\ arity_ok n w' child /\
    (child ∈ population \/ child ∉ dom (heap w))).
  { destruct (Py.lt u crossover_rate).
    - eapply steps_weaken; [apply (steps_crossover n); auto|].
      cbn beta. intros child w' (Hg & Ha & Hc).
      split; [exact Hg|]. split; [exact Ha|].
      destruct Hc as [->|Hc]; [left; exact Hp1 | right].
      rewrite <- Hdom. exact Hc.
    - eapply steps_bind.
      { apply steps_draw with (post := fun _ w' => heap w' = heap w3).
        intros a w' Hw' _. exact Hw'. }
      intros new_id w4 Hw4.
      eapply steps_bind.
      { apply (steps_set_id n). rewrite Hw4.
        eapply arity_live, Hall3, Hp1. }
      intros [] w5 Hg5.
      eapply steps_bind.
      { apply (steps_set_chromosome_id n).
        eapply arity_live, Hg5, arity_same_heap; [exact Hw4|].
        apply Hall3, Hp1. }
      intros [] w6 Hg6. apply steps_ret.
      assert (Hg : grows n w3 w6).
      { eapply grows_trans; [|exact Hg6].
        eapply grows_trans; [|exact Hg5]. apply grows_same_heap, Hw4. }
      split; [exact Hg|]. split; [apply Hg, Hall3, Hp1 | left; exact Hp1]. }
  intros child w4 (Hg4 & Ha4 & Hc4).
  eapply steps_bind; [apply (steps_mutate n); [exact Hn | exact Ha4]|].
  intros [] w5 Hg5.
  eapply steps_bind.
  { apply (steps_copy_fitness n). eapply arity_live, Hg5, Ha4. }
  intros [] w6 Hg6. apply steps_ret.
  split; [|split; [apply Hg6, Hg5, Ha4 | exact Hc4]].
  eapply grows_trans; [|exact Hg6].
  eapply grows_trans; [|exact Hg5].
  eapply grows_trans; [|exact Hg4].
  apply grows_same_heap. congruence.
Qed.

Lemma insert_by_key_perm (x : Q * ref) (l : list (Q * ref)) :
  insert_by_key x l ≡ₚ x :: l.
Proof.
  induction l as [|y rest IH]; cbn [insert_by_key]; [reflexivity|].
  destruct (Py.lt _ _); [|reflexivity].
  rewrite IH. apply Permutation_swap.
Qed.

Lemma sort_by_key_perm (l : list (Q * ref)) : sort_by_key l ≡ₚ l.
Proof.
  unfold sort_by_key. induction l as [|x rest IH]; cbn [foldr]; [reflexivity|].
  rewrite insert_by_key_perm, IH. reflexivity.
Qed.

Lemma insert_by_key_sorted (x : Q * ref) (l : list (Q * ref)) :
  StronglySorted (fun a b => (b.1 <= a.1)%Q) l ->
  StronglySorted (fun a b => (b.1 <= a.1)%Q) (insert_by_key x l).
Proof.
  induction l as [|y rest IH]; intros Hs; cbn [insert_by_key].
  - constructor; constructor.
  - apply StronglySorted_inv in Hs as [Hrest Hy].
    destruct (Py.lt x.1 y.1) eqn:E.
    + apply lt_true in E. constructor; [apply IH, Hrest|].
      rewrite insert_by_key_perm. constructor; [lra | exact Hy].
    + apply lt_false in E. constructor; [constructor; assumption|].
      constructor; [exact E|].
      eapply Forall_impl; [exact Hy|]. intros z Hz. cbn beta in Hz. lra.
Qed.

Lemma sort_by_key_sorted (l : list (Q * ref)) :
  StronglySorted (fun a b => (b.1 <= a.1)%Q) (sort_by_key l).
Proof.
  unfold sort_by_key. induction l as [|x rest IH]; cbn [foldr].
  - constructor.
  - apply insert_by_key_sorted, IH.
Qed.

Lemma steps_keys (w : world) (l : list ref) :
  (forall p, p ∈ l -> is_Some (heap w !! p)) ->
  steps (keys l) w
    (fun ks w' =>
       w' = w /\ map snd ks = l /\
       Forall (fun k => k.1 = fitness_of w k.2) ks).
Proof.
  induction l as [|p rest IH]; intros Hlive; cbn [keys].
  - apply steps_ret. split; [reflexivity|]. split; [reflexivity|constructor].
  - destruct (Hlive p) as [c Hc]; [apply list_elem_of_here|].
    eapply steps_bind; [apply steps_deref, Hc|]. intros a w1 [-> ->].
    eapply steps_bind.
    { apply IH. intros q Hq. apply Hlive, list_elem_of_further, Hq. }
    intros ks w1 (-> & Hks & Hall). apply steps_ret.
    split; [reflexivity|]. split; [cbn [map snd]; rewrite Hks; reflexivity|].
    constructor; [|exact Hall]. cbn [fst snd]. unfold fitness_of.
    rewrite Hc. reflexivity.
Qed.

Lemma steps_sorted_by_fitness (w : world) (l : list ref) :
  (forall p, p ∈ l -> is_Some (heap w !! p)) ->
  steps (sorted_by_fitness l) w
    (fun ranked w' =>
       w' = w /\ ranked ≡ₚ l /\
       StronglySorted
         (fun p q => (fitness_of w q <= fitness_of w p)%Q) ranked).
Proof.
  intros Hlive. unfold sorted_by_fitness.
  eapply steps_bind; [apply steps_keys, Hlive|].
  intros ks w1 (-> & Hks & Hall). apply steps_ret.
  split; [reflexivity|]. split.
  - rewrite <- Hks. apply Permutation_map, sort_by_key_perm.
  - pose proof (sort_by_key_sorted ks) as Hs.
    assert (Hall' : Forall (fun k => k.1 = fitness_of w k.2) (sort_by_key ks)).
    { rewrite sort_by_key_perm. exact Hall. }
    generalize dependent (sort_by_key ks). clear Hall Hks. intros s Hs.
    induction Hs as [|k rest Hrest IH Hk]; intros Hall'; cbn [map];
      [constructor|].
    apply Forall_cons in Hall' as [Ek Hall'].
    constructor; [apply IH, Hall'|].
    apply Forall_forall. intros q Hq.
    apply list_elem_of_fmap in Hq as (k' & -> & Hk').
    pose proof (proj1 (Forall_forall _ _) Hk k' Hk') as Hle.
    pose proof (proj1 (Forall_forall _ _) Hall' k' Hk') as Ek'.
    cbn beta in Hle, Ek'. rewrite <- Ek, <- Ek'. exact Hle.
Qed.

Lemma steps_for_refs (n : nat) (body : ref -> M unit) (l : list ref) :
  (forall p w, arity_ok n w p ->
               steps (body p) w (fun _ w' => grows n w w')) ->
  forall w,
    (forall p, p ∈ l -> arity_ok n w p) ->
    steps (for_refs l body) w (fun _ w' => grows n w w').
Proof.
  intros Hbody. induction l as [|p rest IH]; intros w Hall; cbn [for_refs].
  - apply steps_ret, grows_refl.
  - eapply steps_bind; [apply Hbody, Hall, list_elem_of_here|].
    intros [] w1 Hg1.
    eapply steps_weaken.
    { apply IH. intros q Hq. apply Hg1, Hall, list_elem_of_further, Hq. }
    cbn beta. intros _ w2 Hg2. eapply grows_trans; eassumption.
Qed.

Lemma steps_evaluate (n : nat) (w : world) (ind : ref) :
  arity_ok n w ind ->
  steps (evaluate_individual ind) w (fun _ w' => grows n w w').
Proof.
  intros Ha. unfold evaluate_individual.
  eapply steps_bind.
  { destruct (mock_fitness_heap ind w) as (s & w1 & E & Hh).
    exists s, w1. split; [exact E|]. exact Hh. }
  intros s w1 Hw1.
  eapply steps_bind.
  { apply (steps_set_fitness_score n), (arity_live n).
    eapply arity_same_heap; [exact Hw1 | exact Ha]. }
  intros [] w2 Hg2.
  eapply steps_weaken.
  { apply (steps_copy_fitness n), (arity_live n), Hg2.
    eapply arity_same_heap; [exact Hw1 | exact Ha]. }
  cbn beta. intros _ w3 Hg3.
  eapply grows_trans; [|exact Hg3].
  eapply grows_trans; [|exact Hg2]. apply grows_same_heap, Hw1.
Qed.

Lemma steps_breed (n : nat) (population : list ref)
    (mutation_rate crossover_rate : Q) (fuel : nat) :
  (1 <= n)%nat ->
  forall (next_gen : list ref) (w : world),
    (length population - length next_gen <= fuel)%nat ->
    (forall p, p ∈ population -> arity_ok n w p) ->
    steps (breed fuel population next_gen mutation_rate crossover_rate) w
      (fun res w' =>
         exists added,
           res = Some (next_gen ++ added) /\
           length (next_gen ++ added) =
             Nat.max (length next_gen) (length population) /\
           grows n w w' /\
           forall p, p ∈ added ->
                     arity_ok n w' p /\
                     (p ∈ population \/ p ∉ dom (heap w))).
Proof.
  intros Hn. induction fuel as [|fuel IH]; intros next_gen w Hfuel Hall;
    cbn [breed]; unfold Py.len.
  - destruct (Z.of_nat (length next_gen) <? Z.of_nat (length population))
      eqn:E; [apply Z.ltb_lt in E; lia|].
    apply Z.ltb_ge in E. apply steps_ret. exists [].
    rewrite app_nil_r. split; [reflexivity|]. split; [lia|].
    split; [apply grows_refl|]. intros p Hp. inversion Hp.
  - destruct (Z.of_nat (length next_gen) <? Z.of_nat (length population))
      eqn:E.
    + apply Z.ltb_lt in E.
      assert (Hne : population <> [])
        by (intros ->; cbn [length] in E; lia).
      eapply steps_bind; [apply (steps_breed_one n); assumption|].
      intros child w1 (Hg1 & Ha1 & Hc1).
      eapply steps_weaken.
      { apply IH.
        - rewrite length_app. cbn [length]. lia.
        - intros p Hp. apply Hg1, Hall, Hp. }
      cbn beta. intros res w2 (added & -> & Hlen & Hg2 & Hadded).
      exists (child :: added). rewrite <- app_assoc. cbn [app].
      split; [reflexivity|]. split.
      { rewrite <- app_assoc in Hlen. cbn [app] in Hlen. rewrite Hlen.
        rewrite length_app. cbn [length]. lia. }
      split; [eapply grows_trans; eassumption|].
      intros p Hp. apply elem_of_cons in Hp as [->|Hp].
      * split; [apply Hg2, Ha1 | exact Hc1].
      * destruct (Hadded p Hp) as [Hap Hcp]. split; [exact Hap|].
        destruct Hcp as [Hcp|Hcp]; [left; exact Hcp | right].
        intros Hin. apply Hcp. destruct Hg1 as [Hd _]. apply Hd, Hin.
    + apply Z.ltb_ge in E. apply steps_ret. exists [].
      rewrite app_nil_r. split; [reflexivity|]. split; [lia|].
      split; [apply grows_refl|]. intros p Hp. inversion Hp.
Qed.

Lemma steps_evolve_population
    (n fuel : nat) (w : world) (cfg_id : string)
    (mutation_rate crossover_rate : Q) (current_output : PopulationOutput) :
  (1 <= n)%nat ->
  (forall p, p ∈ individuals current_output -> arity_ok n w p) ->
  (length (individuals current_output) <= fuel)%nat ->
  steps (evolve_population fuel cfg_id mutation_rate crossover_rate
                           current_output) w
    (fun res w' =>
       exists out w1 ranked added,
         res = Some out /\
         generation_id out = generation_id current_output + 1 /\
         population_count out = Py.len (individuals current_output) /\
         Py.len (individuals out) = Py.len (individuals current_output) /\
         for_refs (individuals current_output) evaluate_individual w
           = (Ok tt, w1) /\
         sorted_by_fitness (individuals current_output) w1
           = (Ok ranked, w1) /\
         individuals out = take 2 ranked ++ added /\
         ranked ≡ₚ individuals current_output /\
         StronglySorted
           (fun p q => (fitness_of w1 q <= fitness_of w1 p)%Q) ranked /\
         (forall p, p ∈ added ->
                    p ∈ individuals current_output \/ p ∉ dom (heap w)) /\
         (forall p, p ∈ individuals out -> arity_ok n w' p) /\
         grows n w w').
Proof.
  intros Hn Hall Hfuel.
  set (old := individuals current_output) in *.
  unfold evolve_population. fold old.
  destruct (steps_for_refs n evaluate_individual old) with (w := w)
    as ([] & w1 & E1 & Hg1); [|exact Hall|].
  { intros p w0 Hp. apply steps_evaluate, Hp. }
  eapply steps_bind_eq; [exact E1|].
  assert (Hall1 : forall p, p ∈ old -> arity_ok n w1 p)
    by (intros p Hp; apply Hg1, Hall, Hp).
  destruct (steps_sorted_by_fitness w1 old)
    as (ranked & w1' & E2 & -> & Hperm & Hsorted).
  { intros p Hp. eapply arity_live, Hall1, Hp. }
  eapply steps_bind_eq; [exact E2|].
  assert (Hallr : forall p, p ∈ ranked -> arity_ok n w1 p).
  { intros p Hp. apply Hall1. rewrite <- Hperm. exact Hp. }
  assert (Hslice : Py.slice_to ranked 2 = take 2 ranked) by reflexivity.
  rewrite Hslice.
  assert (Hlen : length ranked = length old)
    by (apply Permutation_length, Hperm).
  eapply steps_bind.
  { apply (steps_breed n); [exact Hn | lia | exact Hallr]. }
  intros res w2 (added & -> & Hlen2 & Hg2 & Hadded).
  assert (Htotal : length (take 2 ranked ++ added) = length old).
  { rewrite Hlen2, length_take. lia. }
  assert (Hall2 : forall p, p ∈ take 2 ranked ++ added -> arity_ok n w2 p).
  { intros p Hp. apply elem_of_app in Hp as [Hp|Hp].
    - apply Hg2, Hallr. apply elem_of_take in Hp as (i & Hi & _).
      eapply list_elem_of_lookup_2, Hi.
    - apply Hadded, Hp. }
  eapply steps_bind.
  { apply steps_keys. intros p Hp. eapply arity_live, Hall2, Hp. }
  intros ks w2' (-> & _ & _).
  eapply steps_bind.
  { apply steps_sorted_by_fitness. intros p Hp.
    eapply arity_live, Hall2, Hp. }
  intros sorted_pop w2' (-> & _ & _).
  apply steps_ret.
  eexists _, w1, ranked, added. split; [reflexivity|].
  cbn [generation_id population_count individuals].
  split; [reflexivity|].
  split; [unfold Py.len; rewrite Htotal; reflexivity|].
  split; [unfold Py.len; rewrite Htotal; reflexivity|].
  split; [exact E1|]. split; [exact E2|].
  split; [reflexivity|]. split; [exact Hperm|]. split; [exact Hsorted|].
  split; [|split; [exact Hall2 | eapply grows_trans; eassumption]].
  intros p Hp. destruct (Hadded p Hp) as [_ [Hin|Hnew]].
  - left. rewrite <- Hperm. exact Hin.
  - right. intros Hin. apply Hnew. destruct Hg1 as [Hd _]. apply Hd, Hin.
Qed.


(** *** The first generation *)

Lemma steps_random_genes (required_params : list string) : forall w : world,
  steps (random_genes required_params) w
    (fun gs w' =>
       heap w' = heap w /\ length gs = length required_params /\
       Forall gene_in_range gs).
Proof.
  induction required_params as [|p_type rest IH]; intros w;
    cbn [random_genes].
  - apply steps_ret. split; [reflexivity|]. split; [reflexivity|constructor].
  - destruct (generate_random_gene_in_range p_type (rng w))
      as (g & r' & E & Hg).
    eapply steps_bind.
    { eapply steps_draw_or_raise with (post := fun a w' =>
        a = g /\ heap w' = heap w); [exact E | tauto]. }
    intros a w1 [-> Hw1].
    eapply steps_bind; [apply IH|]. intros gs w2 (Hw2 & Hlen & Hall).
    apply steps_ret. split; [congruence|].
    split; [cbn [length]; lia | constructor; assumption].
Qed.

(** What [initialize_population] guarantees of a new individual. *)
Lemma steps_create_individuals (required_params : list string) (count : nat) :
  forall (individuals : list ref) (w : world),
    steps (create_individuals count required_params individuals) w
      (fun res w' =>
         exists added,
           res = individuals ++ added /\
           length added = count /\
           NoDup added /\
           (forall q c, heap w !! q = Some c -> heap w' !! q = Some c) /\
           forall p, p ∈ added ->
             (p ∉ dom (heap w)) /\
             exists c,
               heap w' !! p = Some c /\
               length (Chromosome.genes c) = length required_params /\
               Forall gene_in_range (Chromosome.genes c) /\
               Chromosome.fitness_score c = 0%Q /\
               Chromosome.chromosome_id c = Some (Chromosome.id c)).
Proof.
  induction count as [|count IH]; intros individuals w;
    cbn [create_individuals].
  - apply steps_ret. exists []. rewrite app_nil_r.
    split; [reflexivity|]. split; [reflexivity|]. split; [constructor|].
    split; [tauto|]. intros p Hp. inversion Hp.
  - eapply steps_bind; [apply steps_random_genes|].
    intros genes w1 (Hw1 & Hlen & Hrange).
    eapply steps_bind.
    { apply steps_draw with (post := fun _ w' => heap w' = heap w).
      intros a w' Hw' _. congruence. }
    intros chr_id w2 Hw2.
    eapply steps_bind; [apply (steps_new (length required_params)), Hlen|].
    intros p w3 (_ & _ & Hfresh & Hw3). rewrite Hw2 in Hfresh.
    assert (Hframe3 : forall q c, heap w !! q = Some c ->
                                  heap w3 !! q = Some c).
    { intros q c Hq. rewrite Hw3, Hw2, lookup_insert_ne; [exact Hq|].
      intros ->. apply Hfresh, elem_of_dom. exists c. exact Hq. }
    eapply steps_weaken; [apply IH|]. cbn beta.
    intros res w4 (added & -> & Hcount & Hnodup & Hframe4 & Hadded).
    exists (p :: added). rewrite <- app_assoc. cbn [app].
    split; [reflexivity|]. split; [cbn [length]; lia|].
    assert (Hp3 : p ∈ dom (heap w3)).
    { rewrite Hw3, dom_insert. apply elem_of_union_l, elem_of_singleton.
      reflexivity. }
    split.
    { constructor; [|exact Hnodup]. intros Hin.
      apply (Hadded p Hin). exact Hp3. }
    split; [intros q c Hq; apply Hframe4, Hframe3, Hq|].
    intros q Hq. apply elem_of_cons in Hq as [->|Hq].
    + split; [exact Hfresh|]. eexists. split.
      { apply Hframe4. rewrite Hw3. apply lookup_insert_eq. }
      cbn [Chromosome.genes Chromosome.fitness_score
           Chromosome.chromosome_id Chromosome.id].
      split; [exact Hlen|]. split; [exact Hrange|].
      split; reflexivity.
    + destruct (Hadded q Hq) as [Hnew Hc]. split; [|exact Hc].
      intros Hin. apply Hnew. rewrite Hw3, dom_insert.
      apply elem_of_union_r. rewrite Hw2. exact Hin.
Qed.

(** X19. [initialize_population] always returns: generation 0 with
    max(0, population_size) individuals, all of them new objects,
    pairwise distinct, while the objects that existed are left as they
    were. Every individual has one gene per required input (one gene
    when there is none), each gene an integer or a real of -100..100 and
    never a boolean, and fitness score 0. *)
Theorem initialize_population_shape
    (cfg_id : string) (required_inputs : list string) (population_size : Z)
    (w : world) :
  exists out w',
    initialize_population cfg_id required_inputs population_size w =
      (Ok out, w') /\
    generation_id out = 0 /\
    population_count out = Z.max 0 population_size /\
    Py.len (individuals out) = Z.max 0 population_size /\
    NoDup (individuals out) /\
    (forall q c, heap w !! q = Some c -> heap w' !! q = Some c) /\
    forall p, p ∈ individuals out ->
      (p ∉ dom (heap w)) /\
      exists c,
        heap w' !! p = Some c /\
        length (Chromosome.genes c) = Nat.max 1 (length required_inputs) /\
        Forall gene_in_range (Chromosome.genes c) /\
        Chromosome.fitness_score c = 0%Q.
Proof.
  unfold initialize_population.
  set (required_params :=
         match required_inputs with
         | [] => ["int"%string]
         | _ => required_inputs
         end).
  assert (Hparams : length required_params
                    = Nat.max 1 (length required_inputs)).
  { unfold required_params. destruct required_inputs; cbn [length]; lia. }
  destruct (steps_create_individuals required_params
              (Z.to_nat population_size) [] w)
    as (res & w' & E & added & -> & Hcount & Hnodup & Hframe & Hadded).
  rewrite (bind_ok _ _ _ _ _ E). eexists _, w'. split; [reflexivity|].
  cbn [generation_id population_count individuals app].
  split; [reflexivity|]. split; [unfold Py.len; lia|].
  split; [unfold Py.len; lia|]. split; [exact Hnodup|].
  split; [exact Hframe|]. intros p Hp.
  destruct (Hadded p Hp) as (Hnew & c & Hc & Hl & Hr & Hf & _).
  split; [exact Hnew|]. exists c. rewrite <- Hparams. tauto.
Qed.

(** *** Generation after generation *)

Lemma steps_generations (n fuel : nat) (cfg_id : string)
    (mutation_rate crossover_rate : Q) (k : nat) :
  (1 <= n)%nat ->
  forall (current : PopulationOutput) (w : world),
    (forall p, p ∈ individuals current -> arity_ok n w p) ->
    (length (individuals current) <= fuel)%nat ->
    steps (generations k fuel cfg_id mutation_rate crossover_rate current) w
      (fun res w' =>
         exists out,
           res = Some out /\
           generation_id out = generation_id current + Z.of_nat k /\
           Py.len (individuals out) = Py.len (individuals current) /\
           (population_count current = Py.len (individuals current) ->
            population_count out = Py.len (individuals current)) /\
           (forall p, p ∈ individuals out -> arity_ok n w' p) /\
           grows n w w').
Proof.
  intros Hn. induction k as [|k IH]; intros current w Hall Hfuel;
    cbn [generations].
  - apply steps_ret. exists current. split; [reflexivity|].
    split; [lia|]. split; [reflexivity|]. split; [tauto|].
    split; [exact Hall | apply grows_refl].
  - eapply steps_bind;
      [apply (steps_evolve_population n); [exact Hn | exact Hall | exact Hfuel]|].
    intros res w1
      (out & ? & ? & ? & -> & Hid & Hcount & Hlen & _ & _ & _ & _ & _ & _
       & Hall1 & Hg1).
    cbn beta iota.
    eapply steps_weaken.
    { apply IH; [exact Hall1|]. unfold Py.len in Hlen. lia. }
    cbn beta.
    intros res w2 (out' & -> & Hid' & Hlen' & Hcount' & Hall2 & Hg2).
    exists out'. split; [reflexivity|]. split; [lia|].
    split; [congruence|]. split.
    + intros _. rewrite Hcount' by congruence. exact Hlen.
    + split; [exact Hall2 | eapply grows_trans; eassumption].
Qed.

(** X20. After [initialize_population], any number [k] of calls of
    [evolve_population], each on the output of the call before, all
    return, whatever the rates and the random draws: the result is
    generation [k] with max(0, population_size) individuals, each with
    one gene per required input (one gene when there is none). *)
Theorem evolution_keeps_going
    (k : nat) (cfg_id : string) (required_inputs : list string)
    (population_size : Z) (mutation_rate crossover_rate : Q) (w : world) :
  exists gen0 w0 out w',
    initialize_population cfg_id required_inputs population_size w =
      (Ok gen0, w0) /\
    generations k (Z.to_nat population_size) cfg_id mutation_rate
                crossover_rate gen0 w0 = (Ok (Some out), w') /\
    generation_id out = Z.of_nat k /\
    population_count out = Z.max 0 population_size /\
    Py.len (individuals out) = Z.max 0 population_size /\
    forall p, p ∈ individuals out ->
              arity_ok (Nat.max 1 (length required_inputs)) w' p.
Proof.
  unfold initialize_population.
  set (required_params :=
         match required_inputs with
         | [] => ["int"%string]
         | _ => required_inputs
         end).
  assert (Hparams : length required_params
                    = Nat.max 1 (length required_inputs)).
  { unfold required_params. destruct required_inputs; cbn [length]; lia. }
  destruct (steps_create_individuals required_params
              (Z.to_nat population_size) [] w)
    as (res & w0 & E & added & -> & Hcount & _ & _ & Hadded).
  rewrite (bind_ok _ _ _ _ _ E). cbn [app].
  set (gen0 := {| generation_id := 0; individuals := added |}).
  destruct (steps_generations (Nat.max 1 (length required_inputs))
              (Z.to_nat population_size) cfg_id mutation_rate crossover_rate
              k ltac:(lia) gen0 w0)
    as (res & w' & E' & out & -> & Hid & Hlen & Hpc & Hall & _).
  { intros p Hp. destruct (Hadded p Hp) as (_ & c & Hc & Hl & _).
    exists c. split; [exact Hc | congruence]. }
  { cbn [individuals gen0]. lia. }
  exists gen0, w0, out, w'. split; [reflexivity|]. split; [exact E'|].
  cbn [generation_id individuals population_count gen0] in *.
  split; [lia|]. split; [rewrite Hpc by reflexivity; unfold Py.len; lia|].
  split; [unfold Py.len in *; lia | exact Hall].
Qed.

End MainProofs.
(** ** From the spectrum to the report *)

Section ReportPipeline.

Import TarantulaLocalizer FaultLocalizer FaultLocalizationReporter.

Lemma round_canonical (x y : Q) (k : nat) :
  (Py.round x k == Py.round y k)%Q -> Py.round x k = Py.round y k.
Proof.
  unfold Py.round. intros E. apply Qred_complete in E.
  rewrite !(Qred_complete _ _ (Qred_correct _)) in E. exact E.
Qed.

Lemma ranking_scores_unit
    (self : t) (r : Random.rng) (source_file : string)
    (tests : list TestResult.t) (source_lines : option (gmap Z string))
    (x : SuspiciousLine.t) :
  In x (FaultLocalizationOutput.suspicious_lines
          (analyze self r source_file tests source_lines).1.1) ->
  exists v,
    SuspiciousLine.suspiciousness_score x = Py.round v 4 /\
    (0 <= Py.round v 4)%Q /\ (Py.round v 4 <= 1)%Q.
Proof.
  intros Hx.
  destruct (ranking_cases self r source_file tests source_lines)
    as [[_ E]|[Hne _]]; cbn zeta in *.
  - rewrite E in Hx. destruct Hx.
  - apply (ranked_record _ _ _ _ _ _ Hne) in Hx as (k & _ & ->).
    cbn [suspicious_line SuspiciousLine.suspiciousness_score fst snd
         passed failed].
    eexists. split; [reflexivity|].
    apply round_unit_interval; apply tarantula_unit_interval; lia.
Qed.

(** A line that only failed tests cover puts a score of 1 on top. *)
Lemma ranking_head_one
    (self : t) (r : Random.rng) (source_file : string)
    (tests : list TestResult.t) (source_lines : option (gmap Z string))
    (k : Z) :
  covered_by tests "failed" k -> ~ covered_by tests "passed" k ->
  exists top rest,
    FaultLocalizationOutput.suspicious_lines
      (analyze self r source_file tests source_lines).1.1 = top :: rest /\
    SuspiciousLine.suspiciousness_score top = 1%Q.
Proof.
  intros Hf Hp.
  assert (Hne : List.filter (has_status "failed") tests <> []).
  { apply failed_filter_nonempty. destruct Hf as (test & Hin & Hs & _).
    exists test. tauto. }
  pose proof (ranking_descending_order self r source_file tests source_lines)
    as Hdesc.
  pose proof (ranking_scores_unit self r source_file tests source_lines)
    as Hunit.
  assert (Hone : exists x,
            In x (FaultLocalizationOutput.suspicious_lines
                    (analyze self r source_file tests source_lines).1.1) /\
            SuspiciousLine.suspiciousness_score x = 1%Q).
  { eexists. split.
    - apply (ranked_record _ _ _ _ _ _ Hne). exists k. split; [|reflexivity].
      apply hits_filter_pos in Hf. lia.
    - cbn [suspicious_line SuspiciousLine.suspiciousness_score fst snd
           passed failed].
      pose proof (hits_filter_pos _ _ _ Hf) as Hfpos.
      rewrite (hits_filter_zero _ _ _ Hp). rewrite <- round_one.
      apply round_compat. apply tarantula_only_failing; [lia|].
      unfold Py.len. destruct (List.filter (has_status "failed") tests);
        [congruence | cbn [length]; lia]. }
  destruct Hone as (x & Hx & Hsx).
  destruct (FaultLocalizationOutput.suspicious_lines _) as [|top rest];
    [destruct Hx|].
  exists top, rest. split; [reflexivity|].
  destruct (Hunit top (or_introl eq_refl)) as (v & Ev & _ & Hv1).
  rewrite Ev, <- round_one. apply round_canonical. rewrite round_one.
  apply Qle_antisym; [exact Hv1|]. rewrite <- Ev.
  destruct Hx as [->|Hx]; [rewrite Hsx; lra|].
  unfold descending in Hdesc. apply StronglySorted_inv in Hdesc as [_ Hall].
  rewrite Forall_forall in Hall. rewrite <- Hsx.
  apply Hall, list_elem_of_In, Hx.
Qed.

(** X21. The report made from an analysis. Without a failed test nothing
    is reported and the only recommendation is the one for "no suspicious
    lines", whatever the number of tests. When some line is covered by
    failed tests only and at least one line is asked for, the report
    opens with a line of score 1 and the first recommendation is the
    high-priority one for that line. The reported scores lie in [0, 1]
    and the report names the analysis it was made from. *)
Theorem report_of_analysis
    (self : t) (r r2 : Random.rng) (now source_file : string)
    (tests : list TestResult.t) (source_lines : option (gmap Z string))
    (top_n : Z) :
  let analysis := (analyze self r source_file tests source_lines).1.1 in
  let report := (generate_report r2 now analysis top_n).1 in
  (List.filter (has_status "failed") tests = [] ->
   ReportOutput.top_suspicious_lines report = [] /\
   ReportOutput.recommendations report = [NoSuspiciousLines]) /\
  ((exists k, covered_by tests "failed" k /\ ~ covered_by tests "passed" k) ->
   1 <= top_n ->
   exists top rest others,
     ReportOutput.top_suspicious_lines report = top :: rest /\
     SuspiciousLine.suspiciousness_score top = 1%Q /\
     ReportOutput.recommendations report =
       HighPriority (SuspiciousLine.line_number top) 1 :: others) /\
  Forall (fun x => (0 <= SuspiciousLine.suspiciousness_score x)%Q /\
                   (SuspiciousLine.suspiciousness_score x <= 1)%Q)
         (ReportOutput.top_suspicious_lines report) /\
  ReportOutput.analysis_id report =
    FaultLocalizationOutput.analysis_id analysis.
Proof.
  intros analysis report. subst report. unfold generate_report.
  destruct (Random.uuid4_8 r2) as [ident r2'].
  cbn [fst ReportOutput.top_suspicious_lines ReportOutput.recommendations
       ReportOutput.analysis_id].
  split; [|split; [|split; [|reflexivity]]].
  - intros Hnone.
    destruct (ranking_cases self r source_file tests source_lines)
      as [[_ E]|[Hne _]]; [|contradiction].
    cbn zeta in E. fold analysis in E. rewrite E.
    unfold Py.slice_to. rewrite !take_nil.
    destruct (0 <=? top_n); split; reflexivity.
  - intros (k & Hf & Hp) Htop.
    destruct (ranking_head_one self r source_file tests source_lines k Hf Hp)
      as (top & rest & E & Hs).
    fold analysis in E. rewrite E. unfold Py.slice_to.
    destruct (0 <=? top_n) eqn:E0; [|apply Z.leb_gt in E0; lia].
    destruct (Z.to_nat top_n) as [|m] eqn:Em; [lia|]. cbn [take].
    eexists top, (take m rest), _. split; [reflexivity|].
    split; [exact Hs|].
    cbn [_generate_recommendations]. rewrite Hs.
    assert (Hlt : Py.lt (8 # 10) 1 = true) by reflexivity.
    rewrite Hlt. cbn [app]. reflexivity.
  - apply List.Forall_forall. intros x Hx.
    assert (Hin : In x (FaultLocalizationOutput.suspicious_lines analysis)).
    { unfold Py.slice_to in Hx.
      destruct (0 <=? top_n);
        apply list_elem_of_In, elem_of_take in Hx as (i & Hi & _);
        apply list_elem_of_In; eapply list_elem_of_lookup_2, Hi. }
    destruct (ranking_scores_unit self r source_file tests source_lines x Hin)
      as (v & -> & H0 & H1).
    split; assumption.
Qed.

(** X22. The recommendations of a report. With no line reported the
    list is the single "no suspicious lines" entry, and no remark on the
    test suite is made. Otherwise it has one to five entries and starts
    with the priority entry for the first line: high above 0.8, medium
    above 0.5, low otherwise. The "few tests" entry is there exactly when
    there are fewer than five tests, "no passing tests" exactly when no
    test passed, and "skewed" exactly when some test passed and the
    failed ones are more than twice as many; the last two never come
    together. *)
Theorem recommendation_rules
    (analysis : FaultLocalizationOutput.t)
    (top_suspicious : list SuspiciousLine.t) :
  let recs := _generate_recommendations analysis top_suspicious in
  let total := FaultLocalizationOutput.total_tests analysis in
  let n_passed := FaultLocalizationOutput.passed_tests analysis in
  let n_failed := FaultLocalizationOutput.failed_tests analysis in
  (top_suspicious = [] -> recs = [NoSuspiciousLines]) /\
  (forall top_line rest,
     top_suspicious = top_line :: rest ->
     let score := SuspiciousLine.suspiciousness_score top_line in
     let line := SuspiciousLine.line_number top_line in
     1 <= Py.len recs <= 5 /\
     (exists others,
        recs =
          (if Py.lt (8 # 10) score then HighPriority line score
           else if Py.lt (5 # 10) score then MediumPriority line score
           else LowSuspiciousness line score) :: others /\
        (forall n, In (FewTests n) others <-> n = total /\ total < 5) /\
        (In NoPassingTests others <-> n_passed = 0) /\
        (forall f p, In (Skewed f p) others <->
                     f = n_failed /\ p = n_passed /\
                     n_passed <> 0 /\ 2 * n_passed < n_failed) /\
        ~ In NoSuspiciousLines others)).
Proof.
  intros recs total n_passed n_failed. subst recs total n_passed n_failed.
  split; [intros ->; reflexivity|].
  intros top_line rest -> score line.
  cbn [_generate_recommendations]. fold score line.
  set (first := if Py.lt (8 # 10) score then [HighPriority line score]
                else if Py.lt (5 # 10) score then [MediumPriority line score]
                else [LowSuspiciousness line score]).
  set (only := List.filter only_in_failed (top_line :: rest)).
  set (second := match only with
                 | [] => []
                 | _ :: _ =>
                     [OnlyInFailed (Py.len only)
                        (map SuspiciousLine.line_number (Py.slice_to only 3))]
                 end).
  set (line_nums := map SuspiciousLine.line_number
                        (Py.slice_to (top_line :: rest) 5)).
  set (third := if 3 <=? Py.len (top_line :: rest)
                then if _are_lines_clustered line_nums 5
                     then match line_nums with
                          | x :: l => [Clustered (min_of x l) (max_of x l)]
                          | [] => []
                          end
                     else []
                else []).
  set (fourth := if FaultLocalizationOutput.total_tests analysis <? 5
                 then [FewTests (FaultLocalizationOutput.total_tests analysis)]
                 else []).
  set (fifth := if FaultLocalizationOutput.passed_tests analysis =? 0
                then [NoPassingTests]
                else if FaultLocalizationOutput.passed_tests analysis * 2
                        <? FaultLocalizationOutput.failed_tests analysis
                then [Skewed (FaultLocalizationOutput.failed_tests analysis)
                             (FaultLocalizationOutput.passed_tests analysis)]
                else []).
  assert (H1 : exists e,
            first = [e] /\
            e = (if Py.lt (8 # 10) score then HighPriority line score
                 else if Py.lt (5 # 10) score then MediumPriority line score
                 else LowSuspiciousness line score)).
  { unfold first. destruct (Py.lt (8 # 10) score);
      [|destruct (Py.lt (5 # 10) score)]; eexists; split; reflexivity. }
  destruct H1 as (e & -> & He).
  assert (H2 : second = [] \/ exists c ls, second = [OnlyInFailed c ls]).
  { unfold second. destruct only; [left; reflexivity|].
    right. eexists _, _. reflexivity. }
  assert (H3 : third = [] \/ exists lo hi, third = [Clustered lo hi]).
  { unfold third.
    destruct (3 <=? Py.len (top_line :: rest)); [|left; reflexivity].
    destruct (_are_lines_clustered _ _); [|left; reflexivity].
    destruct line_nums; [left; reflexivity|].
    right. eexists _, _. reflexivity. }
  assert (H4 : (fourth = [] /\
                5 <= FaultLocalizationOutput.total_tests analysis) \/
               (fourth = [FewTests (FaultLocalizationOutput.total_tests
                                      analysis)] /\
                FaultLocalizationOutput.total_tests analysis < 5)).
  { unfold fourth.
    destruct (FaultLocalizationOutput.total_tests analysis <? 5) eqn:E;
      [apply Z.ltb_lt in E; right | apply Z.ltb_ge in E; left]; tauto. }
  assert (H5 : (fifth = [NoPassingTests] /\
                FaultLocalizationOutput.passed_tests analysis = 0) \/
               (fifth = [Skewed (FaultLocalizationOutput.failed_tests analysis)
                                (FaultLocalizationOutput.passed_tests analysis)]
                /\ FaultLocalizationOutput.passed_tests analysis <> 0
                /\ 2 * FaultLocalizationOutput.passed_tests analysis
                   < FaultLocalizationOutput.failed_tests analysis) \/
               (fifth = [] /\
                FaultLocalizationOutput.passed_tests analysis <> 0 /\
                FaultLocalizationOutput.failed_tests analysis
                <= 2 * FaultLocalizationOutput.passed_tests analysis)).
  { unfold fifth.
    destruct (FaultLocalizationOutput.passed_tests analysis =? 0) eqn:E0.
    - apply Z.eqb_eq in E0. left. tauto.
    - apply Z.eqb_neq in E0.
      destruct (FaultLocalizationOutput.passed_tests analysis * 2
                <? FaultLocalizationOutput.failed_tests analysis) eqn:E1.
      + apply Z.ltb_lt in E1. right; left. split; [reflexivity|]. lia.
      + apply Z.ltb_ge in E1. right; right. split; [reflexivity|]. lia. }
  clearbody second third fourth fifth. clear only line_nums.
  split.
  - unfold Py.len. rewrite !length_app.
    destruct H2 as [->|(? & ? & ->)]; destruct H3 as [->|(? & ? & ->)];
      destruct H4 as [[-> _]|[-> _]];
      destruct H5 as [[-> _]|[[-> _]|[-> _]]]; cbn [length]; lia.
  - exists (second ++ third ++ fourth ++ fifth).
    split; [rewrite He; reflexivity|].
    destruct H2 as [->|(? & ? & ->)]; destruct H3 as [->|(? & ? & ->)];
      destruct H4 as [[-> ?]|[-> ?]];
      destruct H5 as [[-> ?]|[[-> [? ?]]|[-> [? ?]]]]; cbn [app].
    all: split; [intros n|split; [|split; [intros f p|]]].
    all: cbn [In]; unfold not; try split.
    all: let HH := fresh "HH" in
         intros HH;
         first
           [ exfalso; repeat (destruct HH as [HH|HH]);
             first [discriminate HH | exact HH | lia]
           | repeat (destruct HH as [HH|HH]);
             try discriminate HH; try (destruct HH; fail);
             try (injection HH as <-); try (injection HH as <- <-);
             repeat split; first [assumption | lia | reflexivity]
           | decompose [and] HH; subst; first [exfalso; lia | auto 10] ].
Qed.

End ReportPipeline.
(** ** The further properties on concrete inputs *)

Section Instances.

Import TarantulaLocalizer FaultLocalizer.

Lemma scenario_A_has_failed :
  exists test, In test scenario_A /\ TestResult.status test = "failed"%string.
Proof.
  exists (TestResult.mk "f" "failed" [1; 2; 3]).
  split; [right; left; reflexivity | reflexivity].
Qed.

Lemma scenario_A_has_passed :
  exists test, In test scenario_A /\ TestResult.status test = "passed"%string.
Proof.
  exists (TestResult.mk "p" "passed" [1; 2]).
  split; [left; reflexivity | reflexivity].
Qed.

Lemma scenario_A_top_ranked :
  In scenario_A_top
     (FaultLocalizationOutput.suspicious_lines
        (analyze __init__ zero_tape "f.cpp" scenario_A None).1.1).
Proof. vm_compute. left. reflexivity. Qed.

(** X2 on scenario A: lines 1 and 2 are named once by the passed and
    once by the failed test; line 1, met first, is ranked before
    line 2. *)
Lemma ranking_ties_in_discovery_order_witness :
  exists x1 x2,
    SuspiciousLine.line_number x1 = 1 /\
    SuspiciousLine.line_number x2 = 2 /\
    before x1 x2
      (FaultLocalizationOutput.suspicious_lines (analysis_of scenario_A)).
Proof.
  destruct (ranking_ties_in_discovery_order __init__ zero_tape "f.cpp"
              scenario_A None 1 2 scenario_A_has_failed)
    as (x1 & x2 & H1 & H2 & _ & _ & _ & Hb).
  - reflexivity.
  - reflexivity.
  - exists [], [], [3]. reflexivity.
  - exists x1, x2. split; [exact H1|]. split; [exact H2 | exact Hb].
Defined.

(** X3 on scenario A: line 3 is covered by no passed and one failed
    test. *)
Lemma coverage_counts_witness :
  SuspiciousLine.passed_coverage scenario_A_top = 0 /\
  SuspiciousLine.failed_coverage scenario_A_top = 1.
Proof.
  destruct (coverage_counts __init__ zero_tape "f.cpp" scenario_A None
              scenario_A_top scenario_A_has_failed scenario_A_top_ranked)
    as (Hp & Hf & _).
  split; [rewrite Hp | rewrite Hf]; reflexivity.
Defined.

(** X4 on scenario A: line 3 scores at least one half. *)
Lemma score_against_one_half_witness :
  (1 # 2 <= SuspiciousLine.suspiciousness_score scenario_A_top)%Q.
Proof.
  destruct (score_against_one_half __init__ zero_tape "f.cpp" scenario_A None
              scenario_A_top scenario_A_has_failed scenario_A_has_passed
              scenario_A_top_ranked) as [Hge _].
  apply Hge. vm_compute. discriminate.
Defined.

Lemma sample_line_ranked :
  In sample_line
     (FaultLocalizationOutput.suspicious_lines
        (analyze_from_executions zero_tape "f.cpp" sample_source
           sample_executions).1).
Proof. vm_compute. left. reflexivity. Qed.

(** X6 on one failed execution: the line reported is line 2 with its
    text. *)
Lemma analyze_from_executions_ranking_witness :
  SuspiciousLine.line_content sample_line = "  return 1;"%string.
Proof.
  destruct (analyze_from_executions_ranking zero_tape "f.cpp" sample_source
              sample_executions sample_line sample_line_ranked) as [_ E].
  rewrite E. vm_compute. reflexivity.
Defined.

(** X10 on a failed and a passed outcome of the same branch. *)
Lemma failed_outcome_scores_lower_witness :
  (fitness_score
     (FitnessEvaluator.calculate_fitness
        (FitnessEvaluator.__init__ two_branch_cfg) "f" failing_outcome).1
   <= fitness_score
        (FitnessEvaluator.calculate_fitness
           (FitnessEvaluator.__init__ two_branch_cfg) "p" passing_outcome).1)%Q.
Proof.
  apply (failed_outcome_scores_lower
           (FitnessEvaluator.__init__ two_branch_cfg) "f" "p"
           failing_outcome passing_outcome eq_refl eq_refl).
Defined.

Lemma parents_live (p : GeneticEngine.ref) :
  p ∈ [0%nat; 1%nat] ->
  Main.arity_ok 3 parents_world p.
Proof.
  intros Hp. apply elem_of_cons in Hp as [->|Hp];
    [|apply elem_of_cons in Hp as [->|Hp]; [|inversion Hp]];
    eexists; split; reflexivity.
Qed.

(** X17 on the two parents: the tournament returns one of them. *)
Lemma tournament_winner_is_fittest_witness :
  exists p w',
    GeneticEngine.tournament_selection [0%nat; 1%nat] parents_world
      = (Ok p, w') /\
    GeneticEngine.heap w' = GeneticEngine.heap parents_world.
Proof.
  destruct (tournament_winner_is_fittest parents_world [0%nat; 1%nat])
    as (p & w' & _ & E & Hh & _).
  - discriminate.
  - intros p Hp. eapply arity_live, parents_live, Hp.
  - exists p, w'. split; [exact E | exact Hh].
Defined.


(** X24 on scenario A and the same two tests in the other order. *)
Lemma ranking_independent_of_test_order_witness :
  Permutation
    (FaultLocalizationOutput.suspicious_lines (analysis_of scenario_A))
    (FaultLocalizationOutput.suspicious_lines
       (analysis_of (rev scenario_A))).
Proof.
  apply (ranking_independent_of_test_order __init__ __init__ zero_tape
           zero_tape "f.cpp" scenario_A (rev scenario_A) None).
  apply Permutation_rev.
Defined.

(** X25 on one branch against both branches of the universe. *)
Lemma more_coverage_scores_higher_witness :
  (fitness_score
     (FitnessEvaluator.calculate_fitness
        (FitnessEvaluator.__init__ two_branch_cfg) "p" passing_outcome).1
   <= fitness_score
        (FitnessEvaluator.calculate_fitness
           (FitnessEvaluator.__init__ two_branch_cfg) "a" full_outcome).1)%Q.
Proof.
  apply (more_coverage_scores_higher
           (FitnessEvaluator.__init__ two_branch_cfg) "p" "a"
           passing_outcome full_outcome); [|reflexivity].
  intros x Hx. cbn [branches_taken passing_outcome full_outcome] in *.
  apply elem_of_list_to_set. apply elem_of_list_to_set in Hx.
  apply elem_of_cons in Hx as [->|Hx]; [|inversion Hx].
  apply list_elem_of_here.
Defined.

End Instances.
